(** * IT asset management: discovery registry, firewall manager, router
      negotiation and the global blocking list

    A shallow embedding of the Python sources
    - [global_blocking.py]        (module [GlobalBlocking]),
    - [network_discovery.py]      (module [NetworkDiscovery]),
    - [network_firewall.py]       (module [NetworkFirewall]),
    - [router_config_manager.py]  (module [RouterConfig]),
    together with the properties of the specification that concern them.

    Conventions.
    - A Python [str] is a [string]; one [ascii] stands for one code point
      below 256.  [strip], [lower] and [replace] follow CPython on that range.
    - A value read from a JSON file is a [json]; objects are [gmap]s.
    - Code that talks to the outside (files, the device endpoint, SSH, TCP,
      the clock) is written in the monad [Eff]: the state is the list of
      events performed so far, and every answer of the outside world is an
      oracle applied to that history, so an answer may differ from one call
      to the next.
    - A Python exception caught by a [try] is an explicit failure branch. *)

From Stdlib Require Import ZArith Ascii String.
From stdpp Require Import base option list strings gmap pretty.

Set Warnings "-register-all".
Open Scope string_scope.
Open Scope list_scope.

(* ===================================================================== *)
(** ** Python string primitives                                           *)
(* ===================================================================== *)

Module PyStr.

(** [str.isspace] on one code point below 256: TAB..CR, FS..US, space,
    NEL and NBSP. *)
Definition is_space (c : ascii) : bool :=
  let n := nat_of_ascii c in
  (((9 <=? n) && (n <=? 13)) || ((28 <=? n) && (n <=? 32))
   || (n =? 133) || (n =? 160))%nat.

(** [str.lower] on one code point below 256: A..Z and the Latin-1 capitals
    (U+00C0..U+00DE without the multiplication sign U+00D7) move by 32. *)
Definition lower_char (c : ascii) : ascii :=
  let n := nat_of_ascii c in
  if (((65 <=? n) && (n <=? 90))
      || ((192 <=? n) && (n <=? 222) && negb (n =? 215)))%nat
  then ascii_of_nat (n + 32) else c.

Fixpoint lower (s : string) : string :=
  match s with
  | EmptyString => EmptyString
  | String c s' => String (lower_char c) (lower s')
  end.

Fixpoint lstrip (s : string) : string :=
  match s with
  | EmptyString => EmptyString
  | String c s' => if is_space c then lstrip s' else s
  end.

Fixpoint rstrip (s : string) : string :=
  match s with
  | EmptyString => EmptyString
  | String c s' =>
      match rstrip s' with
      | EmptyString => if is_space c then EmptyString else String c EmptyString
      | r => String c r
      end
  end.

(** [s.strip()] *)
Definition strip (s : string) : string := rstrip (lstrip s).

(** Left-to-right scan of [s.replace(old, new)] for a non-empty [old];
    [skip] counts the characters of a match still to be dropped. *)
Fixpoint replace_from (old new : string) (skip : nat) (s : string) : string :=
  match s with
  | EmptyString => EmptyString
  | String c s' =>
      match skip with
      | S k => replace_from old new k s'
      | O =>
          if String.prefix old s
          then new +:+ replace_from old new (String.length old - 1)%nat s'
          else String c (replace_from old new 0 s')
      end
  end.

(** [s.replace("", new)] puts [new] before every character and at the end. *)
Fixpoint replace_empty (new s : string) : string :=
  match s with
  | EmptyString => new
  | String c s' => new +:+ String c (replace_empty new s')
  end.

(** [s.replace(old, new)]: every non-overlapping occurrence, leftmost first. *)
Definition replace (old new s : string) : string :=
  match old with
  | EmptyString => replace_empty new s
  | _ => replace_from old new 0 s
  end.

(** [sep.join(l)] *)
Definition join (sep : string) (l : list string) : string := String.concat sep l.

(** [sub in s] *)
Fixpoint contains (sub s : string) : bool :=
  String.prefix sub s ||
  match s with
  | EmptyString => false
  | String _ s' => contains sub s'
  end.

End PyStr.

(* ===================================================================== *)
(** ** JSON values                                                        *)
(* ===================================================================== *)

(** What [json.load] returns (numbers are the integers). *)
Inductive json : Type :=
  | JNull
  | JBool (b : bool)
  | JNum (z : Z)
  | JStr (s : string)
  | JArr (l : list json)
  | JObj (m : gmap string json).

(** Python truth value of a loaded JSON value. *)
Definition truthy (j : json) : bool :=
  match j with
  | JNull => false
  | JBool b => b
  | JNum z => negb (z =? 0)%Z
  | JStr s => negb (String.eqb s "")
  | JArr l => negb (bool_decide (l = []))
  | JObj m => negb (bool_decide (dom m = (∅ : gset string)))
  end.

(* ===================================================================== *)
(** ** Effects: a history of events and oracles over it                   *)
(* ===================================================================== *)

(** A computation reads the history, answers, and extends the history. *)
Definition Eff (Ev A : Type) : Type := list Ev → A * list Ev.

#[global] Instance eff_ret {Ev} : MRet (Eff Ev) := λ A a t, (a, t).

#[global] Instance eff_bind {Ev} : MBind (Eff Ev) :=
  λ A B k m t, let '(a, t') := m t in k a t'.

(** Record one event. *)
Definition emit {Ev} (e : Ev) : Eff Ev unit := λ t, (tt, t ++ [e]).

(** Ask the outside world; its answer may depend on the history. *)
Definition ask {Ev A} (oracle : list Ev → A) : Eff Ev A := λ t, (oracle t, t).

(** The events a computation adds to a history. *)
Definition events_of {Ev A} (m : Eff Ev A) (t : list Ev) : list Ev :=
  drop (length t) (snd (m t)).

(* ===================================================================== *)
(** ** global_blocking.py                                                 *)
(* ===================================================================== *)

Module GlobalBlocking.
Import PyStr.

(** One element of [self.blocked_domains] (a dict in the JSON file). *)
Record BlockEntry := {
  domain : string;
  reason : string;
  created_by : string;
  created_at : string;
  applied_devices : list string;
  status : string
}.

(** One device record of the [/api/network-devices] endpoint;
    [currentIp] is [None] when the key is missing or null. *)
Record Device := {
  macAddress : string;
  currentIp : option string
}.

(** What the manager does to the block-list file and to the router, and
    what its fleet-wide operations returned.  [EvSaved] is one run of
    [save_blocked_domains]: the list handed to [json.dump] and whether
    the write went through. *)
Inductive Event :=
  | EvSshConnect (hostname username password port : json)
  | EvSshExec (command : string)
  | EvSshClose
  | EvSaved (blocked_domains : list BlockEntry) (success : bool)
  | EvApplied (dom : string) (success : bool) (applied_count : nat)
  | EvRemoved (dom : string) (success : bool) (removed_count : nat).

(** Reading [router_config.json]. *)
Inductive FileRead :=
  | FileMissing              (* os.path.exists is false *)
  | FileError                (* open or json.load raises *)
  | FileJson (content : json).

(** The outside world of one manager. *)
Record World := {
  w_now : list Event → string;              (* datetime.now().isoformat() *)
  w_save_ok : list Event → bool;            (* the JSON dump goes through *)
  w_router_file : list Event → FileRead;
  w_devices : list Event → list Device;     (* [] when the request fails *)
  w_ssh_connect : list Event → json → json → json → json → bool;
                                            (* false: ssh.connect raises *)
  w_ssh_exec : list Event → string → option string
                                            (* stderr text; None: raises *)
}.

Abbreviation M := (Eff Event).

(** [save_blocked_domains]: dumps [self.blocked_domains] to the file;
    True unless opening or writing raises. *)
Definition save_blocked_domains (w : World) (blocked_domains : list BlockEntry) : M bool :=
  ok ← ask (w_save_ok w);
  _ ← emit (EvSaved blocked_domains ok);
  mret ok.

(** [load_router_config]: the config only when
    [config.get('connection_status', {}).get('success', False)] is true;
    a missing file and every exception give [None]. *)
Definition load_router_config (w : World) : M (option (gmap string json)) :=
  f ← ask (w_router_file w);
  mret match f with
       | FileMissing | FileError => None
       | FileJson (JObj config) =>
           match default (JObj ∅) (config !! "connection_status") with
           | JObj cs =>
               if truthy (default (JBool false) (cs !! "success"))
               then Some config else None
           | _ => None                       (* AttributeError, caught *)
           end
       | FileJson _ => None                  (* AttributeError, caught *)
       end.

Definition get_discovered_devices (w : World) : M (list Device) :=
  ask (w_devices w).

(** [if not router_config] is taken exactly when this is [None]:
    [None] and the empty dict are false in Python. *)
Definition usable_config (router_config : option (gmap string json))
    : option (gmap string json) :=
  match router_config with
  | Some config => if truthy (JObj config) then Some config else None
  | None => None
  end.

(** [if device_ip:] *)
Definition ip_truthy (ip : option string) : option string :=
  match ip with
  | Some s => if String.eqb s "" then None else Some s
  | None => None
  end.

Definition block_rule (device_ip dom : string) : string :=
  "iptables -A FORWARD -s " +:+ device_ip +:+ " -m string --string '" +:+ dom
    +:+ "' --algo bm -j REJECT".

Definition unblock_rule (device_ip dom : string) : string :=
  "iptables -D FORWARD -s " +:+ device_ip +:+ " -m string --string '" +:+ dom
    +:+ "' --algo bm -j REJECT".

(** The [for device in devices] loop of [apply_domain_block];
    [None] when [exec_command] or reading stderr raises. *)
Fixpoint apply_loop (w : World) (dom : string) (devices : list Device)
    (applied_count : nat) : M (option nat) :=
  match devices with
  | [] => mret (Some applied_count)
  | device :: rest =>
      match ip_truthy (currentIp device) with
      | Some device_ip =>
          let rule_command := block_rule device_ip dom in
          err ← ask (λ t, w_ssh_exec w t rule_command);
          _ ← emit (EvSshExec rule_command);
          match err with
          | None => mret None
          | Some stderr =>
              if String.eqb (strip stderr) ""
              then apply_loop w dom rest (applied_count + 1)
              else apply_loop w dom rest applied_count
          end
      | None => apply_loop w dom rest applied_count
      end
  end.

(** The loop of [remove_domain_block]: stderr is not looked at. *)
Fixpoint remove_loop (w : World) (dom : string) (devices : list Device)
    (removed_count : nat) : M (option nat) :=
  match devices with
  | [] => mret (Some removed_count)
  | device :: rest =>
      match ip_truthy (currentIp device) with
      | Some device_ip =>
          let rule_command := unblock_rule device_ip dom in
          err ← ask (λ t, w_ssh_exec w t rule_command);
          _ ← emit (EvSshExec rule_command);
          match err with
          | None => mret None
          | Some _ => remove_loop w dom rest (removed_count + 1)
          end
      | None => remove_loop w dom rest removed_count
      end
  end.

(** The [try] block shared by the two fleet-wide operations: open the SSH
    session from the config, run the loop, close.  A missing key
    (KeyError), a failing connect and a failing command all end in the
    handler, which returns [(False, 0)]. *)
Definition ssh_session (w : World) (config : gmap string json)
    (loop : M (option nat)) : M (bool * nat) :=
  match config !! "router_ip", config !! "username", config !! "password" with
  | Some hostname, Some username, Some password =>
      let port := default (JNum 22) (config !! "port") in
      ok ← ask (λ t, w_ssh_connect w t hostname username password port);
      _ ← emit (EvSshConnect hostname username password port);
      if ok : bool then
        r ← loop;
        match r with
        | Some n => _ ← emit EvSshClose; mret (true, n)
        | None => mret (false, 0)
        end
      else mret (false, 0)
  | _, _, _ => mret (false, 0)
  end.

Definition apply_domain_block (w : World) (dom : string) : M (bool * nat) :=
  router_config ← load_router_config w;
  devices ← get_discovered_devices w;
  r ← match usable_config router_config with
      | None => mret (true, length devices)          (* simulated mode *)
      | Some config => ssh_session w config (apply_loop w dom devices 0)
      end;
  _ ← emit (EvApplied dom r.1 r.2);
  mret r.

Definition remove_domain_block (w : World) (dom : string) : M (bool * nat) :=
  router_config ← load_router_config w;
  devices ← get_discovered_devices w;
  r ← match usable_config router_config with
      | None => mret (true, length devices)          (* simulated mode *)
      | Some config => ssh_session w config (remove_loop w dom devices 0)
      end;
  _ ← emit (EvRemoved dom r.1 r.2);
  mret r.

(** [domain.strip().lower().replace('http://', '').replace('https://', '')
    .replace('www.', '')] *)
Definition clean_domain (d : string) : string :=
  replace "www." "" (replace "https://" "" (replace "http://" "" (lower (strip d)))).

(** [any(d['domain'] == clean_domain for d in self.blocked_domains)] *)
Definition is_blocked (clean : string) (blocked_domains : list BlockEntry) : bool :=
  existsb (λ d, String.eqb (domain d) clean) blocked_domains.

(** [add_blocked_domain]: the returned pair and the new value of
    [self.blocked_domains]. *)
Definition add_blocked_domain (w : World) (d reason created_by : string)
    (blocked_domains : list BlockEntry) : M ((bool * string) * list BlockEntry) :=
  let clean := clean_domain d in
  if is_blocked clean blocked_domains
  then mret ((false, "Domain " +:+ clean +:+ " is already blocked"), blocked_domains)
  else
    now ← ask (w_now w);
    let block_entry :=
      {| domain := clean; reason := reason; created_by := created_by;
         created_at := now; applied_devices := []; status := "active" |} in
    let blocked_domains := blocked_domains ++ [block_entry] in
    saved ← save_blocked_domains w blocked_domains;
    if saved : bool then
      '(success, applied_count) ← apply_domain_block w clean;
      if success : bool
      then mret ((true, "Domain " +:+ clean +:+ " blocked successfully on "
                          +:+ pretty applied_count +:+ " devices"), blocked_domains)
      else mret ((true, "Domain " +:+ clean
                          +:+ " added to block list (rules application pending)"),
                 blocked_domains)
    else mret ((false, "Failed to save blocked domains"), blocked_domains).

(** [remove_blocked_domain]: only [strip] and [lower] are applied to the
    input here. *)
Definition remove_blocked_domain (w : World) (d removed_by : string)
    (blocked_domains : list BlockEntry) : M ((bool * string) * list BlockEntry) :=
  let clean := lower (strip d) in
  let original_count := length blocked_domains in
  let blocked_domains := filter (λ e, domain e ≠ clean) blocked_domains in
  if (length blocked_domains =? original_count)%nat
  then mret ((false, "Domain " +:+ clean +:+ " not found in block list"), blocked_domains)
  else
    saved ← save_blocked_domains w blocked_domains;
    if saved : bool then
      '(success, removed_count) ← remove_domain_block w clean;
      if success : bool
      then mret ((true, "Domain " +:+ clean +:+ " unblocked successfully on "
                          +:+ pretty removed_count +:+ " devices"), blocked_domains)
      else mret ((true, "Domain " +:+ clean
                          +:+ " removed from block list (rules removal pending)"),
                 blocked_domains)
    else mret ((false, "Failed to save changes"), blocked_domains).

(** The [for domain_entry in self.blocked_domains] loop of
    [reapply_all_rules], on [(total_applied, failed_domains)]. *)
Fixpoint reapply_loop (w : World) (entries : list BlockEntry)
    (total_applied : nat) (failed_domains : list string) : M (nat * list string) :=
  match entries with
  | [] => mret (total_applied, failed_domains)
  | domain_entry :: rest =>
      if String.eqb (status domain_entry) "active" then
        '(success, count) ← apply_domain_block w (domain domain_entry);
        if success : bool
        then reapply_loop w rest (total_applied + count) failed_domains
        else reapply_loop w rest total_applied (failed_domains ++ [domain domain_entry])
      else reapply_loop w rest total_applied failed_domains
  end.

Definition reapply_all_rules (w : World) (blocked_domains : list BlockEntry)
    : M (bool * string) :=
  '(total_applied, failed_domains) ← reapply_loop w blocked_domains 0 [];
  match failed_domains with
  | _ :: _ =>
      mret (false, "Applied " +:+ pretty total_applied +:+ " rules, failed: "
                     +:+ join ", " failed_domains)
  | [] =>
      mret (true, "Successfully applied " +:+ pretty total_applied
                    +:+ " blocking rules")
  end.

(** *** Reading a history *)

(** The returns of [apply_domain_block] recorded in a history, oldest
    first: domain, success flag, count. *)
Definition applied_results (t : list Event) : list (string * bool * nat) :=
  omap (λ e, match e with
             | EvApplied d ok n => Some (d, ok, n)
             | _ => None
             end) t.

(** A computation that only extends the history, without recording a
    return of [apply_domain_block]. *)
Definition quiet {A} (m : M A) : Prop :=
  ∀ t, ∃ evs, (m t).2 = t ++ evs ∧ applied_results evs = [].

(** The domains of the entries with [status == 'active'], in list order. *)
Definition active_domains (blocked_domains : list BlockEntry) : list string :=
  domain <$> filter (λ e, status e = "active") blocked_domains.



(** A world without router file, with the given devices, where saving
    works. *)
Definition quiet_world (devices : list Device) : World :=
  {| w_now := λ _, "2024-01-01T00:00:00";
     w_save_ok := λ _, true;
     w_router_file := λ _, FileMissing;
     w_devices := λ _, devices;
     w_ssh_connect := λ _ _ _ _ _, false;
     w_ssh_exec := λ _ _, None |}.

End GlobalBlocking.

(* ===================================================================== *)
(** ** network_discovery.py                                               *)
(* ===================================================================== *)

Module NetworkDiscovery.
Import PyStr.

(** The [device_info] dict every scanner builds. *)
Record Observation := {
  ip : string;
  mac : option string;
  hostname : option string;
  vendor : option string;
  os : option string;
  ports : list string
}.

(** [device.get('mac')] as a condition: present and not empty. *)
Definition has_mac (device : Observation) : bool :=
  match mac device with
  | Some m => negb (String.eqb m "")
  | None => false
  end.

(** *** classify_device *)

Definition is_digit (c : ascii) : bool :=
  let n := nat_of_ascii c in ((48 <=? n) && (n <=? 57))%nat.

(** Digits with single underscores between them, as [int] accepts. *)
Fixpoint parse_digits (s : string) (acc : Z) (after_digit : bool) : option Z :=
  match s with
  | EmptyString => if after_digit then Some acc else None
  | String c s' =>
      if is_digit c
      then parse_digits s' (10 * acc + Z.of_nat (nat_of_ascii c - 48))%Z true
      else if Ascii.eqb c "_"
           then (if after_digit then parse_digits s' acc false else None)
           else None
  end.

(** The white space [int] skips at the two ends of a string of code
    points below 256: TAB..CR, space, NEL and NBSP.  FS..US, which
    [str.strip] removes, are not skipped. *)
Definition is_int_space (c : ascii) : bool :=
  let n := nat_of_ascii c in
  (((9 <=? n) && (n <=? 13)) || (n =? 32) || (n =? 133) || (n =? 160))%nat.

Fixpoint int_lstrip (s : string) : string :=
  match s with
  | EmptyString => EmptyString
  | String c s' => if is_int_space c then int_lstrip s' else s
  end.

Fixpoint int_rstrip (s : string) : string :=
  match s with
  | EmptyString => EmptyString
  | String c s' =>
      match int_rstrip s' with
      | EmptyString => if is_int_space c then EmptyString else String c EmptyString
      | r => String c r
      end
  end.

Fixpoint count_digits (s : string) : nat :=
  match s with
  | EmptyString => 0
  | String c s' => if is_digit c then S (count_digits s') else count_digits s'
  end.

(** [int(s)]; [None] is ValueError.  A string with more than 4300 digits
    is refused (CPython's default limit on the conversion). *)
Definition py_int (s : string) : option Z :=
  let body := int_rstrip (int_lstrip s) in
  if (4300 <? count_digits body)%nat then None
  else match body with
       | String "+" r => parse_digits r 0 false
       | String "-" r => Z.opp <$> parse_digits r 0 false
       | r => parse_digits r 0 false
       end.

(** [s.split('/')[0]] *)
Fixpoint before_slash (s : string) : string :=
  match s with
  | EmptyString => EmptyString
  | String c s' => if Ascii.eqb c "/" then EmptyString else String c (before_slash s')
  end.

(** [self.device_patterns], in insertion order. *)
Definition device_patterns : list (string * list string) :=
  [ ("printer", ["printer"; "canon"; "hp"; "epson"; "brother"; "xerox"; "lexmark"]);
    ("router", ["router"; "gateway"; "linksys"; "netgear"; "asus"; "tp-link"; "dlink"]);
    ("camera", ["camera"; "cam"; "hikvision"; "dahua"; "axis"; "foscam"]);
    ("iot", ["sensor"; "thermostat"; "smart"; "alexa"; "google"; "nest"]);
    ("server", ["server"; "nas"; "synology"; "qnap"; "freenas"]);
    ("mobile", ["android"; "iphone"; "samsung"; "pixel"; "oneplus"]);
    ("laptop", ["laptop"; "macbook"; "thinkpad"; "latitude"; "inspiron"]);
    ("desktop", ["desktop"; "optiplex"; "precision"; "workstation"]) ].

(** [str.title] on the keys above (lower-case ASCII words): the first
    letter is capitalised. *)
Definition title (s : string) : string :=
  match s with
  | EmptyString => EmptyString
  | String c s' =>
      let n := nat_of_ascii c in
      String (if ((97 <=? n) && (n <=? 122))%nat then ascii_of_nat (n - 32) else c) s'
  end.

(** The first category, in table order, one of whose patterns occurs. *)
Fixpoint match_patterns (table : list (string * list string)) (text : string)
    : option string :=
  match table with
  | [] => None
  | (device_type, patterns) :: rest =>
      if existsb (λ pattern, contains pattern text) patterns
      then Some (title device_type)
      else match_patterns rest text
  end.

(** The ports whose number parses; the others are skipped. *)
Definition port_numbers (ports : list string) : list Z :=
  omap (λ port_info, py_int (before_slash port_info)) ports.

Definition has_port (p : Z) (l : list Z) : bool := existsb (Z.eqb p) l.

Definition classify_device (device_info : Observation) : string :=
  let hostname := lower (default "" (hostname device_info)) in
  let ports_text := lower (join " " (ports device_info)) in
  let vendor := lower (default "" (vendor device_info)) in
  let text_to_analyze := hostname +:+ " " +:+ ports_text +:+ " " +:+ vendor in
  match match_patterns device_patterns text_to_analyze with
  | Some device_type => device_type
  | None =>
      let pn := port_numbers (ports device_info) in
      if has_port 80 pn || has_port 443 pn then
        if has_port 22 pn then "Server"
        else if has_port 631 pn then "Printer"
        else "Web Device"
      else if has_port 22 pn then "Linux Server"
      else if has_port 3389 pn then "Windows Server"
      else if has_port 139 pn || has_port 445 pn then "Windows Device"
      else if has_port 1883 pn || has_port 8883 pn then "IoT Device"
      else "Unknown Device"
  end.

(** *** The local database *)

(** A row of [discovered_devices]; timestamps are clock readings. *)
Record DeviceRow := {
  id : nat;
  mac_address : string;
  ip_address : string;
  row_hostname : option string;
  row_vendor : option string;
  device_type : string;
  first_seen : Z;
  last_seen : Z;
  ports_open : string;
  os_guess : option string;
  status : string
}.

(** A row of [scan_history]; [scan_duration] is never given a value. *)
Record ScanRow := {
  scan_id : nat;
  scan_time : Z;
  devices_found : nat;
  scan_duration : option Z;
  scan_method : string
}.

(** The two tables.  [mac_address] is UNIQUE, so the device table is a
    map from it; [next_id] is the AUTOINCREMENT counter; [tick] counts
    the statements executed so far, the argument of the clock. *)
Record Db := {
  discovered_devices : gmap string DeviceRow;
  next_id : nat;
  scan_history : list ScanRow;
  tick : nat
}.

(** The database after [init_local_db] on a new file. *)
Definition init_local_db : Db :=
  {| discovered_devices := ∅; next_id := 1; scan_history := []; tick := 0 |}.

Section Statements.
(** [CURRENT_TIMESTAMP] when the [n]-th statement runs. *)
Variable CURRENT_TIMESTAMP : nat → Z.

(** [SELECT id FROM discovered_devices WHERE mac_address = ?] and
    [fetchone]. *)
Definition select_id (m : string) (db : Db) : option nat * Db :=
  (id <$> discovered_devices db !! m,
   {| discovered_devices := discovered_devices db; next_id := next_id db;
      scan_history := scan_history db; tick := S (tick db) |}).

(** The UPDATE of an existing device: [first_seen], [id] and [status]
    are not assigned. *)
Definition update_device (device : Observation) (m device_type ports_str : string)
    (db : Db) : Db :=
  let now := CURRENT_TIMESTAMP (tick db) in
  {| discovered_devices :=
       alter (λ r, {| id := id r; mac_address := mac_address r;
                      ip_address := ip device;
                      row_hostname := hostname device;
                      row_vendor := vendor device;
                      device_type := device_type;
                      first_seen := first_seen r;
                      last_seen := now;
                      ports_open := ports_str;
                      os_guess := os device;
                      status := status r |})
             m (discovered_devices db);
     next_id := next_id db;
     scan_history := scan_history db;
     tick := S (tick db) |}.

(** The INSERT of a new device: the two timestamps and [status] take
    their column defaults. *)
Definition insert_device (device : Observation) (m device_type ports_str : string)
    (db : Db) : Db :=
  let now := CURRENT_TIMESTAMP (tick db) in
  {| discovered_devices :=
       <[ m := {| id := next_id db; mac_address := m;
                  ip_address := ip device;
                  row_hostname := hostname device;
                  row_vendor := vendor device;
                  device_type := device_type;
                  first_seen := now;
                  last_seen := now;
                  ports_open := ports_str;
                  os_guess := os device;
                  status := "active" |} ]> (discovered_devices db);
     next_id := S (next_id db);
     scan_history := scan_history db;
     tick := S (tick db) |}.

(** [INSERT INTO scan_history (devices_found, scan_method)] *)
Definition insert_scan (found : nat) (method : string) (db : Db) : Db :=
  {| discovered_devices := discovered_devices db;
     next_id := next_id db;
     scan_history :=
       scan_history db ++
         [ {| scan_id := S (length (scan_history db));
              scan_time := CURRENT_TIMESTAMP (tick db);
              devices_found := found;
              scan_duration := None;
              scan_method := method |} ];
     tick := S (tick db) |}.

(** One turn of the [for device in devices] loop. *)
Definition upsert (device : Observation) (db : Db) : Db :=
  if negb (has_mac device) then db
  else
    let m := default "" (mac device) in
    let device_type := classify_device device in
    let ports_str := join "," (ports device) in
    let '(existing, db) := select_id m db in
    match existing with
    | Some _ => update_device device m device_type ports_str db
    | None => insert_device device m device_type ports_str db
    end.

Definition save_to_local_db (devices : list Observation) (db : Db) : Db :=
  let db := foldl (λ db device, upsert device db) db devices in
  insert_scan (length devices) "automated" db.

(** *** Scanning *)

Inductive Strategy := Nmap | ScapyArp | PingSweep.

(** What is installed, and what each scanner would return. *)
Record ScanEnv := {
  NMAP_AVAILABLE : bool;
  SCAPY_AVAILABLE : bool;
  scan_with_nmap : list Observation;
  scan_with_scapy : list Observation;
  scan_with_ping_sweep : list Observation
}.

(** The branch [perform_network_scan] takes. *)
Definition strategy_used (env : ScanEnv) : Strategy :=
  if NMAP_AVAILABLE env then Nmap
  else if SCAPY_AVAILABLE env then ScapyArp
  else PingSweep.

Definition perform_network_scan (env : ScanEnv) : list Observation :=
  let devices :=
    match strategy_used env with
    | Nmap => scan_with_nmap env
    | ScapyArp => scan_with_scapy env
    | PingSweep => scan_with_ping_sweep env
    end in
  filter (λ d, has_mac d = true) devices.

(** The body of [scan_loop] in [start_continuous_scanning], as far as
    the database goes: nothing is saved for an empty scan. *)
Definition scan_loop_body (env : ScanEnv) (db : Db) : Db :=
  let devices := perform_network_scan env in
  match devices with
  | [] => db
  | _ :: _ => save_to_local_db devices db
  end.

(** The sequence of [save_to_local_db] calls of a run. *)
Definition save_all (batches : list (list Observation)) (db : Db) : Db :=
  foldl (λ db devices, save_to_local_db devices db) db batches.

(** *** Reading the registry *)

(** Every stored row was first seen no later than it was last seen, and
    no row is ahead of the clock. *)
Definition timestamps_ok (db : Db) : Prop :=
  ∀ m r, discovered_devices db !! m = Some r →
         (first_seen r ≤ last_seen r)%Z ∧ (last_seen r ≤ CURRENT_TIMESTAMP (tick db))%Z.

End Statements.

(** [db'] is a later state of [db]: every device is still there under its
    MAC, with the [id] and [first_seen] it had and a [last_seen] at least
    as late. *)
Definition later (db db' : Db) : Prop :=
  (tick db ≤ tick db')%nat
  ∧ ∀ m r, discovered_devices db !! m = Some r →
           ∃ r', discovered_devices db' !! m = Some r'
                 ∧ id r' = id r
                 ∧ first_seen r' = first_seen r
                 ∧ (last_seen r ≤ last_seen r')%Z.

End NetworkDiscovery.

(* ===================================================================== *)
(** ** network_firewall.py: the manager                                   *)
(* ===================================================================== *)

Module NetworkFirewall.

(** A value of the flat config dict handed to [FirewallManager]. *)
Inductive pyval :=
  | PyNone
  | PyBool (b : bool)
  | PyInt (z : Z)
  | PyStr (s : string).

(** [str(v)], as an f-string formats it. *)
Definition py_str (v : pyval) : string :=
  match v with
  | PyNone => "None"
  | PyBool true => "True"
  | PyBool false => "False"
  | PyInt z => pretty z
  | PyStr s => s
  end.

(** [v == s] for a string literal [s]. *)
Definition is_str (v : pyval) (s : string) : bool :=
  match v with
  | PyStr s' => String.eqb s' s
  | _ => false
  end.

(** [config.get(key)] and [config.get(key, dflt)] *)
Definition get (config : gmap string pyval) (key : string) : pyval :=
  default PyNone (config !! key).

Definition get_default (config : gmap string pyval) (key : string) (dflt : pyval) : pyval :=
  default dflt (config !! key).

(** The four adapter classes with the fields their constructors assign
    ([PfSenseFirewall.ssh_client] starts as [None] and is left out). *)
Inductive Adapter :=
  | PfSenseFirewall (host username password api_key : pyval)
  | OpenWrtFirewall (host username password : pyval)
  | FortiGateFirewall (host api_key vdom : pyval) (base_url : string)
  | SimulatedFirewall (rules : list (gmap string pyval)) (rule_counter : nat).

Definition is_simulated (a : Adapter) : bool :=
  match a with
  | SimulatedFirewall _ _ => true
  | _ => false
  end.

(** [FortiGateFirewall.__init__] *)
Definition new_fortigate (host api_key vdom : pyval) : Adapter :=
  FortiGateFirewall host api_key vdom ("https://" +:+ py_str host +:+ "/api/v2").

(** [SimulatedFirewall.__init__] *)
Definition new_simulated : Adapter := SimulatedFirewall [] 1.

(** The abstract base class [FirewallIntegration]: the four operations
    every adapter offers.  [W] is the outside world an adapter talks to;
    an operation may change the adapter and the world. *)
Class FirewallIntegration (A W : Type) := {
  adapter_block_domain :
    A → string → string → string → W → (bool * string * option string) * A * W;
  adapter_unblock_domain :
    A → string → string → string → W → (bool * string) * A * W;
  adapter_list_rules : A → W → list (gmap string pyval) * A * W;
  adapter_test_connection : A → W → (bool * string) * A * W
}.

Record FirewallManager := {
  config : gmap string pyval;
  firewall : option Adapter;
  firewall_type : pyval
}.

Definition with_firewall (mgr : FirewallManager) (a : Adapter) : FirewallManager :=
  {| config := config mgr; firewall := Some a; firewall_type := firewall_type mgr |}.

(** The [try] block of [_initialize_firewall]: the adapter and the type
    it leaves in [self.firewall_type], or [None] when the constructor of
    a concrete adapter raises ([fault]). *)
Definition select_adapter (config : gmap string pyval) (firewall_type : pyval)
    (fault : bool) : option (Adapter * pyval) :=
  if is_str firewall_type "pfsense" then
    if fault then None
    else Some (PfSenseFirewall (get config "host") (get config "username")
                 (get config "password") (get config "api_key"), firewall_type)
  else if is_str firewall_type "openwrt" then
    if fault then None
    else Some (OpenWrtFirewall (get config "host") (get config "username")
                 (get config "password"), firewall_type)
  else if is_str firewall_type "fortigate" then
    if fault then None
    else Some (new_fortigate (get config "host") (get config "api_key")
                 (get_default config "vdom" (PyStr "root")), firewall_type)
  else Some (new_simulated, PyStr "simulated").

(** [_initialize_firewall]: the handler installs the simulated adapter. *)
Definition _initialize_firewall (mgr : FirewallManager) (fault : bool) : FirewallManager :=
  match select_adapter (config mgr) (firewall_type mgr) fault with
  | Some (a, ty) => {| config := config mgr; firewall := Some a; firewall_type := ty |}
  | None =>
      {| config := config mgr; firewall := Some new_simulated;
         firewall_type := PyStr "simulated" |}
  end.

(** [FirewallManager.__init__]; [None] is the default argument. *)
Definition new_manager (cfg : option (gmap string pyval)) (fault : bool) : FirewallManager :=
  let config := default ∅ cfg in
  _initialize_firewall
    {| config := config; firewall := None;
       firewall_type := get_default config "type" (PyStr "simulated") |}
    fault.

Section Manager.
Context {W : Type} `{FirewallIntegration Adapter W}.

Definition block_domain (mgr : FirewallManager) (device_ip dom rule_name : string) (w : W)
    : (bool * string * option string) * FirewallManager * W :=
  match firewall mgr with
  | None => ((false, "No firewall configured", None), mgr, w)
  | Some a =>
      let '(r, a', w') := adapter_block_domain a device_ip dom rule_name w in
      (r, with_firewall mgr a', w')
  end.

Definition unblock_domain (mgr : FirewallManager) (device_ip dom rule_name : string) (w : W)
    : (bool * string) * FirewallManager * W :=
  match firewall mgr with
  | None => ((false, "No firewall configured"), mgr, w)
  | Some a =>
      let '(r, a', w') := adapter_unblock_domain a device_ip dom rule_name w in
      (r, with_firewall mgr a', w')
  end.

Definition list_rules (mgr : FirewallManager) (w : W)
    : list (gmap string pyval) * FirewallManager * W :=
  match firewall mgr with
  | None => ([], mgr, w)
  | Some a =>
      let '(r, a', w') := adapter_list_rules a w in
      (r, with_firewall mgr a', w')
  end.

Definition test_connection (mgr : FirewallManager) (w : W)
    : (bool * string) * FirewallManager * W :=
  match firewall mgr with
  | None => ((false, "No firewall configured"), mgr, w)
  | Some a =>
      let '(r, a', w') := adapter_test_connection a w in
      (r, with_firewall mgr a', w')
  end.

(** Which branch an operation of the manager takes. *)
Definition guard_taken (mgr : FirewallManager) : bool :=
  match firewall mgr with
  | None => true
  | Some _ => false
  end.

End Manager.

(** *** The adapters on a network where no router answers

    Every SSH connection and every HTTP request of the three concrete
    adapters fails, which is the branch each of their operations takes
    first; the simulated adapter works on its own rule list.  [draws]
    tells for each call of [random.random()] whether it came out below
    0.95. *)
Record OfflineWorld := {
  draws : nat → bool;
  drawn : nat;
  request_error : string          (* str(e) of the failed HTTP request *)
}.

(** A rule dict of the simulated adapter ([created], a float clock
    reading, is left out). *)
Definition sim_rule (rule_counter : nat) (device_ip dom rule_name firewall_rule : string)
    : gmap string pyval :=
  {[ "id" := PyInt (Z.of_nat rule_counter);
     "device_ip" := PyStr device_ip;
     "domain" := PyStr dom;
     "rule_name" := PyStr rule_name;
     "firewall_rule" := PyStr firewall_rule;
     "status" := PyStr "active" ]}.

(** [rule['device_ip'] == device_ip and rule['domain'] == domain] *)
Definition same_target (device_ip dom : string) (rule : gmap string pyval) : bool :=
  is_str (get rule "device_ip") device_ip && is_str (get rule "domain") dom.

(** [self.rules.pop(i)] for the first rule of that target. *)
Fixpoint pop_first (device_ip dom : string) (rules : list (gmap string pyval))
    : option (list (gmap string pyval)) :=
  match rules with
  | [] => None
  | rule :: rest =>
      if same_target device_ip dom rule then Some rest
      else cons rule <$> pop_first device_ip dom rest
  end.

Definition offline_block_domain (a : Adapter) (device_ip dom rule_name : string)
    (w : OfflineWorld) : (bool * string * option string) * Adapter * OfflineWorld :=
  match a with
  | PfSenseFirewall _ _ _ _ | OpenWrtFirewall _ _ _ =>
      ((false, "SSH connection failed", None), a, w)
  | FortiGateFirewall _ _ _ _ =>
      ((false, "Failed to create address object: " +:+ request_error w, None), a, w)
  | SimulatedFirewall rules rule_counter =>
      if existsb (same_target device_ip dom) rules
      then ((false, "Domain " +:+ dom +:+ " already blocked for " +:+ device_ip, None), a, w)
      else
        let w' := {| draws := draws w; drawn := S (drawn w);
                     request_error := request_error w |} in
        if draws w (drawn w) then
          let firewall_rule :=
            "BLOCK " +:+ device_ip +:+ " -> " +:+ dom +:+ " (Rule #"
              +:+ pretty rule_counter +:+ ")" in
          ((true, "Domain " +:+ dom +:+ " successfully blocked for " +:+ device_ip,
            Some firewall_rule),
           SimulatedFirewall
             (rules ++ [sim_rule rule_counter device_ip dom rule_name firewall_rule])
             (rule_counter + 1),
           w')
        else ((false, "Simulated firewall error: Network timeout", None), a, w')
  end.

Definition offline_unblock_domain (a : Adapter) (device_ip dom rule_name : string)
    (w : OfflineWorld) : (bool * string) * Adapter * OfflineWorld :=
  match a with
  | PfSenseFirewall _ _ _ _ | OpenWrtFirewall _ _ _ =>
      ((false, "SSH connection failed"), a, w)
  | FortiGateFirewall _ _ _ _ => ((false, "Policy not found"), a, w)
  | SimulatedFirewall rules rule_counter =>
      match pop_first device_ip dom rules with
      | Some rules' =>
          ((true, "Domain " +:+ dom +:+ " successfully unblocked for " +:+ device_ip),
           SimulatedFirewall rules' rule_counter, w)
      | None =>
          ((false, "No blocking rule found for " +:+ dom +:+ " on " +:+ device_ip), a, w)
      end
  end.

Definition offline_list_rules (a : Adapter) (w : OfflineWorld)
    : list (gmap string pyval) * Adapter * OfflineWorld :=
  match a with
  | SimulatedFirewall rules _ =>
      ((λ rule, {[ "rule" := get rule "firewall_rule";
                   "type" := PyStr "block";
                   "active" := PyBool (is_str (get rule "status") "active");
                   "device_ip" := get rule "device_ip";
                   "domain" := get rule "domain" ]}) <$> rules, a, w)
  | _ => ([], a, w)
  end.

Definition offline_test_connection (a : Adapter) (w : OfflineWorld)
    : (bool * string) * Adapter * OfflineWorld :=
  match a with
  | PfSenseFirewall _ _ _ _ | OpenWrtFirewall _ _ _ =>
      ((false, "SSH connection failed"), a, w)
  | FortiGateFirewall _ _ _ _ =>
      ((false, "Connection failed: " +:+ request_error w), a, w)
  | SimulatedFirewall _ _ =>
      ((true, "Connected to simulated firewall (Demo Mode)"), a, w)
  end.

#[global] Instance offline_integration : FirewallIntegration Adapter OfflineWorld := {
  adapter_block_domain := offline_block_domain;
  adapter_unblock_domain := offline_unblock_domain;
  adapter_list_rules := offline_list_rules;
  adapter_test_connection := offline_test_connection
}.

End NetworkFirewall.

(* ===================================================================== *)
(** ** router_config_manager.py: the connection test                      *)
(* ===================================================================== *)

Module RouterConfig.
Import PyStr.

(** What a socket call raises. *)
Inductive SockExn :=
  | SockTimeout (msg : string)          (* socket.timeout *)
  | SockError (msg : string).           (* gaierror, OverflowError, ... *)

(** The exceptions the handlers of [test_ssh_connection] tell apart;
    [msg] is [str(e)]. *)
Inductive Exn :=
  | AuthenticationException
  | SSHException (msg : string)
  | Timeout (msg : string)
  | OtherException (msg : string).

Definition of_sock (e : SockExn) : Exn :=
  match e with
  | SockTimeout msg => Timeout msg
  | SockError msg => OtherException msg
  end.

(** The socket lines of the probe.  [sock.connect_ex] returns an error
    code (0 when connected) or raises; [socket.socket] or
    [sock.settimeout] may raise before it is called (ValueError for a
    negative timeout), and then no connection is tried. *)
Inductive TcpOutcome :=
  | TcpResult (code : Z)
  | TcpRaises (e : SockExn)
  | TcpSetupRaises (msg : string).

(** [ssh.exec_command] and the reads of its streams. *)
Inductive ExecOutcome :=
  | ExecRaises (e : Exn)
  | ExecDone (stdout stderr : string).

Inductive Event :=
  | EvTcpConnect (host : string) (port : Z)
  | EvSshConnect (host username password : string) (port : Z)
  | EvSshExec (command : string)
  | EvSshClose.

Definition is_ssh_event (e : Event) : bool :=
  match e with
  | EvTcpConnect _ _ => false
  | _ => true
  end.

Record World := {
  r_now : list Event → string;                       (* isoformat of now *)
  r_connect_ex : list Event → string → Z → Z → TcpOutcome;
  r_ssh_connect : list Event → string → string → string → Z → Z → option Exn;
                                                     (* None: connected *)
  r_exec : list Event → string → ExecOutcome;
  r_elapsed : list Event → Z                         (* microseconds since start *)
}.

Abbreviation M := (Eff Event).

Record Capabilities := {
  iptables : bool;
  pfctl : bool;
  dnsmasq : bool;
  web_filtering : bool;
  api_support : bool
}.

Record RouterInfo := {
  system_info : string;
  router_type : string;
  capabilities : Capabilities
}.

Record ConnectionInfo := {
  tested_at : string;
  router_ip : string;
  ssh_port : Z;
  response_time : option Z;
  router_info : option RouterInfo
}.

Definition exec_command (w : World) (command : string) : M ExecOutcome :=
  r ← ask (λ t, r_exec w t command);
  _ ← emit (EvSshExec command);
  mret r.

Definition detection_commands : list (string * string) :=
  [ ("pfSense", "cat /etc/version");
    ("OpenWrt", "cat /etc/openwrt_release");
    ("DD-WRT", "nvram get os_name");
    ("Ubiquiti EdgeOS", "cat /opt/vyatta/etc/version");
    ("MikroTik", "/system resource print");
    ("Cisco IOS", "show version");
    ("Linux", "cat /proc/version") ].

(** The [if]/[elif] chain of [detect_router_type] on one probe's output. *)
Definition signature (probe output : string) : option string :=
  let out := lower output in
  if String.eqb probe "pfSense" && contains "pfsense" out then Some "pfSense"
  else if String.eqb probe "OpenWrt" && contains "openwrt" out then Some "OpenWrt"
  else if String.eqb probe "DD-WRT" && contains "dd-wrt" out then Some "DD-WRT"
  else if String.eqb probe "Ubiquiti EdgeOS" && contains "vyatta" out then Some "EdgeOS"
  else if String.eqb probe "MikroTik" && contains "mikrotik" out then Some "MikroTik"
  else if String.eqb probe "Cisco IOS" && contains "cisco" out then Some "Cisco IOS"
  else if String.eqb probe "Linux" && contains "linux" out then Some "Linux-based Router"
  else None.

(** [output.strip() and not stderr.read()] *)
Definition clean_output (stdout stderr : string) : bool :=
  negb (String.eqb (strip stdout) "") && String.eqb stderr "".

Fixpoint detect_loop (w : World) (probes : list (string * string)) : M string :=
  match probes with
  | [] => mret "Generic Router"
  | (probe, command) :: rest =>
      r ← exec_command w command;
      match r with
      | ExecDone stdout stderr =>
          if clean_output stdout stderr then
            match signature probe stdout with
            | Some found => mret found
            | None => detect_loop w rest
            end
          else detect_loop w rest
      | ExecRaises _ => detect_loop w rest           (* except: continue *)
      end
  end.

Definition detect_router_type (w : World) : M string :=
  detect_loop w detection_commands.

(** One turn of the [capability_tests] loop. *)
Definition has_tool (w : World) (command : string) : M bool :=
  r ← exec_command w command;
  mret match r with
       | ExecDone stdout stderr => clean_output stdout stderr
       | ExecRaises _ => false                       (* except: pass *)
       end.

Definition check_router_capabilities (w : World) (router_type : string) : M Capabilities :=
  ipt ← has_tool w "which iptables";
  pf ← has_tool w "which pfctl";
  dns ← has_tool w "which dnsmasq";
  mret
    (if String.eqb router_type "pfSense" then
       {| iptables := ipt; pfctl := pf; dnsmasq := dns;
          web_filtering := true; api_support := true |}
     else if String.eqb router_type "OpenWrt" then
       {| iptables := ipt; pfctl := pf; dnsmasq := dns;
          web_filtering := true; api_support := false |}
     else if String.eqb router_type "DD-WRT" || String.eqb router_type "Linux-based Router" then
       {| iptables := ipt; pfctl := pf; dnsmasq := dns;
          web_filtering := ipt; api_support := false |}
     else
       {| iptables := ipt; pfctl := pf; dnsmasq := dns;
          web_filtering := false; api_support := false |}).

(** The four [except] clauses, in their order. *)
Definition handler (e : Exn) (port : Z) (connection_info : ConnectionInfo)
    : bool * string * ConnectionInfo :=
  match e with
  | AuthenticationException =>
      (false, "Authentication failed - Invalid username or password", connection_info)
  | SSHException msg =>
      (false, "SSH connection failed: " +:+ msg, connection_info)
  | Timeout _ =>
      (false, "Connection timeout - Router not responding on port " +:+ pretty port,
       connection_info)
  | OtherException msg =>
      (false, "Connection failed: " +:+ msg, connection_info)
  end.

(** The part of the [try] block after the TCP probe went through. *)
Definition ssh_phase (w : World) (router_ip username password : string)
    (port timeout : Z) (connection_info : ConnectionInfo)
    : M (bool * string * ConnectionInfo) :=
  c ← ask (λ t, r_ssh_connect w t router_ip username password port timeout);
  _ ← emit (EvSshConnect router_ip username password port);
  match c with
  | Some e => mret (handler e port connection_info)
  | None =>
      r ← exec_command w "uname -a || cat /etc/os-release || echo 'Unknown system'";
      match r with
      | ExecRaises e => mret (handler e port connection_info)
      | ExecDone stdout _ =>
          let system_info := strip stdout in
          router_type ← detect_router_type w;
          elapsed ← ask (r_elapsed w);
          caps ← check_router_capabilities w router_type;
          _ ← emit EvSshClose;
          mret (true, "Successfully connected to " +:+ router_type +:+ " router",
                {| tested_at := tested_at connection_info;
                   router_ip := router_ip;
                   ssh_port := ssh_port connection_info;
                   response_time := Some elapsed;
                   router_info :=
                     Some {| system_info := system_info;
                             router_type := router_type;
                             capabilities := caps |} |})
      end
  end.

Definition unreachable_message (router_ip : string) (port : Z) : string :=
  "Cannot reach " +:+ router_ip +:+ ":" +:+ pretty port +:+ " - Network unreachable".

Definition test_ssh_connection (w : World) (router_ip username password : string)
    (port timeout : Z) : M (bool * string * ConnectionInfo) :=
  now ← ask (r_now w);
  let connection_info :=
    {| tested_at := now; router_ip := router_ip; ssh_port := port;
       response_time := None; router_info := None |} in
  result ← ask (λ t, r_connect_ex w t router_ip port timeout);
  match result with
  | TcpSetupRaises msg => mret (handler (OtherException msg) port connection_info)
  | TcpRaises e =>
      _ ← emit (EvTcpConnect router_ip port);
      mret (handler (of_sock e) port connection_info)
  | TcpResult code =>
      _ ← emit (EvTcpConnect router_ip port);
      if negb (code =? 0)%Z
      then mret (false, unreachable_message router_ip port, connection_info)
      else ssh_phase w router_ip username password port timeout connection_info
  end.

End RouterConfig.

(* ===================================================================== *)
(** ** global_blocking.py: readings of the rule loops                      *)
(* ===================================================================== *)

Module GlobalBlockingStatus.
Import PyStr GlobalBlocking.

(** The devices the rule loops act on: those with [if device_ip:] true. *)
Definition devices_with_ip (devices : list Device) : list Device :=
  filter (λ device, is_Some (ip_truthy (currentIp device))) devices.

End GlobalBlockingStatus.

(* ===================================================================== *)
(** ** network_discovery.py and discovery_dashboard.py: readers and sync  *)
(* ===================================================================== *)

Module DiscoveryReaders.
Import PyStr NetworkDiscovery.

(** The MACs of the observations the upsert loop acts on. *)
Definition macs_of (devices : list Observation) : gset string :=
  list_to_set (omap mac (filter (λ d, has_mac d = true) devices)).

(** The MACs a run of saves acts on. *)
Definition observed_macs (batches : list (list Observation)) : gset string :=
  macs_of (concat batches).

(** The registry is keyed by the MAC of its rows, ids are below the
    counter and belong to one row each, and every status is the column
    default. *)
Definition registry_ok (db : Db) : Prop :=
  ∀ m r, discovered_devices db !! m = Some r →
         mac_address r = m
         ∧ (id r < next_id db)%nat
         ∧ status r = "active"
         ∧ ∀ m' r', discovered_devices db !! m' = Some r' → id r' = id r → m' = m.

(** A row with another [last_seen]. *)
Definition with_last_seen (r : DeviceRow) (ts : Z) : DeviceRow :=
  {| id := id r; mac_address := mac_address r; ip_address := ip_address r;
     row_hostname := row_hostname r; row_vendor := row_vendor r;
     device_type := device_type r; first_seen := first_seen r; last_seen := ts;
     ports_open := ports_open r; os_guess := os_guess r; status := status r |}.

(** The rows of the device table, in the map's order;
    [get_discovered_devices] returns them ordered by [last_seen]
    descending. *)
Definition rows (db : Db) : list DeviceRow := (map_to_list (discovered_devices db)).*2.

(** [DiscoveryManager.get_discovery_stats] on the devices of the real
    mode: [total_devices] and [active_devices]. *)
Definition total_devices (devices : list DeviceRow) : nat := length devices.

Definition active_devices (devices : list DeviceRow) : nat :=
  length (filter (λ d, status d = "Active") devices).

(** The text [classify_device] searches for keywords. *)
Definition text_to_analyze (device_info : Observation) : string :=
  lower (default "" (hostname device_info)) +:+ " "
    +:+ lower (join " " (ports device_info)) +:+ " "
    +:+ lower (default "" (vendor device_info)).


(** *** sync_with_dashboard *)

(** One POST to [/api/dhcp-update] with its JSON body. *)
Inductive Event :=
  | EvPost (url : string) (macAddress newIp : string) (deviceName vendor : option string).

(** The answer to a POST: a status code, or [None] when [requests]
    raises. *)
Record SyncWorld := {
  post_response : list Event → string → option nat
}.

Definition post_of (dashboard_url : string) (device : Observation) : Event :=
  EvPost (dashboard_url +:+ "/api/dhcp-update") (default "" (mac device)) (ip device)
    (hostname device) (vendor device).

(** The loop of [sync_with_dashboard]; the two outcomes of a request
    only differ in what is printed. *)
Fixpoint sync_with_dashboard (w : SyncWorld) (dashboard_url : string)
    (devices : list Observation) : Eff Event unit :=
  match devices with
  | [] => mret tt
  | device :: rest =>
      if negb (has_mac device) then sync_with_dashboard w dashboard_url rest
      else
        response ← ask (λ t, post_response w t (default "" (mac device)));
        _ ← emit (post_of dashboard_url device);
        match response with
        | Some 200 => sync_with_dashboard w dashboard_url rest   (* synced *)
        | Some _ => sync_with_dashboard w dashboard_url rest     (* failed to sync *)
        | None => sync_with_dashboard w dashboard_url rest       (* sync error *)
        end
  end.

End DiscoveryReaders.

(* ===================================================================== *)
(** ** router_config_manager.py: the stored configuration                 *)
(* ===================================================================== *)

Module RouterConfigFile.
Import PyStr.

(** [s.split(sep)] for a one-character separator. *)
Fixpoint split_on (sep : ascii) (s : string) : list string :=
  match s with
  | EmptyString => [EmptyString]
  | String c s' =>
      if Ascii.eqb c sep then EmptyString :: split_on sep s'
      else match split_on sep s' with
           | part :: parts => String c part :: parts
           | [] => [String c EmptyString]
           end
  end.

(** [config.get(key)] as a condition. *)
Definition present (config : gmap string json) (key : string) : bool :=
  truthy (default JNull (config !! key)).

(** [0 <= int(part) <= 255]; [None] when [int] raises. *)
Definition octet_ok (part : string) : option bool :=
  (λ n, (0 <=? n)%Z && (n <=? 255)%Z) <$> NetworkDiscovery.py_int part.

(** The [try] block of the address check: true when the address passes. *)
Definition ip_format_ok (router_ip : json) : bool :=
  match router_ip with
  | JStr s =>
      let parts := split_on "." s in
      (length parts =? 4)%nat
      && forallb (λ part, default false (octet_ok part)) parts
  | _ => false                                   (* no [split]: caught *)
  end.

(** [config.get("mode") == m] *)
Definition mode_is (config : gmap string json) (m : string) : bool :=
  match config !! "mode" with
  | Some (JStr s) => String.eqb s m
  | _ => false
  end.

Definition validate_config (config : gmap string json) : bool * string :=
  if negb (present config "router_ip") then (false, "Missing required field: router_ip")
  else if negb (present config "ssh_username")
  then (false, "Missing required field: ssh_username")
  else if negb (present config "mode") then (false, "Missing required field: mode")
  else if negb (ip_format_ok (default JNull (config !! "router_ip")))
  then (false, "Invalid IP address format")
  else if negb (mode_is config "simulated" || mode_is config "real")
  then (false, "Mode must be 'simulated' or 'real'")
  else if mode_is config "real" && negb (present config "ssh_password")
  then (false, "SSH password is required for real mode")
  else (true, "Configuration valid").

(** The manager: [self.config] and the content of the config file. *)
Record Manager := {
  config : gmap string json;
  file : GlobalBlocking.FileRead
}.

(** The clock and the file system at one call: [fs_write] is [None]
    when the dump goes through, else the state the failed write leaves
    the file in. *)
Record Fs := {
  fs_now : string;
  fs_write : option GlobalBlocking.FileRead
}.

(** The two keys [save_config] adds to the dict it is given. *)
Definition stamped (fs : Fs) (cfg : gmap string json) : gmap string json :=
  <[ "version" := JStr "1.0" ]> (<[ "last_updated" := JStr (fs_now fs) ]> cfg).

(** [save_config(config)] for a dict of the caller: [self.config] is
    replaced only after the file was written. *)
Definition save_config (fs : Fs) (cfg : gmap string json) (mgr : Manager)
    : bool * Manager :=
  match fs_write fs with
  | None => (true, {| config := stamped fs cfg;
                      file := GlobalBlocking.FileJson (JObj (stamped fs cfg)) |})
  | Some damaged => (false, {| config := config mgr; file := damaged |})
  end.

(** [self.save_config(self.config)]: the dict is [self.config] itself,
    so the added keys stay in it when the write fails. *)
Definition save_own_config (fs : Fs) (mgr : Manager) : bool * Manager :=
  match fs_write fs with
  | None => (true, {| config := stamped fs (config mgr);
                      file := GlobalBlocking.FileJson (JObj (stamped fs (config mgr))) |})
  | Some damaged => (false, {| config := stamped fs (config mgr); file := damaged |})
  end.

(** The module-level [save_router_config]. *)
Definition save_router_config (fs : Fs) (config_data : gmap string json) (mgr : Manager)
    : (bool * string) * Manager :=
  let '(valid, message) := validate_config config_data in
  if valid then
    let '(success, mgr') := save_config fs config_data mgr in
    ((success, if success then "Configuration saved successfully"
               else "Failed to save configuration"), mgr')
  else ((false, message), mgr).

Definition capabilities_json (c : RouterConfig.Capabilities) : json :=
  JObj {[ "iptables" := JBool (RouterConfig.iptables c);
          "pfctl" := JBool (RouterConfig.pfctl c);
          "dnsmasq" := JBool (RouterConfig.dnsmasq c);
          "web_filtering" := JBool (RouterConfig.web_filtering c);
          "api_support" := JBool (RouterConfig.api_support c) ]}.

(** [update_connection_status]; [router_info] is the connection info
    of a test, if one is passed.  [None] stands for the AttributeError
    raised when a success is reported with a connection info whose
    [router_info] is None. *)
Definition update_connection_status (fs : Fs) (success : bool) (message : string)
    (router_info : option RouterConfig.ConnectionInfo) (mgr : Manager) : option Manager :=
  let cfg :=
    <[ "last_message" := JStr message ]>
      (<[ "last_status" := JStr (if success then "connected" else "failed") ]>
         (<[ "last_tested" := JStr (fs_now fs) ]> (config mgr))) in
  let detected :=
    match router_info with
    | Some info =>
        if success then
          match RouterConfig.router_info info with
          | Some ri =>
              Some (<[ "capabilities" := capabilities_json (RouterConfig.capabilities ri) ]>
                      (<[ "router_type" := JStr (RouterConfig.router_type ri) ]> cfg))
          | None => None
          end
        else Some cfg
    | None => Some cfg
    end in
  (λ cfg', (save_own_config fs {| config := cfg'; file := file mgr |}).2) <$> detected.

(** [get_firewall_config]; [None] stands for the AttributeError of
    [.lower()] on a [router_type] that is not a string. *)
Definition get_firewall_config (mgr : Manager) : option (gmap string json) :=
  let cfg := config mgr in
  if mode_is cfg "simulated" then Some {[ "type" := JStr "simulated" ]}
  else
      match default (JStr "generic") (cfg !! "router_type") with
      | JStr rt =>
          let router_type := lower rt in
          let firewall_config : gmap string json :=
            {[ "type" := JStr "simulated";
               "host" := default JNull (cfg !! "router_ip");
               "username" := default JNull (cfg !! "ssh_username");
               "password" := default JNull (cfg !! "ssh_password");
               "port" := default (JNum 22) (cfg !! "ssh_port") ]} in
          Some
            (if contains "pfsense" router_type
             then <[ "type" := JStr "pfsense" ]> firewall_config
             else if contains "openwrt" router_type
             then <[ "type" := JStr "openwrt" ]> firewall_config
             else if contains "fortigate" router_type
             then
               let fc := <[ "type" := JStr "fortigate" ]> firewall_config in
               if present cfg "api_key"
               then <[ "api_key" := default JNull (cfg !! "api_key") ]> fc
               else fc
             else firewall_config)
      | _ => None
      end.

(** The names [detect_router_type] can return. *)
Definition detectable_types : list string :=
  [ "pfSense"; "OpenWrt"; "DD-WRT"; "EdgeOS"; "MikroTik"; "Cisco IOS";
    "Linux-based Router"; "Generic Router" ].

(** The outcome of [test_ssh_connection] handed to
    [update_connection_status], as a caller does. *)
Definition record_test (fs : Fs)
    (outcome : bool * string * RouterConfig.ConnectionInfo) (mgr : Manager)
    : option Manager :=
  update_connection_status fs outcome.1.1 outcome.1.2 (Some outcome.2) mgr.

End RouterConfigFile.

(* ===================================================================== *)
(** ** network_firewall.py: manager info and the OpenWrt adapter          *)
(* ===================================================================== *)

Module FirewallInfo.
Import PyStr NetworkFirewall.

(** The dict of [get_firewall_info]. *)
Record Info := {
  info_type : pyval;
  info_config : gmap string pyval;
  available : bool
}.

(** ['password' in k or 'key' in k] *)
Definition is_secret_key (k : string) : bool :=
  contains "password" k || contains "key" k.

Definition get_firewall_info (mgr : FirewallManager) : Info :=
  {| info_type := firewall_type mgr;
     info_config :=
       map_imap (λ k v, Some (if is_secret_key k then PyStr "***" else v)) (config mgr);
     available := bool_decide (is_Some (firewall mgr)) |}.




End FirewallInfo.

Module OpenWrt.
Import PyStr.

Inductive Event :=
  | EvConnect
  | EvExec (command : string)
  | EvClose.

(** A command on the router: it raises, or ends with an exit status
    and a text on stderr. *)
Inductive ExecOutcome :=
  | ExecRaises (msg : string)
  | ExecExit (exit_code : Z) (stderr : string).

Record World := {
  ow_connect : list Event → bool;                  (* false: connect raises *)
  ow_exec : list Event → string → ExecOutcome
}.

Abbreviation M := (Eff Event).

(** [_connect_ssh]: true for a client, false for [None]. *)
Definition _connect_ssh (w : World) : M bool :=
  ok ← ask (ow_connect w);
  _ ← emit EvConnect;
  mret ok.

Definition block_commands (device_ip dom : string) : list string :=
  [ "echo 'address=/" +:+ dom +:+ "/127.0.0.1' >> /etc/dnsmasq.conf";
    "iptables -I FORWARD -s " +:+ device_ip +:+ " -m string --string '" +:+ dom
      +:+ "' --algo bm -j DROP";
    "/etc/init.d/dnsmasq restart";
    "/etc/init.d/firewall restart" ].

Definition unblock_commands (device_ip dom : string) : list string :=
  [ "sed -i '/address=\/" +:+ dom +:+ "\//d' /etc/dnsmasq.conf";
    "iptables -D FORWARD -s " +:+ device_ip +:+ " -m string --string '" +:+ dom
      +:+ "' --algo bm -j DROP";
    "/etc/init.d/dnsmasq restart" ].

(** How a command loop ends. *)
Inductive LoopEnd :=
  | AllRan
  | Failed (command error : string)      (* non-zero exit status *)
  | Raised (msg : string).               (* an exception *)

(** The [for cmd in commands] loop of [block_domain]: it leaves at the
    first command whose exit status is not 0. *)
Fixpoint run_checked (w : World) (commands : list string) : M LoopEnd :=
  match commands with
  | [] => mret AllRan
  | cmd :: rest =>
      r ← ask (λ t, ow_exec w t cmd);
      _ ← emit (EvExec cmd);
      match r with
      | ExecRaises msg => mret (Raised msg)
      | ExecExit exit_code error =>
          if negb (exit_code =? 0)%Z then mret (Failed cmd error)
          else run_checked w rest
      end
  end.

(** The loop of [unblock_domain]: the exit status is not read. *)
Fixpoint run_unchecked (w : World) (commands : list string) : M LoopEnd :=
  match commands with
  | [] => mret AllRan
  | cmd :: rest =>
      r ← ask (λ t, ow_exec w t cmd);
      _ ← emit (EvExec cmd);
      match r with
      | ExecRaises msg => mret (Raised msg)
      | ExecExit _ _ => run_unchecked w rest
      end
  end.

Definition block_domain (w : World) (device_ip dom rule_name : string)
    : M (bool * string * option string) :=
  ssh ← _connect_ssh w;
  if negb ssh then mret (false, "SSH connection failed", None)
  else
    r ← run_checked w (block_commands device_ip dom);
    match r with
    | Failed cmd error =>
        _ ← emit EvClose;
        mret (false, "Command failed: " +:+ cmd +:+ " - " +:+ error, None)
    | AllRan =>
        _ ← emit EvClose;
        mret (true, "Domain " +:+ dom +:+ " blocked for " +:+ device_ip,
              Some ("iptables -I FORWARD -s " +:+ device_ip +:+ " -m string --string '"
                      +:+ dom +:+ "' --algo bm -j DROP"))
    | Raised msg => mret (false, "OpenWrt integration error: " +:+ msg, None)
    end.

Definition unblock_domain (w : World) (device_ip dom rule_name : string)
    : M (bool * string) :=
  ssh ← _connect_ssh w;
  if negb ssh then mret (false, "SSH connection failed")
  else
    r ← run_unchecked w (unblock_commands device_ip dom);
    match r with
    | Raised msg => mret (false, "OpenWrt integration error: " +:+ msg)
    | _ =>
        _ ← emit EvClose;
        mret (true, "Domain " +:+ dom +:+ " unblocked for " +:+ device_ip)
    end.

End OpenWrt.

(* ===================================================================== *)
(** ** mock_network_discovery.py                                          *)
(* ===================================================================== *)

Module MockDiscovery.
Import PyStr.

(** A synthetic device (a dict in the source). *)
Record MockDevice := {
  mac : string;
  ip : string;
  hostname : string;
  vendor : string;
  device_type : string;
  behavior_tag : string;
  ports : list string;
  os : string;
  first_seen : string;
  last_seen : string;
  status : string
}.

Record Template := {
  name_pattern : string;
  mac_prefix : string;
  t_vendor : string;
  t_device_type : string;
  t_behavior_tag : string;
  t_ports : list string;
  t_os : string
}.

Definition device_templates : list Template :=
  [ {| name_pattern := "LAPTOP-{id}"; mac_prefix := "00:1B:44"; t_vendor := "Dell Inc.";
       t_device_type := "Laptop"; t_behavior_tag := "Linux Admin Device";
       t_ports := ["22/tcp (ssh)"; "80/tcp (http)"; "443/tcp (https)"]; t_os := "Ubuntu" |};
    {| name_pattern := "DESKTOP-{id}"; mac_prefix := "E8:DE:27";
       t_vendor := "ASUSTek Computer Inc."; t_device_type := "Desktop";
       t_behavior_tag := "Windows Remote Access";
       t_ports := ["3389/tcp (ms-wbt-server)"; "135/tcp (msrpc)"; "445/tcp (microsoft-ds)"];
       t_os := "Windows" |};
    {| name_pattern := "IOT-SENSOR-{id}"; mac_prefix := "A4:C3:F0";
       t_vendor := "Raspberry Pi Foundation"; t_device_type := "IoT Device";
       t_behavior_tag := "IoT MQTT Device";
       t_ports := ["1883/tcp (mqtt)"; "8883/tcp (secure-mqtt)"]; t_os := "Linux" |};
    {| name_pattern := "PRINTER-{id}"; mac_prefix := "00:26:B9";
       t_vendor := "Seiko Epson Corporation"; t_device_type := "Printer";
       t_behavior_tag := "Network Printer";
       t_ports := ["80/tcp (http)"; "631/tcp (ipp)"; "9100/tcp (jetdirect)"];
       t_os := "Embedded" |};
    {| name_pattern := "CAMERA-{id}"; mac_prefix := "DC:A6:32"; t_vendor := "Hikvision";
       t_device_type := "Security Camera"; t_behavior_tag := "IoT Sensor";
       t_ports := ["80/tcp (http)"; "554/tcp (rtsp)"; "8000/tcp (http-alt)"];
       t_os := "Embedded" |};
    {| name_pattern := "PHONE-{id}"; mac_prefix := "F4:8E:38";
       t_vendor := "Samsung Electronics"; t_device_type := "Mobile";
       t_behavior_tag := "Mobile Client";
       t_ports := ["80/tcp (http)"; "443/tcp (https)"]; t_os := "Android" |};
    {| name_pattern := "SERVER-{id}"; mac_prefix := "B0:6E:BF"; t_vendor := "Dell Inc.";
       t_device_type := "Server"; t_behavior_tag := "Server Device";
       t_ports := ["22/tcp (ssh)"; "80/tcp (http)"; "443/tcp (https)"; "3306/tcp (mysql)"];
       t_os := "Linux" |};
    {| name_pattern := "TABLET-{id}"; mac_prefix := "70:85:C2"; t_vendor := "Apple Inc.";
       t_device_type := "Tablet"; t_behavior_tag := "Web Client";
       t_ports := ["80/tcp (http)"; "443/tcp (https)"]; t_os := "iOS" |};
    {| name_pattern := "SWITCH-{id}"; mac_prefix := "20:4E:7F"; t_vendor := "Cisco Systems";
       t_device_type := "Network"; t_behavior_tag := "Network Infrastructure";
       t_ports := ["23/tcp (telnet)"; "80/tcp (http)"; "443/tcp (https)"]; t_os := "IOS" |};
    {| name_pattern := "AP-{id}"; mac_prefix := "AC:DE:48"; t_vendor := "Ubiquiti Networks";
       t_device_type := "Access Point"; t_behavior_tag := "Network Infrastructure";
       t_ports := ["22/tcp (ssh)"; "80/tcp (http)"; "443/tcp (https)"]; t_os := "Linux" |} ].

(** *** Randomness and the clock *)

(** The calls to the outside: each draw and each reading of the clock. *)
Inductive Event :=
  | EvRandom
  | EvRandint (lo hi : nat)
  | EvChoice (size : nat)
  | EvNow.

(** [rng_raw] is the generator's next raw value, any number; [rng_now]
    is [datetime.now().isoformat()]. *)
Record Rng := {
  rng_raw : list Event → N;
  rng_now : list Event → string
}.

Abbreviation M := (Eff Event).

(** [random.random() < c]: the draw is [k / 2^53] for an integer
    [0 <= k < 2^53], and [threshold] is the number of such [k] below the
    float [c]. *)
Definition random_below (w : Rng) (threshold : N) : M bool :=
  k ← ask (λ t, (rng_raw w t mod 2 ^ 53)%N);
  _ ← emit EvRandom;
  mret (k <? threshold)%N.

Definition below_0_15 : N := 1351079888211149.
Definition below_0_05 : N := 450359962737050.
Definition below_0_8 : N := 7205759403792794.
Definition below_0_1 : N := 900719925474100.
Definition below_0_3 : N := 2702159776422298.

(** [random.randint(lo, hi)] *)
Definition randint (w : Rng) (lo hi : nat) : M nat :=
  r ← ask (rng_raw w);
  _ ← emit (EvRandint lo hi);
  mret (lo + N.to_nat r mod (hi - lo + 1))%nat.

(** [random.choice(l)] for a non-empty list. *)
Definition choice {A} (w : Rng) (dflt : A) (l : list A) : M A :=
  r ← ask (rng_raw w);
  _ ← emit (EvChoice (length l));
  mret (nth (N.to_nat r mod length l)%nat l dflt).

Definition now (w : Rng) : M string :=
  s ← ask (rng_now w);
  _ ← emit EvNow;
  mret s.

(** *** Formatting *)

Definition hex_digit (n : nat) : ascii :=
  nth n [ "0"; "1"; "2"; "3"; "4"; "5"; "6"; "7"; "8"; "9";
          "A"; "B"; "C"; "D"; "E"; "F" ]%char "0"%char.

(** [f"{n:02X}"] for [n < 256]. *)
Definition hex2 (n : nat) : string :=
  String (hex_digit (n / 16)) (String (hex_digit (n mod 16)) EmptyString).

(** [f"{n:03d}"] *)
Definition pad3 (n : nat) : string :=
  let s := pretty n in
  String.concat "" (replicate (3 - String.length s) "0") +:+ s.

(** *** Generation *)

Definition generate_mac_address (w : Rng) (prefix : string) : M string :=
  a ← randint w 0 255;
  b ← randint w 0 255;
  c ← randint w 0 255;
  mret (prefix +:+ ":" +:+ join ":" [hex2 a; hex2 b; hex2 c]).

Definition generate_ip_address (w : Rng) : M string :=
  network ← choice w "" ["192.168.1"; "192.168.0"; "10.0.0"; "172.16.0"];
  host ← randint w 20 250;
  mret (network +:+ "." +:+ pretty host).

Definition create_mock_device (w : Rng) (template : Template) (device_id : nat)
    : M MockDevice :=
  mac_address ← generate_mac_address w (mac_prefix template);
  ip_address ← generate_ip_address w;
  let device_name := replace "{id}" (pad3 device_id) (name_pattern template) in
  first ← now w;
  last ← now w;
  extra ← random_below w below_0_3;
  ports ← (if extra : bool then
             p ← choice w "" ["53/tcp (dns)"; "123/udp (ntp)"; "161/udp (snmp)";
                              "8080/tcp (http-alt)"];
             mret (t_ports template ++ [p])
           else mret (t_ports template));
  mret {| mac := mac_address; ip := ip_address; hostname := device_name;
          vendor := t_vendor template; device_type := t_device_type template;
          behavior_tag := t_behavior_tag template; ports := ports;
          os := t_os template; first_seen := first; last_seen := last;
          status := "Active" |}.

(** *** The population: a dict from MAC to device, in insertion order *)

(** [d[key] = value] *)
Fixpoint dict_set (key : string) (value : MockDevice)
    (d : list (string * MockDevice)) : list (string * MockDevice) :=
  match d with
  | [] => [(key, value)]
  | (k, v) :: rest =>
      if String.eqb k key then (k, value) :: rest
      else (k, v) :: dict_set key value rest
  end.

Definition with_ip (d : MockDevice) (new_ip seen : string) : MockDevice :=
  {| mac := mac d; ip := new_ip; hostname := hostname d; vendor := vendor d;
     device_type := device_type d; behavior_tag := behavior_tag d; ports := ports d;
     os := os d; first_seen := first_seen d; last_seen := seen; status := status d |}.

Definition with_status (d : MockDevice) (st seen : string) : MockDevice :=
  {| mac := mac d; ip := ip d; hostname := hostname d; vendor := vendor d;
     device_type := device_type d; behavior_tag := behavior_tag d; ports := ports d;
     os := os d; first_seen := first_seen d; last_seen := seen; status := st |}.

(** One turn of the loop of [simulate_device_changes]: the device after
    the turn and the change it reports, if any. *)
Definition simulate_one (w : Rng) (device : MockDevice)
    : M (MockDevice * option string) :=
  moved ← random_below w below_0_15;
  if moved : bool then
    new_ip ← generate_ip_address w;
    seen ← now w;
    mret (with_ip device new_ip seen,
          Some ("IP change: " +:+ hostname device +:+ " " +:+ ip device +:+ " -> "
                  +:+ new_ip))
  else
    gone ← random_below w below_0_05;
    if gone : bool then
      mret (with_status device "Offline" (last_seen device),
            Some ("Offline: " +:+ hostname device))
    else if String.eqb (status device) "Offline" then
      back ← random_below w below_0_8;
      if back : bool then
        seen ← now w;
        mret (with_status device "Active" seen, Some ("Online: " +:+ hostname device))
      else mret (device, None)
    else mret (device, None).

(** [simulate_device_changes]: the population after it and the list
    [changes]. *)
Fixpoint simulate_device_changes (w : Rng) (devices : list (string * MockDevice))
    : M (list (string * MockDevice) * list string) :=
  match devices with
  | [] => mret ([], [])
  | (k, device) :: rest =>
      '(device', change) ← simulate_one w device;
      '(rest', changes) ← simulate_device_changes w rest;
      mret ((k, device') :: rest',
            match change with Some c => c :: changes | None => changes end)
  end.

(** [add_new_devices] *)
Definition add_new_devices (w : Rng) (devices : list (string * MockDevice))
    : M (list (string * MockDevice) * option string) :=
  lucky ← random_below w below_0_1;
  if lucky && (length devices <? 25)%nat then
    template ← choice w {| name_pattern := ""; mac_prefix := ""; t_vendor := "";
                           t_device_type := ""; t_behavior_tag := ""; t_ports := [];
                           t_os := "" |} device_templates;
    new_device ← create_mock_device w template (length devices + 1);
    mret (dict_set (mac new_device) new_device devices,
          Some ("New device: " +:+ hostname new_device +:+ " (" +:+ mac new_device +:+ ")"))
  else mret (devices, None).

(** The first fill of an empty population, from the first templates. *)
Fixpoint initialize (w : Rng) (templates : list Template) (i : nat)
    (devices : list (string * MockDevice)) : M (list (string * MockDevice)) :=
  match templates with
  | [] => mret devices
  | template :: rest =>
      device ← create_mock_device w template (i + 1);
      initialize w rest (S i) (dict_set (mac device) device devices)
  end.

Definition is_active (entry : string * MockDevice) : bool :=
  String.eqb (status entry.2) "Active".

(** The [if not self.discovered_devices] block: an empty population is
    filled from the first eight templates. *)
Definition scan_start (w : Rng) (devices : list (string * MockDevice))
    : M (list (string * MockDevice)) :=
  match devices with
  | [] => initialize w (take 8 device_templates) 0 []
  | _ :: _ => mret devices
  end.

(** [perform_mock_scan]: the population it leaves in
    [self.discovered_devices] and the active devices it returns. *)
Definition perform_mock_scan (w : Rng) (devices : list (string * MockDevice))
    : M (list (string * MockDevice) * list MockDevice) :=
  devices ← scan_start w devices;
  '(devices, changes) ← simulate_device_changes w devices;
  '(devices, new_device) ← add_new_devices w devices;
  mret (devices, snd <$> filter (λ e, is_active e = true) devices).

(** [get_device_summary]: the counts [total_devices], [active_devices]
    and [offline_devices] of the returned dict; the tally per device
    type is left out. *)
Definition get_device_summary (devices : list (string * MockDevice)) : nat * nat * nat :=
  let total := length devices in
  let active := length (filter (λ e, is_active e = true) devices) in
  (total, active, total - active).

(** The population as the scans keep it: every device sits under its
    own MAC, no MAC twice, every status is [Active] or [Offline]. *)
Definition population_ok (devices : list (string * MockDevice)) : Prop :=
  NoDup devices.*1
  ∧ Forall (λ e, mac e.2 = e.1
                 ∧ (status e.2 = "Active" ∨ status e.2 = "Offline")) devices.

(** The fields of a device that [simulate_device_changes] leaves alone. *)
Definition same_identity (d d' : MockDevice) : Prop :=
  mac d' = mac d ∧ hostname d' = hostname d ∧ vendor d' = vendor d
  ∧ device_type d' = device_type d ∧ behavior_tag d' = behavior_tag d
  ∧ ports d' = ports d ∧ os d' = os d ∧ first_seen d' = first_seen d.

End MockDiscovery.

(* ===================================================================== *)
(** ** Concrete inputs used by the examples below                         *)
(* ===================================================================== *)

Module Samples.
Import GlobalBlocking.

Definition sample_entry : BlockEntry :=
  {| domain := "example.com"; reason := "policy"; created_by := "admin";
     created_at := "2024-01-01T00:00:00"; applied_devices := [];
     status := "active" |}.

Definition entry_of (d st : string) : BlockEntry :=
  {| domain := d; reason := "policy"; created_by := "admin";
     created_at := "2024-01-01T00:00:00"; applied_devices := [];
     status := st |}.

Definition two_devices : list Device :=
  [ {| macAddress := "AA:BB:CC:00:11:22"; currentIp := Some "192.168.1.50" |};
    {| macAddress := "AA:BB:CC:00:11:23"; currentIp := Some "192.168.1.51" |} ].

(** A router file whose last connection test succeeded, with the keys the
    blocking manager reads, and [mode] set to [simulated]. *)
Definition tested_simulated_config : json :=
  JObj {[ "mode" := JStr "simulated";
          "connection_status" := JObj {[ "success" := JBool true ]};
          "router_ip" := JStr "192.168.1.1";
          "username" := JStr "admin";
          "password" := JStr "secret" ]}.

(** The router is configured but refuses every SSH connection. *)
Definition refusing_router_world : World :=
  {| w_now := λ _, "2024-01-01T00:00:00";
     w_save_ok := λ _, true;
     w_router_file := λ _, FileJson tested_simulated_config;
     w_devices := λ _, two_devices;
     w_ssh_connect := λ _ _ _ _ _, false;
     w_ssh_exec := λ _ _, None |}.

(** The router accepts connections; a rule for [bad.com] makes
    [exec_command] raise, every other command runs silently. *)
Definition flaky_router_world : World :=
  {| w_now := λ _, "2024-01-01T00:00:00";
     w_save_ok := λ _, true;
     w_router_file := λ _, FileJson tested_simulated_config;
     w_devices := λ _, two_devices;
     w_ssh_connect := λ _ _ _ _ _, true;
     w_ssh_exec := λ _ command,
       if PyStr.contains "bad.com" command then None else Some "" |}.

End Samples.

Module DiscoverySamples.
Import NetworkDiscovery.

Definition printer : Observation :=
  {| ip := "192.168.1.50"; mac := Some "AA:BB:CC:00:11:22";
     hostname := Some "printer-finance"; vendor := None; os := None;
     ports := ["631/tcp (ipp)"] |}.

(** The same MAC seen later at another address. *)
Definition printer_moved : Observation :=
  {| ip := "192.168.1.77"; mac := Some "AA:BB:CC:00:11:22";
     hostname := None; vendor := Some "Seiko Epson Corporation"; os := None;
     ports := [] |}.

Definition no_mac : Observation :=
  {| ip := "192.168.1.60"; mac := None; hostname := None; vendor := None;
     os := None; ports := [] |}.

(** The row of [printer] after a first save at tick 1. *)
Definition printer_row : DeviceRow :=
  {| id := 1; mac_address := "AA:BB:CC:00:11:22"; ip_address := "192.168.1.50";
     row_hostname := Some "printer-finance"; row_vendor := None;
     device_type := "Printer"; first_seen := 1; last_seen := 1;
     ports_open := "631/tcp (ipp)"; os_guess := None; status := "active" |}.

(** nmap is installed and finds the printer. *)
Definition nmap_env : ScanEnv :=
  {| NMAP_AVAILABLE := true; SCAPY_AVAILABLE := true;
     scan_with_nmap := [printer]; scan_with_scapy := []; scan_with_ping_sweep := [] |}.

(** Neither nmap nor scapy is installed; the ping sweep finds the printer. *)
Definition ping_env : ScanEnv :=
  {| NMAP_AVAILABLE := false; SCAPY_AVAILABLE := false;
     scan_with_nmap := []; scan_with_scapy := []; scan_with_ping_sweep := [printer] |}.

(** The ping sweep sees one host, without a MAC. *)
Definition idle_env : ScanEnv :=
  {| NMAP_AVAILABLE := false; SCAPY_AVAILABLE := false;
     scan_with_nmap := []; scan_with_scapy := []; scan_with_ping_sweep := [no_mac] |}.

End DiscoverySamples.

Module FirewallSamples.
Import NetworkFirewall.

Definition lucky_world : OfflineWorld :=
  {| draws := λ _, true; drawn := 0; request_error := "connection refused" |}.

Definition pfsense_config : gmap string pyval :=
  {[ "type" := PyStr "pfsense"; "host" := PyStr "192.168.1.1";
     "username" := PyStr "admin"; "password" := PyStr "secret" ]}.

Definition unknown_config : gmap string pyval :=
  {[ "type" := PyStr "mikrotik"; "host" := PyStr "192.168.1.1" ]}.

End FirewallSamples.

Module RouterSamples.
Import RouterConfig.

(** Nothing listens on the router's SSH port: connection refused. *)
Definition closed_port_world : World :=
  {| r_now := λ _, "2024-01-01T00:00:00";
     r_connect_ex := λ _ _ _ _, TcpResult 111;
     r_ssh_connect := λ _ _ _ _ _ _, Some AuthenticationException;
     r_exec := λ _ _, ExecRaises (SSHException "not connected");
     r_elapsed := λ _, 0%Z |}.

(** The host name does not resolve: [connect_ex] raises gaierror. *)
Definition unresolvable_host_world : World :=
  {| r_now := λ _, "2024-01-01T00:00:00";
     r_connect_ex := λ _ _ _ _,
       TcpRaises (SockError "[Errno -2] Name or service not known");
     r_ssh_connect := λ _ _ _ _ _ _, Some AuthenticationException;
     r_exec := λ _ _, ExecRaises (SSHException "not connected");
     r_elapsed := λ _, 0%Z |}.

(** [settimeout] refuses a negative timeout before any connection. *)
Definition bad_timeout_world : World :=
  {| r_now := λ _, "2024-01-01T00:00:00";
     r_connect_ex := λ _ _ _ timeout,
       if (timeout <? 0)%Z then TcpSetupRaises "Timeout value out of range"
       else TcpResult 0;
     r_ssh_connect := λ _ _ _ _ _ _, Some AuthenticationException;
     r_exec := λ _ _, ExecRaises (SSHException "not connected");
     r_elapsed := λ _, 0%Z |}.

(** The port is open but the password is wrong. *)
Definition wrong_password_world : World :=
  {| r_now := λ _, "2024-01-01T00:00:00";
     r_connect_ex := λ _ _ _ _, TcpResult 0;
     r_ssh_connect := λ _ _ _ _ _ _, Some AuthenticationException;
     r_exec := λ _ _, ExecRaises (SSHException "not connected");
     r_elapsed := λ _, 0%Z |}.

End RouterSamples.

Module BlockingSamples.
Import GlobalBlocking Samples.

(** A router file that names the host but, like the files written by the
    router configuration manager, has the user under [ssh_username]. *)
Definition config_without_username : json :=
  JObj {[ "connection_status" := JObj {[ "success" := JBool true ]};
          "router_ip" := JStr "192.168.1.1";
          "ssh_username" := JStr "admin";
          "password" := JStr "secret" ]}.

Definition keyless_router_world : World :=
  {| w_now := λ _, "2024-01-01T00:00:00";
     w_save_ok := λ _, true;
     w_router_file := λ _, FileJson config_without_username;
     w_devices := λ _, two_devices;
     w_ssh_connect := λ _ _ _ _ _, true;
     w_ssh_exec := λ _ _, Some "" |}.

(** The router accepts every connection; every rule command complains
    on stderr. *)
Definition complaining_router_world : World :=
  {| w_now := λ _, "2024-01-01T00:00:00";
     w_save_ok := λ _, true;
     w_router_file := λ _, FileJson tested_simulated_config;
     w_devices := λ _,
       two_devices ++ [ {| macAddress := "AA:BB:CC:00:11:24"; currentIp := None |} ];
     w_ssh_connect := λ _ _ _ _ _, true;
     w_ssh_exec := λ _ _, Some "iptables: No chain/target/match by that name." |}.

End BlockingSamples.

Module ReaderSamples.
Import NetworkDiscovery DiscoveryReaders DiscoverySamples.

(** The dashboard answers 500 to the first request and is unreachable
    afterwards. *)
Definition broken_dashboard : SyncWorld :=
  {| post_response := λ t _, match t with [] => Some 500 | _ => None end |}.

Definition camera : Observation :=
  {| ip := "192.168.1.90"; mac := Some "DC:A6:32:00:00:01";
     hostname := Some "Front-Door"; vendor := Some "Hikvision"; os := None;
     ports := ["554/tcp (rtsp)"] |}.

(** A print server by name, with the ports of a Linux server. *)
Definition print_server : Observation :=
  {| ip := "192.168.1.91"; mac := Some "00:26:B9:00:00:02";
     hostname := Some "HQ-PRINTER-2"; vendor := Some "Dell Inc."; os := Some "Linux";
     ports := ["22/tcp (ssh)"; "80/tcp (http)"] |}.

(** A camera by name whose only open port is the printer port. *)
Definition labelled_camera : Observation :=
  {| ip := "192.168.1.92"; mac := Some "DC:A6:32:00:00:03";
     hostname := Some "cam-1"; vendor := None; os := None;
     ports := ["515/tcp (printer)"] |}.

(** A host of which only the OS guess is known. *)
Definition android_box : Observation :=
  {| ip := "192.168.1.93"; mac := Some "F4:8E:38:00:00:04";
     hostname := Some "box"; vendor := None; os := Some "Android";
     ports := [] |}.

End ReaderSamples.

Module ConfigSamples.
Import RouterConfigFile.

(** The default configuration of [load_config]. *)
Definition default_config : gmap string json :=
  {[ "router_ip" := JStr "";
     "ssh_username" := JStr "";
     "ssh_password" := JStr "";
     "mode" := JStr "simulated";
     "router_type" := JStr "generic";
     "ssh_port" := JNum 22;
     "connection_timeout" := JNum 10;
     "last_tested" := JNull;
     "last_status" := JStr "unknown" ]}.

Definition real_config : gmap string json :=
  {[ "router_ip" := JStr "192.168.1.1";
     "ssh_username" := JStr "admin";
     "ssh_password" := JStr "secret";
     "mode" := JStr "real" ]}.

Definition fresh_manager : Manager :=
  {| config := default_config; file := GlobalBlocking.FileMissing |}.

Definition good_disk : Fs := {| fs_now := "2024-01-01T00:00:00"; fs_write := None |}.

(** The blocking manager's world when the router file is the one a
    manager holds. *)
Definition world_reading (f : GlobalBlocking.FileRead) : GlobalBlocking.World :=
  {| GlobalBlocking.w_now := λ _, "2024-01-01T00:00:00";
     GlobalBlocking.w_save_ok := λ _, true;
     GlobalBlocking.w_router_file := λ _, f;
     GlobalBlocking.w_devices := λ _, Samples.two_devices;
     GlobalBlocking.w_ssh_connect := λ _ _ _ _ _, true;
     GlobalBlocking.w_ssh_exec := λ _ _, Some "" |}.

(** A real-mode configuration after a test that detected the type. *)
Definition detected_manager (rt : string) : Manager :=
  {| config := <[ "router_type" := JStr rt ]> real_config;
     file := GlobalBlocking.FileMissing |}.

End ConfigSamples.

Module RouterSamples2.
Import RouterConfig.

(** A reachable OpenWrt router with iptables and dnsmasq. *)
Definition openwrt_world : World :=
  {| r_now := λ _, "2024-01-01T00:00:00";
     r_connect_ex := λ _ _ _ _, TcpResult 0;
     r_ssh_connect := λ _ _ _ _ _ _, None;
     r_exec := λ _ command,
       if String.eqb command "cat /etc/openwrt_release"
       then ExecDone "DISTRIB_ID='OpenWrt'" ""
       else if String.eqb command "which iptables" then ExecDone "/usr/sbin/iptables" ""
       else if String.eqb command "which dnsmasq" then ExecDone "/usr/sbin/dnsmasq" ""
       else if String.eqb command "cat /etc/version" then ExecRaises (SSHException "closed")
       else ExecDone "" "not found";
     r_elapsed := λ _, 1500000%Z |}.

End RouterSamples2.

Module AdapterSamples.
Import NetworkFirewall OpenWrt.

(** The router accepts the session; restarting dnsmasq fails. *)
Definition dnsmasq_broken : World :=
  {| ow_connect := λ _, true;
     ow_exec := λ _ command,
       if String.eqb command "/etc/init.d/dnsmasq restart"
       then ExecExit 1 "dnsmasq: failed to start"
       else ExecExit 0 "" |}.

(** Every command exits with status 2. *)
Definition all_failing : World :=
  {| ow_connect := λ _, true;
     ow_exec := λ _ _, ExecExit 2 "error" |}.

Definition secret_config : gmap string pyval :=
  {[ "type" := PyStr "fortigate"; "host" := PyStr "10.0.0.1";
     "api_key" := PyStr "s3cr3t"; "password" := PyStr "hunter2" ]}.

End AdapterSamples.

Module MockSamples.
Import MockDiscovery.

(** A generator whose raw values count the calls made so far. *)
Definition counting_rng : Rng :=
  {| rng_raw := λ t, (N.of_nat (length t) * 7919)%N;
     rng_now := λ t, "2024-01-01T00:00:" +:+ pad3 (length t) |}.

(** A population of two: a laptop that is up and a printer that is
    offline. *)
Definition small_office : list (string * MockDevice) :=
  [ ("00:1B:44:0A:0B:0C",
     {| mac := "00:1B:44:0A:0B:0C"; ip := "192.168.1.20"; hostname := "LAPTOP-001";
        vendor := "Dell Inc."; device_type := "Laptop";
        behavior_tag := "Linux Admin Device";
        ports := ["22/tcp (ssh)"; "80/tcp (http)"; "443/tcp (https)"]; os := "Ubuntu";
        first_seen := "2024-01-01T00:00:00"; last_seen := "2024-01-01T00:00:00";
        status := "Active" |});
    ("00:26:B9:01:02:03",
     {| mac := "00:26:B9:01:02:03"; ip := "192.168.1.21"; hostname := "PRINTER-002";
        vendor := "Seiko Epson Corporation"; device_type := "Printer";
        behavior_tag := "Network Printer";
        ports := ["80/tcp (http)"; "631/tcp (ipp)"; "9100/tcp (jetdirect)"];
        os := "Embedded";
        first_seen := "2024-01-01T00:00:00"; last_seen := "2024-01-01T00:00:00";
        status := "Offline" |}) ].

End MockSamples.

(* ===================================================================== *)
(** * Properties of the global blocking list                             *)
(* ===================================================================== *)

Module GlobalBlockingProps.
Import PyStr GlobalBlocking Samples.

Ltac eff_unfold :=
  unfold mbind, mret, eff_bind, eff_ret, ask, emit in *; simpl in *.

Lemma is_blocked_elem c blocked :
  is_blocked c blocked = true ↔ ∃ e, e ∈ blocked ∧ domain e = c.
Proof.
  unfold is_blocked. rewrite existsb_exists. split.
  - intros (e & Hin & Heq). exists e. split; [by apply list_elem_of_In|].
    by apply String.eqb_eq.
  - intros (e & Hin & Heq). exists e. split; [by apply list_elem_of_In|].
    by apply String.eqb_eq.
Qed.

Lemma is_blocked_app c l1 l2 :
  is_blocked c (l1 ++ l2) = is_blocked c l1 || is_blocked c l2.
Proof. unfold is_blocked. apply existsb_app. Qed.

(** Filtering out a key that occurs makes the list shorter. *)
Lemma filter_shorter c blocked :
  is_blocked c blocked = true →
  length (filter (λ e, domain e ≠ c) blocked) < length blocked.
Proof.
  induction blocked as [|e l IH]; simpl; [done|].
  intros Hb. rewrite filter_cons. destruct (decide (domain e ≠ c)) as [Hne|Heq].
  - simpl. apply orb_true_iff in Hb as [Hb|Hb].
    + apply String.eqb_eq in Hb. done.
    + specialize (IH Hb). lia.
  - pose proof (length_filter (λ e, domain e ≠ c) l). lia.
Qed.

(** Filtering out a key that does not occur changes nothing. *)
Lemma filter_absent c blocked :
  is_blocked c blocked = false →
  filter (λ e, domain e ≠ c) blocked = blocked.
Proof.
  induction blocked as [|e l IH]; simpl; [done|].
  intros Hb. apply orb_false_iff in Hb as [Hb1 Hb2].
  rewrite filter_cons. apply String.eqb_neq in Hb1.
  rewrite decide_True by done. by rewrite IH.
Qed.

Lemma filter_removes c blocked :
  is_blocked c (filter (λ e, domain e ≠ c) blocked) = false.
Proof.
  destruct (is_blocked c (filter _ blocked)) eqn:Hb; [|done].
  apply is_blocked_elem in Hb as (e & Hin & Heq).
  apply list_elem_of_filter in Hin as [Hne _]. done.
Qed.

(** What [add_blocked_domain] does to the list when the key is new:
    the entry is appended before the file is written, so it stays in
    memory whatever happens afterwards. *)
Lemma add_new_appends w d reason created_by blocked t :
  is_blocked (clean_domain d) blocked = false →
  (add_blocked_domain w d reason created_by blocked t).1.2
  = blocked ++ [ {| domain := clean_domain d; reason := reason;
                    created_by := created_by; created_at := w_now w t;
                    applied_devices := []; status := "active" |} ].
Proof.
  intros Hb. unfold add_blocked_domain. rewrite Hb. eff_unfold.
  unfold save_blocked_domains. eff_unfold.
  destruct (w_save_ok w t); [|done].
  destruct (apply_domain_block _ _ _) as [[[] n] t']; done.
Qed.

(** The duplicate branch of [add_blocked_domain]. *)
Lemma add_when_blocked w d reason created_by blocked t :
  is_blocked (clean_domain d) blocked = true →
  add_blocked_domain w d reason created_by blocked t
  = (((false, "Domain " +:+ clean_domain d +:+ " is already blocked"), blocked), t).
Proof. intros Hb. unfold add_blocked_domain. by rewrite Hb. Qed.

(** C3: an input whose cleaned form is the key of a stored entry is
    refused with the already-blocked message; the stored list and the
    history are returned as they were, so nothing is appended or
    overwritten. *)
Theorem add_duplicate_rejected (w : World) (d reason created_by : string)
    (blocked : list BlockEntry) (t : list Event) (e : BlockEntry) :
  e ∈ blocked →
  domain e = clean_domain d →
  add_blocked_domain w d reason created_by blocked t
  = (((false, "Domain " +:+ clean_domain d +:+ " is already blocked"), blocked), t)
  ∧ length (add_blocked_domain w d reason created_by blocked t).1.2 = length blocked.
Proof.
  intros Hin Heq.
  assert (Hb : is_blocked (clean_domain d) blocked = true)
    by (apply is_blocked_elem; eauto).
  by rewrite add_when_blocked.
Qed.

Lemma add_duplicate_rejected_witness :
  add_blocked_domain (quiet_world []) " https://www.Example.COM " "again" "bob"
    [sample_entry] []
  = (((false, "Domain example.com is already blocked"), [sample_entry]), [])
  ∧ length (add_blocked_domain (quiet_world []) " https://www.Example.COM "
              "again" "bob" [sample_entry] []).1.2 = 1.
Proof.
  apply (add_duplicate_rejected (quiet_world []) " https://www.Example.COM "
           "again" "bob" [sample_entry] [] sample_entry).
  - apply list_elem_of_here.
  - reflexivity.
Defined.

(** C1, as the code has it: the cleaning removes the scheme and [www.]
    but no trailing slash.  On a list without [example.com], adding
    [HTTP://WWW.Example.com] appends an entry keyed [example.com], and
    adding [example.com] afterwards is refused as already blocked, with
    the list and the history untouched. *)
Theorem add_scheme_then_plain_rejected (w1 w2 : World)
    (reason1 by1 reason2 by2 : string) (blocked : list BlockEntry) (t : list Event) :
  is_blocked "example.com" blocked = false →
  let first := add_blocked_domain w1 "HTTP://WWW.Example.com" reason1 by1 blocked t in
  let second := add_blocked_domain w2 "example.com" reason2 by2 first.1.2 first.2 in
  (∃ e, first.1.2 = blocked ++ [e] ∧ domain e = "example.com")
  ∧ second = (((false, "Domain example.com is already blocked"), first.1.2), first.2).
Proof.
  intros Hb first second.
  assert (Hc1 : clean_domain "HTTP://WWW.Example.com" = "example.com") by reflexivity.
  assert (Hc2 : clean_domain "example.com" = "example.com") by reflexivity.
  assert (Hl : first.1.2 = blocked ++
            [ {| domain := "example.com"; reason := reason1; created_by := by1;
                 created_at := w_now w1 t; applied_devices := [];
                 status := "active" |} ]).
  { subst first. rewrite add_new_appends; rewrite Hc1; done. }
  split; [eauto|].
  subst second. apply add_when_blocked.
  rewrite Hc2, Hl, is_blocked_app. simpl. by rewrite orb_true_r.
Qed.

Lemma add_scheme_then_plain_rejected_witness :
  (∃ e, (add_blocked_domain (quiet_world []) "HTTP://WWW.Example.com" "r" "admin" [] []).1.2
        = [] ++ [e] ∧ domain e = "example.com")
  ∧ add_blocked_domain (quiet_world []) "example.com" "r" "admin"
      (add_blocked_domain (quiet_world []) "HTTP://WWW.Example.com" "r" "admin" [] []).1.2
      (add_blocked_domain (quiet_world []) "HTTP://WWW.Example.com" "r" "admin" [] []).2
    = (((false, "Domain example.com is already blocked"),
        (add_blocked_domain (quiet_world []) "HTTP://WWW.Example.com" "r" "admin" [] []).1.2),
       (add_blocked_domain (quiet_world []) "HTTP://WWW.Example.com" "r" "admin" [] []).2).
Proof.
  apply (add_scheme_then_plain_rejected (quiet_world []) (quiet_world [])
           "r" "admin" "r" "admin" [] []).
  reflexivity.
Defined.

(** C1 as written fails: with the trailing slash the first key is
    [example.com/], so the second call is not a duplicate and succeeds. *)
Lemma add_trailing_slash_not_collapsed :
  let first := add_blocked_domain (quiet_world []) "HTTP://WWW.Example.com/"
                 "r" "admin" [] [] in
  let second := add_blocked_domain (quiet_world []) "example.com" "r" "admin"
                  first.1.2 first.2 in
  is_blocked "example.com" [] = false
  ∧ clean_domain "HTTP://WWW.Example.com/" = "example.com/"
  ∧ domain <$> first.1.2 = ["example.com/"]
  ∧ second.1.1 = (true, "Domain example.com blocked successfully on 0 devices")
  ∧ domain <$> second.1.2 = ["example.com/"; "example.com"].
Proof. vm_compute. done. Qed.

(** C2 at the failing input: [www.example.com] is stored under
    [example.com], and removing [www.example.com] looks for
    [www.example.com], reports not-found and leaves the entry. *)
Lemma add_then_remove_www_not_found :
  let added := add_blocked_domain (quiet_world []) "www.example.com"
                 "r" "admin" [] [] in
  let removed := remove_blocked_domain (quiet_world []) "www.example.com" "admin"
                   added.1.2 added.2 in
  added.1.1 = (true, "Domain example.com blocked successfully on 0 devices")
  ∧ removed.1.1 = (false, "Domain www.example.com not found in block list")
  ∧ domain <$> removed.1.2 = ["example.com"].
Proof. vm_compute. done. Qed.

(** *** Fleet-wide application *)

(** Without a usable router config the two fleet-wide operations only
    count the devices. *)
Lemma apply_simulated w d t :
  usable_config (load_router_config w t).1 = None →
  apply_domain_block w d t
  = ((true, length (w_devices w t)), t ++ [EvApplied d true (length (w_devices w t))]).
Proof.
  unfold apply_domain_block, load_router_config, get_discovered_devices.
  eff_unfold. intros ->. done.
Qed.

Lemma remove_simulated w d t :
  usable_config (load_router_config w t).1 = None →
  remove_domain_block w d t
  = ((true, length (w_devices w t)), t ++ [EvRemoved d true (length (w_devices w t))]).
Proof.
  unfold remove_domain_block, load_router_config, get_discovered_devices.
  eff_unfold. intros ->. done.
Qed.

(** A missing or unreadable file gives no config. *)
Lemma load_missing w t :
  w_router_file w t = FileMissing ∨ w_router_file w t = FileError →
  (load_router_config w t).1 = None.
Proof. unfold load_router_config. eff_unfold. by intros [-> | ->]. Qed.

(** The [mode] key plays no part in whether a config is returned. *)
Lemma load_ignores_mode w w' t config v :
  w_router_file w t = FileJson (JObj config) →
  w_router_file w' t = FileJson (JObj (<["mode" := v]> config)) →
  is_Some (load_router_config w t).1 ↔ is_Some (load_router_config w' t).1.
Proof.
  unfold load_router_config. eff_unfold. intros -> ->.
  rewrite lookup_insert_ne by done.
  destruct (default _ _); try done.
  by destruct (truthy _).
Qed.

(** C7, as the code has it: whenever [load_router_config] returns no
    usable config (file missing or unreadable, not an object, or without
    a true [connection_status.success]; the [mode] key is not read),
    both fleet-wide operations touch no router: the only event is the
    return itself, with success and the full device count. *)
Theorem no_config_counts_all_devices (w : World) (d : string) (t : list Event) :
  usable_config (load_router_config w t).1 = None →
  apply_domain_block w d t
  = ((true, length (w_devices w t)), t ++ [EvApplied d true (length (w_devices w t))])
  ∧ remove_domain_block w d t
    = ((true, length (w_devices w t)), t ++ [EvRemoved d true (length (w_devices w t))]).
Proof. intros Hc. split; [by apply apply_simulated | by apply remove_simulated]. Qed.

Lemma no_config_counts_all_devices_witness :
  apply_domain_block (quiet_world two_devices) "example.com" []
  = ((true, 2), [EvApplied "example.com" true 2])
  ∧ remove_domain_block (quiet_world two_devices) "example.com" []
    = ((true, 2), [EvRemoved "example.com" true 2]).
Proof.
  apply (no_config_counts_all_devices (quiet_world two_devices) "example.com" []).
  reflexivity.
Defined.

(** C7 as written fails: a router file with [mode] set to [simulated]
    and a successful connection test is used for a real SSH session;
    when the connection is refused the result is failure with count 0,
    not success with the two devices. *)
Lemma simulated_mode_still_connects :
  apply_domain_block refusing_router_world "example.com" []
  = ((false, 0),
     [ EvSshConnect (JStr "192.168.1.1") (JStr "admin") (JStr "secret") (JNum 22);
       EvApplied "example.com" false 0 ])
  ∧ remove_domain_block refusing_router_world "example.com" []
    = ((false, 0),
       [ EvSshConnect (JStr "192.168.1.1") (JStr "admin") (JStr "secret") (JNum 22);
         EvRemoved "example.com" false 0 ]).
Proof. vm_compute. done. Qed.

(** C10: once the list is written, the mutation stands.  For a new key
    and a successful save, [add_blocked_domain] returns True with the
    entry appended, and reports a failed rule application only as
    pending; for a stored key and a successful save,
    [remove_blocked_domain] returns True with the entries of that key
    gone, and reports a failed rule removal only as pending.  The rule
    operation meant is the one the call makes, right after the write of
    the new list. *)
Theorem mutation_not_rolled_back (w : World) (d reason actor : string)
    (blocked : list BlockEntry) (t : list Event) :
  (is_blocked (clean_domain d) blocked = false →
   w_save_ok w t = true →
   let r := add_blocked_domain w d reason actor blocked t in
   r.1.1.1 = true
   ∧ (∃ e, r.1.2 = blocked ++ [e] ∧ domain e = clean_domain d ∧ status e = "active")
   ∧ ((apply_domain_block w (clean_domain d) (t ++ [EvSaved r.1.2 true])).1.1 = false →
      r.1.1.2 = "Domain " +:+ clean_domain d
                  +:+ " added to block list (rules application pending)"))
  ∧ (is_blocked (lower (strip d)) blocked = true →
     w_save_ok w t = true →
     let r := remove_blocked_domain w d actor blocked t in
     r.1.1.1 = true
     ∧ r.1.2 = filter (λ e, domain e ≠ lower (strip d)) blocked
     ∧ is_blocked (lower (strip d)) r.1.2 = false
     ∧ ((remove_domain_block w (lower (strip d)) (t ++ [EvSaved r.1.2 true])).1.1 = false →
        r.1.1.2 = "Domain " +:+ lower (strip d)
                    +:+ " removed from block list (rules removal pending)")).
Proof.
  split.
  - intros Hb Hs r.
    assert (Hl : r.1.2 = blocked ++ [ {| domain := clean_domain d; reason := reason;
                    created_by := actor; created_at := w_now w t;
                    applied_devices := []; status := "active" |} ]).
    { subst r. by apply add_new_appends. }
    rewrite Hl. split_and!.
    + subst r. unfold add_blocked_domain. rewrite Hb. eff_unfold.
      unfold save_blocked_domains. eff_unfold. rewrite Hs.
      by destruct (apply_domain_block _ _ _) as [[[] n] t'].
    + eauto.
    + subst r. unfold add_blocked_domain. rewrite Hb. eff_unfold.
      unfold save_blocked_domains. eff_unfold. rewrite Hs.
      by destruct (apply_domain_block _ _ _) as [[[] n] t'].
  - intros Hb Hs r.
    pose proof (filter_shorter _ _ Hb) as Hlt.
    assert (Hn : (length (filter (λ e, domain e ≠ lower (strip d)) blocked)
                  =? length blocked)%nat = false) by (apply Nat.eqb_neq; lia).
    assert (Hr : r.1.2 = filter (λ e, domain e ≠ lower (strip d)) blocked
                 ∧ r.1.1.1 = true
                 ∧ ((remove_domain_block w (lower (strip d))
                       (t ++ [EvSaved (filter (λ e, domain e ≠ lower (strip d)) blocked)
                                true])).1.1 = false →
                    r.1.1.2 = "Domain " +:+ lower (strip d)
                      +:+ " removed from block list (rules removal pending)")).
    { subst r. unfold remove_blocked_domain. rewrite Hn. eff_unfold.
      unfold save_blocked_domains. eff_unfold. rewrite Hs.
      by destruct (remove_domain_block _ _ _) as [[[] n] t']. }
    destruct Hr as (Hl & Hok & Hmsg). rewrite Hl. split_and!; try done.
    apply filter_removes.
Qed.

Lemma mutation_not_rolled_back_witness :
  (let r := add_blocked_domain refusing_router_world "example.com" "policy" "admin"
              [] [] in
   r.1.1.1 = true
   ∧ (∃ e, r.1.2 = [] ++ [e] ∧ domain e = clean_domain "example.com"
           ∧ status e = "active")
   ∧ r.1.1.2 = "Domain " +:+ clean_domain "example.com"
                 +:+ " added to block list (rules application pending)")
  ∧ (let r := remove_blocked_domain refusing_router_world "example.com" "admin"
                [sample_entry] [] in
     r.1.1.1 = true
     ∧ r.1.2 = []
     ∧ r.1.1.2 = "Domain " +:+ lower (strip "example.com")
                   +:+ " removed from block list (rules removal pending)").
Proof.
  destruct (mutation_not_rolled_back refusing_router_world "example.com" "policy"
              "admin" [] []) as [Hadd _].
  destruct (mutation_not_rolled_back refusing_router_world "example.com" "policy"
              "admin" [sample_entry] []) as [_ Hrem].
  specialize (Hadd eq_refl eq_refl). specialize (Hrem eq_refl eq_refl).
  simpl in Hadd, Hrem.
  destruct Hadd as (Ha1 & Ha2 & Ha3). destruct Hrem as (Hr1 & Hr2 & _ & Hr4).
  split.
  - split_and!; [exact Ha1 | exact Ha2 | exact (Ha3 eq_refl)].
  - split_and!; [exact Hr1 | exact Hr2 | exact (Hr4 eq_refl)].
Defined.

(** *** Re-applying every rule *)

Lemma applied_results_app t1 t2 :
  applied_results (t1 ++ t2) = applied_results t1 ++ applied_results t2.
Proof. unfold applied_results. apply omap_app. Qed.

Lemma quiet_ret {A} (a : A) : quiet (mret a).
Proof. intros t. exists []. by rewrite app_nil_r. Qed.

Lemma quiet_bind {A B} (m : M A) (k : A → M B) :
  quiet m → (∀ a, quiet (k a)) → quiet (m ≫= k).
Proof.
  intros Hm Hk t. unfold mbind, eff_bind.
  destruct (Hm t) as (e1 & H1 & Hq1). destruct (m t) as [a t1]. simpl in H1. subst t1.
  destruct (Hk a (t ++ e1)) as (e2 & H2 & Hq2).
  exists (e1 ++ e2). rewrite H2, applied_results_app, Hq1, Hq2, app_assoc. done.
Qed.

Lemma quiet_ask {A} (o : list Event → A) : quiet (ask o).
Proof. intros t. exists []. by rewrite app_nil_r. Qed.

Lemma quiet_emit e : applied_results [e] = [] → quiet (emit e).
Proof. intros He t. by exists [e]. Qed.


Lemma quiet_ssh_session w config loop : quiet loop → quiet (ssh_session w config loop).
Proof.
  intros Hl. unfold ssh_session.
  destruct (config !! "router_ip"); [|apply quiet_ret].
  destruct (config !! "username"); [|apply quiet_ret].
  destruct (config !! "password"); [|apply quiet_ret].
  apply quiet_bind; [apply quiet_ask|]. intros ok.
  apply quiet_bind; [by apply quiet_emit|]. intros _.
  destruct ok; [|apply quiet_ret].
  apply quiet_bind; [done|]. intros [n|]; [|apply quiet_ret].
  apply quiet_bind; [by apply quiet_emit|]. intros _. apply quiet_ret.
Qed.




(** Three active domains and a removed one on a router where the rule
    for [bad.com] cannot be issued: the two others are applied on both
    devices and the failure is named. *)
Example reapply_with_one_failure :
  (reapply_all_rules flaky_router_world
     [ entry_of "a.com" "active"; entry_of "bad.com" "active";
       entry_of "old.com" "removed"; entry_of "c.com" "active" ] []).1
  = (false, "Applied 4 rules, failed: bad.com")
  ∧ applied_results
      (reapply_all_rules flaky_router_world
         [ entry_of "a.com" "active"; entry_of "bad.com" "active";
           entry_of "old.com" "removed"; entry_of "c.com" "active" ] []).2
    = [ ("a.com", true, 2); ("bad.com", false, 0); ("c.com", true, 2) ].
Proof. vm_compute. done. Qed.

End GlobalBlockingProps.

(* ===================================================================== *)
(** * Properties of the device registry and the scan history             *)
(* ===================================================================== *)

Module NetworkDiscoveryProps.
Import PyStr NetworkDiscovery DiscoverySamples.

Lemma later_refl db : later db db.
Proof. split; [done|]. intros m r Hr. exists r. split_and!; [done..|lia]. Qed.

Lemma later_trans db1 db2 db3 : later db1 db2 → later db2 db3 → later db1 db3.
Proof.
  intros [Ht1 H1] [Ht2 H2]. split; [lia|]. intros m r Hr.
  destruct (H1 m r Hr) as (r2 & Hr2 & Hi2 & Hf2 & Hl2).
  destruct (H2 m r2 Hr2) as (r3 & Hr3 & Hi3 & Hf3 & Hl3).
  exists r3. split_and!; [done | congruence | congruence | lia].
Qed.

Section Clock.
Variable clock : nat → Z.
Hypothesis clock_mono : ∀ n m, (n ≤ m)%nat → (clock n ≤ clock m)%Z.

(** One upsert keeps the timestamps in order and only moves the
    registry forward. *)
Lemma upsert_step device db :
  timestamps_ok clock db →
  timestamps_ok clock (upsert clock device db) ∧ later db (upsert clock device db).
Proof.
  intros Hok. unfold upsert. destruct (has_mac device); simpl; [|split; [done|apply later_refl]].
  set (m := default "" (mac device)).
  destruct (discovered_devices db !! m) as [r0|] eqn:Hm; simpl.
  - split.
    + intros m' r'. simpl. rewrite lookup_alter. case_decide as Hd.
      * subst m'. rewrite Hm. simpl. intros [= <-]. simpl.
        destruct (Hok m r0 Hm) as [H1 H2].
        pose proof (clock_mono (tick db) (S (tick db)) ltac:(lia)).
        pose proof (clock_mono (S (tick db)) (S (S (tick db))) ltac:(lia)). lia.
      * intros Hr'. destruct (Hok m' r' Hr') as [H1 H2]. split; [done|].
        pose proof (clock_mono (tick db) (S (S (tick db))) ltac:(lia)). lia.
    + split; [simpl; lia|]. intros m' r'. simpl. rewrite lookup_alter.
      case_decide as Hd.
      * subst m'. rewrite Hm. intros [= <-]. eexists. split; [done|]. simpl.
        split_and!; [done..|]. destruct (Hok m r0 Hm) as [H1 H2].
        pose proof (clock_mono (tick db) (S (tick db)) ltac:(lia)). lia.
      * intros Hr'. exists r'. split_and!; [done..|lia].
  - split.
    + intros m' r'. simpl. rewrite lookup_insert. case_decide as Hd.
      * intros [= <-]. simpl.
        pose proof (clock_mono (S (tick db)) (S (S (tick db))) ltac:(lia)). lia.
      * intros Hr'. destruct (Hok m' r' Hr') as [H1 H2]. split; [done|].
        pose proof (clock_mono (tick db) (S (S (tick db))) ltac:(lia)). lia.
    + split; [simpl; lia|]. intros m' r' Hr'. simpl. rewrite lookup_insert.
      case_decide as Hd; [congruence|]. exists r'. split_and!; [done..|lia].
Qed.

Lemma upserts_step devices db :
  timestamps_ok clock db →
  timestamps_ok clock (foldl (λ db device, upsert clock device db) db devices)
  ∧ later db (foldl (λ db device, upsert clock device db) db devices).
Proof.
  revert db. induction devices as [|d rest IH]; intros db Hok; simpl.
  - split; [done|apply later_refl].
  - destruct (upsert_step d db Hok) as [Hok1 Hl1].
    destruct (IH _ Hok1) as [Hok2 Hl2]. split; [done|]. by eapply later_trans.
Qed.

Lemma insert_scan_step found method db :
  timestamps_ok clock db →
  timestamps_ok clock (insert_scan clock found method db)
  ∧ later db (insert_scan clock found method db).
Proof.
  intros Hok. split.
  - intros m r Hr. simpl in *. destruct (Hok m r Hr) as [H1 H2]. split; [done|].
    pose proof (clock_mono (tick db) (S (tick db)) ltac:(lia)). lia.
  - split; [simpl; lia|]. intros m r Hr. exists r. split_and!; [done..|lia].
Qed.

Lemma save_step devices db :
  timestamps_ok clock db →
  timestamps_ok clock (save_to_local_db clock devices db)
  ∧ later db (save_to_local_db clock devices db).
Proof.
  intros Hok. unfold save_to_local_db.
  destruct (upserts_step devices db Hok) as [Hok1 Hl1].
  destruct (insert_scan_step (length devices) "automated" _ Hok1) as [Hok2 Hl2].
  split; [done|]. by eapply later_trans.
Qed.

Lemma save_all_step batches db :
  timestamps_ok clock db →
  timestamps_ok clock (save_all clock batches db)
  ∧ later db (save_all clock batches db).
Proof.
  revert db. induction batches as [|b rest IH]; intros db Hok; simpl.
  - split; [done|apply later_refl].
  - destruct (save_step b db Hok) as [Hok1 Hl1].
    destruct (IH _ Hok1) as [Hok2 Hl2]. split; [done|]. by eapply later_trans.
Qed.

Lemma init_timestamps_ok : timestamps_ok clock init_local_db.
Proof. intros m r Hr. simpl in Hr. by rewrite lookup_empty in Hr. Qed.

End Clock.

(** C5: with a clock that does not run backwards, take any run of
    [save_to_local_db] calls from the new database and any further run
    after it.  A device present after the first run is still stored
    under its MAC after the second, with the same [first_seen] and a
    [last_seen] that is no earlier; and [first_seen] is never after
    [last_seen]. *)
Theorem first_seen_fixed_last_seen_grows (clock : nat → Z)
    (before after : list (list Observation)) (m : string) (r : DeviceRow) :
  (∀ n k, (n ≤ k)%nat → (clock n ≤ clock k)%Z) →
  discovered_devices (save_all clock before init_local_db) !! m = Some r →
  ∃ r', discovered_devices (save_all clock after (save_all clock before init_local_db)) !! m
        = Some r'
        ∧ first_seen r' = first_seen r
        ∧ (last_seen r ≤ last_seen r')%Z
        ∧ (first_seen r' ≤ last_seen r')%Z.
Proof.
  intros Hmono Hr.
  destruct (save_all_step clock Hmono before init_local_db (init_timestamps_ok clock))
    as [Hok1 _].
  destruct (save_all_step clock Hmono after _ Hok1) as [Hok2 [_ Hl]].
  destruct (Hl m r Hr) as (r' & Hr' & _ & Hf & Hls).
  exists r'. split_and!; [done..|]. by destruct (Hok2 m r' Hr').
Qed.

Lemma first_seen_fixed_last_seen_grows_witness :
  ∃ r', discovered_devices
          (save_all Z.of_nat [[printer_moved; printer]; [printer_moved]]
             (save_all Z.of_nat [[printer]] init_local_db))
          !! "AA:BB:CC:00:11:22" = Some r'
        ∧ first_seen r' = first_seen printer_row
        ∧ (last_seen printer_row ≤ last_seen r')%Z
        ∧ (first_seen r' ≤ last_seen r')%Z.
Proof.
  apply (first_seen_fixed_last_seen_grows Z.of_nat [[printer]]
           [[printer_moved; printer]; [printer_moved]] "AA:BB:CC:00:11:22" printer_row).
  - intros n k Hnk. lia.
  - vm_compute. reflexivity.
Defined.

(** The upserts do not write to the scan history. *)
Lemma upserts_keep_history clock devices db :
  scan_history (foldl (λ db device, upsert clock device db) db devices) = scan_history db.
Proof.
  revert db. induction devices as [|d rest IH]; intros db; simpl; [done|].
  rewrite IH. unfold upsert. destruct (has_mac d); simpl; [|done].
  by destruct (discovered_devices db !! _).
Qed.

(** Every call of [save_to_local_db] appends one row to the history,
    with the length of its argument and the fixed method label. *)
Lemma save_appends_one_row clock devices db :
  ∃ row, scan_history (save_to_local_db clock devices db) = scan_history db ++ [row]
         ∧ devices_found row = length devices
         ∧ scan_method row = "automated".
Proof.
  unfold save_to_local_db. eexists. simpl. rewrite upserts_keep_history. done.
Qed.

(** C4, as the code has it: a turn of the scan loop whose scan returns at
    least one observation with a MAC appends exactly one row to the scan
    history; the row holds the number of those observations, and its
    method is the label [automated] whichever strategy ran.  A turn whose
    scan returns no such observation leaves the database, and so the
    history, as it was. *)
Theorem scan_appends_one_automated_row (clock : nat → Z) (env : ScanEnv) (db : Db) :
  (perform_network_scan env ≠ [] →
   ∃ row, scan_history (scan_loop_body clock env db) = scan_history db ++ [row]
          ∧ devices_found row = length (perform_network_scan env)
          ∧ scan_method row = "automated")
  ∧ (perform_network_scan env = [] →
     scan_loop_body clock env db = db
     ∧ scan_history (scan_loop_body clock env db) = scan_history db).
Proof.
  unfold scan_loop_body. split.
  - intros Hne.
    destruct (perform_network_scan env) as [|d rest] eqn:Hscan; [done|].
    apply save_appends_one_row.
  - by intros ->.
Qed.

Lemma scan_appends_one_automated_row_witness :
  (∃ row, scan_history (scan_loop_body Z.of_nat ping_env init_local_db)
          = scan_history init_local_db ++ [row]
          ∧ devices_found row = length (perform_network_scan ping_env)
          ∧ scan_method row = "automated")
  ∧ scan_loop_body Z.of_nat idle_env (scan_loop_body Z.of_nat ping_env init_local_db)
    = scan_loop_body Z.of_nat ping_env init_local_db.
Proof.
  split.
  - apply (scan_appends_one_automated_row Z.of_nat ping_env init_local_db).
    vm_compute. discriminate.
  - apply (scan_appends_one_automated_row Z.of_nat idle_env
             (scan_loop_body Z.of_nat ping_env init_local_db)).
    reflexivity.
Defined.

(** C4 as written fails twice: a scan that finds no device with a MAC
    leaves the history as it was, and the rows written after an nmap
    scan and after a ping sweep are the same, so the row does not tell
    the strategy. *)
Lemma scan_row_absent_or_without_strategy :
  scan_history (scan_loop_body Z.of_nat idle_env init_local_db) = []
  ∧ strategy_used nmap_env = Nmap
  ∧ strategy_used ping_env = PingSweep
  ∧ scan_history (scan_loop_body Z.of_nat nmap_env init_local_db)
    = scan_history (scan_loop_body Z.of_nat ping_env init_local_db)
  ∧ scan_method <$> scan_history (scan_loop_body Z.of_nat ping_env init_local_db)
    = ["automated"].
Proof. vm_compute. done. Qed.

End NetworkDiscoveryProps.

(* ===================================================================== *)
(** * Properties of the firewall manager                                  *)
(* ===================================================================== *)

Module NetworkFirewallProps.
Import NetworkFirewall FirewallSamples.

(** [_initialize_firewall] always installs an adapter. *)
Lemma initialize_installs mgr fault : is_Some (firewall (_initialize_firewall mgr fault)).
Proof.
  unfold _initialize_firewall.
  destruct (select_adapter _ _ _) as [[a ty]|]; simpl; eauto.
Qed.

(** A raised constructor ends with the simulated adapter. *)
Lemma initialize_fault mgr :
  firewall (_initialize_firewall mgr true) = Some new_simulated
  ∧ firewall_type (_initialize_firewall mgr true) = PyStr "simulated".
Proof.
  unfold _initialize_firewall, select_adapter.
  by repeat (destruct (is_str _ _)).
Qed.

(** A type other than the three known ones ends with the simulated
    adapter. *)
Lemma initialize_unrecognized mgr fault :
  is_str (firewall_type mgr) "pfsense" = false →
  is_str (firewall_type mgr) "openwrt" = false →
  is_str (firewall_type mgr) "fortigate" = false →
  firewall (_initialize_firewall mgr fault) = Some new_simulated
  ∧ firewall_type (_initialize_firewall mgr fault) = PyStr "simulated".
Proof.
  intros H1 H2 H3. unfold _initialize_firewall, select_adapter.
  by rewrite H1, H2, H3.
Qed.

(** C8: for every config (also none) and whether or not a constructor
    raises, the constructed manager holds an adapter.  It is the
    simulated one when the type is none of [pfsense], [openwrt],
    [fortigate] (which includes [simulated] and a missing type), and
    when a constructor raised.  So the no-firewall branch of the four
    operations is never taken: each of them is the call of the adapter's
    operation. *)
Theorem manager_always_holds_adapter {W : Type} `{FirewallIntegration Adapter W}
    (cfg : option (gmap string pyval)) (fault : bool) :
  let mgr := new_manager cfg fault in
  let ty := get_default (default ∅ cfg) "type" (PyStr "simulated") in
  ∃ a, firewall mgr = Some a
       ∧ (is_str ty "pfsense" = false → is_str ty "openwrt" = false →
          is_str ty "fortigate" = false → a = new_simulated)
       ∧ (fault = true → a = new_simulated)
       ∧ guard_taken mgr = false
       ∧ (∀ device_ip dom rule_name w,
            block_domain mgr device_ip dom rule_name w
            = let '(r, a', w') := adapter_block_domain a device_ip dom rule_name w in
              (r, with_firewall mgr a', w'))
       ∧ (∀ device_ip dom rule_name w,
            unblock_domain mgr device_ip dom rule_name w
            = let '(r, a', w') := adapter_unblock_domain a device_ip dom rule_name w in
              (r, with_firewall mgr a', w'))
       ∧ (∀ w, list_rules mgr w
               = let '(r, a', w') := adapter_list_rules a w in
                 (r, with_firewall mgr a', w'))
       ∧ (∀ w, test_connection mgr w
               = let '(r, a', w') := adapter_test_connection a w in
                 (r, with_firewall mgr a', w')).
Proof.
  intros mgr ty. unfold new_manager in mgr.
  set (mgr0 := {| config := default ∅ cfg; firewall := None; firewall_type := ty |}).
  destruct (initialize_installs mgr0 fault) as [a Ha].
  exists a. split; [exact Ha|]. split_and!.
  - intros H1 H2 H3.
    destruct (initialize_unrecognized mgr0 fault H1 H2 H3) as [Hs _].
    fold mgr in Ha. subst mgr mgr0 ty. congruence.
  - intros ->. destruct (initialize_fault mgr0) as [Hs _].
    subst mgr mgr0 ty. congruence.
  - unfold guard_taken. subst mgr mgr0 ty. by rewrite Ha.
  - intros. unfold block_domain. subst mgr mgr0 ty. by rewrite Ha.
  - intros. unfold unblock_domain. subst mgr mgr0 ty. by rewrite Ha.
  - intros. unfold list_rules. subst mgr mgr0 ty. by rewrite Ha.
  - intros. unfold test_connection. subst mgr mgr0 ty. by rewrite Ha.
Qed.

(** A pfsense config whose constructor raises, and an unknown type:
    both managers answer through the simulated adapter. *)
Lemma manager_always_holds_adapter_witness :
  firewall (new_manager (Some pfsense_config) true) = Some new_simulated
  ∧ firewall (new_manager (Some unknown_config) false) = Some new_simulated
  ∧ (test_connection (new_manager (Some pfsense_config) true) lucky_world).1.1
    = (true, "Connected to simulated firewall (Demo Mode)").
Proof.
  destruct (manager_always_holds_adapter (W := OfflineWorld) (Some pfsense_config) true)
    as (a & Ha & _ & Hfault & _ & _ & _ & _ & Htest).
  destruct (manager_always_holds_adapter (W := OfflineWorld) (Some unknown_config) false)
    as (b & Hb & Hunk & _).
  specialize (Hfault eq_refl). specialize (Hunk eq_refl eq_refl eq_refl).
  subst a b. split_and!; [exact Ha | exact Hb |].
  rewrite Htest. reflexivity.
Defined.

(** A recognised type without a fault keeps its concrete adapter. *)
Example pfsense_manager :
  firewall (new_manager (Some pfsense_config) false)
  = Some (PfSenseFirewall (PyStr "192.168.1.1") (PyStr "admin") (PyStr "secret") PyNone).
Proof. vm_compute. done. Qed.

End NetworkFirewallProps.

(* ===================================================================== *)
(** * Properties of the router connection test                            *)
(* ===================================================================== *)

Module RouterConfigProps.
Import PyStr RouterConfig RouterSamples.

(** What [test_ssh_connection] returns and records when the probe does
    not report an open port. *)
Lemma test_after_failed_probe w router_ip username password port timeout t :
  r_connect_ex w t router_ip port timeout ≠ TcpResult 0 →
  test_ssh_connection w router_ip username password port timeout t
  = ((false,
      match r_connect_ex w t router_ip port timeout with
      | TcpResult _ => unreachable_message router_ip port
      | TcpRaises (SockTimeout _) =>
          "Connection timeout - Router not responding on port " +:+ pretty port
      | TcpRaises (SockError msg) | TcpSetupRaises msg => "Connection failed: " +:+ msg
      end,
      {| tested_at := r_now w t; router_ip := router_ip; ssh_port := port;
         response_time := None; router_info := None |}),
     t ++ match r_connect_ex w t router_ip port timeout with
          | TcpSetupRaises _ => []
          | _ => [EvTcpConnect router_ip port]
          end).
Proof.
  intros Hp. unfold test_ssh_connection, mbind, mret, eff_bind, eff_ret, ask, emit.
  simpl. destruct (r_connect_ex w t router_ip port timeout) as [code|[m|m]|m]; simpl.
  - destruct (code =? 0)%Z eqn:Hc; [|done]. apply Z.eqb_eq in Hc. by subst.
  - done.
  - done.
  - by rewrite app_nil_r.
Qed.

(** C9, as the code has it: whenever the TCP probe does not report an
    open port, the test fails with the connection info untouched, no SSH
    connection and no command is attempted, and the message is never the
    authentication one.  The message is the unreachable one, naming host
    and port, exactly when the probe returned a non-zero code; when the
    probe raised, it is the message of the handler for that exception,
    and when the raise came before [connect_ex] not even the probe is
    recorded. *)
Theorem failed_probe_stops_before_ssh (w : World) (router_ip username password : string)
    (port timeout : Z) (t : list Event) :
  r_connect_ex w t router_ip port timeout ≠ TcpResult 0 →
  let run := test_ssh_connection w router_ip username password port timeout t in
  run.1 = (false,
           match r_connect_ex w t router_ip port timeout with
           | TcpResult _ =>
               "Cannot reach " +:+ router_ip +:+ ":" +:+ pretty port
                 +:+ " - Network unreachable"
           | TcpRaises (SockTimeout _) =>
               "Connection timeout - Router not responding on port " +:+ pretty port
           | TcpRaises (SockError msg) | TcpSetupRaises msg => "Connection failed: " +:+ msg
           end,
           {| tested_at := r_now w t; router_ip := router_ip; ssh_port := port;
              response_time := None; router_info := None |})
  ∧ run.2 = t ++ match r_connect_ex w t router_ip port timeout with
                 | TcpSetupRaises _ => []
                 | _ => [EvTcpConnect router_ip port]
                 end
  ∧ existsb is_ssh_event
      (events_of (test_ssh_connection w router_ip username password port timeout) t) = false
  ∧ run.1.1.2 ≠ "Authentication failed - Invalid username or password".
Proof.
  intros Hp run.
  pose proof (test_after_failed_probe w router_ip username password port timeout t Hp)
    as Hrun.
  fold run in Hrun. unfold events_of. fold run. rewrite Hrun. cbn [fst snd].
  split_and!.
  - done.
  - done.
  - rewrite drop_app_length.
    by destruct (r_connect_ex w t router_ip port timeout) as [code|[m|m]|m].
  - destruct (r_connect_ex w t router_ip port timeout) as [code|[m|m]|m];
      unfold unreachable_message; discriminate.
Qed.

Lemma failed_probe_stops_before_ssh_witness :
  (let run := test_ssh_connection closed_port_world "192.168.1.1" "admin" "secret" 22 10 [] in
   run.1 = (false, "Cannot reach 192.168.1.1:22 - Network unreachable",
            {| tested_at := "2024-01-01T00:00:00"; router_ip := "192.168.1.1";
               ssh_port := 22; response_time := None; router_info := None |})
   ∧ run.2 = [] ++ [EvTcpConnect "192.168.1.1" 22]
   ∧ existsb is_ssh_event
       (events_of (test_ssh_connection closed_port_world "192.168.1.1" "admin" "secret" 22 10)
          []) = false
   ∧ run.1.1.2 ≠ "Authentication failed - Invalid username or password")
  ∧ (let run := test_ssh_connection bad_timeout_world "192.168.1.1" "admin" "secret" 22 (-1)
                  [] in
     run.1 = (false, "Connection failed: Timeout value out of range",
              {| tested_at := "2024-01-01T00:00:00"; router_ip := "192.168.1.1";
                 ssh_port := 22; response_time := None; router_info := None |})
     ∧ run.2 = [] ++ []
     ∧ existsb is_ssh_event
         (events_of (test_ssh_connection bad_timeout_world "192.168.1.1" "admin" "secret"
                       22 (-1)) []) = false
     ∧ run.1.1.2 ≠ "Authentication failed - Invalid username or password").
Proof.
  split.
  - apply (failed_probe_stops_before_ssh closed_port_world "192.168.1.1" "admin" "secret"
             22 10 []).
    discriminate.
  - apply (failed_probe_stops_before_ssh bad_timeout_world "192.168.1.1" "admin" "secret"
             22 (-1) []).
    discriminate.
Defined.

(** C9 as written fails: a host name that does not resolve makes the
    probe fail by raising, and the answer is the general handler's
    message, not the unreachable one. *)
Lemma raising_probe_not_reported_unreachable :
  let run := test_ssh_connection unresolvable_host_world "router.invalid" "admin" "secret"
               22 10 [] in
  r_connect_ex unresolvable_host_world [] "router.invalid" 22 10
  = TcpRaises (SockError "[Errno -2] Name or service not known")
  ∧ run.1.1 = (false, "Connection failed: [Errno -2] Name or service not known")
  ∧ String.eqb run.1.1.2 (unreachable_message "router.invalid" 22) = false
  ∧ run.2 = [EvTcpConnect "router.invalid" 22].
Proof. vm_compute. done. Qed.

(** On an open port the same wrong password is reported as an
    authentication failure, after the SSH connection was tried. *)
Example wrong_password_is_auth_failure :
  test_ssh_connection wrong_password_world "192.168.1.1" "admin" "secret" 22 10 []
  = ((false, "Authentication failed - Invalid username or password",
      {| tested_at := "2024-01-01T00:00:00"; router_ip := "192.168.1.1";
         ssh_port := 22; response_time := None; router_info := None |}),
     [ EvTcpConnect "192.168.1.1" 22; EvSshConnect "192.168.1.1" "admin" "secret" 22 ]).
Proof. vm_compute. done. Qed.

End RouterConfigProps.

(* ===================================================================== *)
(** * Further properties of the global blocking list                      *)
(* ===================================================================== *)

Module GlobalBlockingExtra.
Import PyStr GlobalBlocking GlobalBlockingStatus Samples BlockingSamples GlobalBlockingProps.

Lemma not_blocked_not_elem c blocked :
  is_blocked c blocked = false → c ∉ domain <$> blocked.
Proof.
  intros Hb Hin. apply list_elem_of_fmap in Hin as (e & -> & He).
  assert (is_blocked (domain e) blocked = true) by (apply is_blocked_elem; eauto).
  congruence.
Qed.

(** X1: removing a key that is not stored fails with the not-found
    message; the list is returned as it was and the call records no
    event: the file is not written ([save_blocked_domains] does not run)
    and no rule is touched. *)
Theorem remove_absent_not_found (w : World) (d removed_by : string)
    (blocked : list BlockEntry) (t : list Event) :
  is_blocked (lower (strip d)) blocked = false →
  remove_blocked_domain w d removed_by blocked t
  = (((false, "Domain " +:+ lower (strip d) +:+ " not found in block list"), blocked), t)
  ∧ events_of (remove_blocked_domain w d removed_by blocked) t = [].
Proof.
  intros Hb. unfold events_of, remove_blocked_domain.
  rewrite (filter_absent _ _ Hb), Nat.eqb_refl. simpl. by rewrite drop_all.
Qed.

Lemma remove_absent_not_found_witness :
  remove_blocked_domain (quiet_world []) " Other.ORG " "admin" [sample_entry] []
  = (((false, "Domain " +:+ lower (strip " Other.ORG ") +:+ " not found in block list"),
      [sample_entry]), [])
  ∧ events_of (remove_blocked_domain (quiet_world []) " Other.ORG " "admin" [sample_entry])
      [] = [].
Proof.
  apply (remove_absent_not_found (quiet_world []) " Other.ORG " "admin" [sample_entry] []).
  reflexivity.
Defined.

Lemma quiet_remove_loop w d devices n : quiet (remove_loop w d devices n).
Proof.
  revert n. induction devices as [|dev rest IH]; intros n; simpl.
  - apply quiet_ret.
  - destruct (ip_truthy _); [|apply IH].
    apply quiet_bind; [apply quiet_ask|]. intros err.
    apply quiet_bind; [by apply quiet_emit|]. intros _.
    destruct err; [apply IH|apply quiet_ret].
Qed.

Lemma remove_domain_block_extends w d t :
  ∃ evs, (remove_domain_block w d t).2 = t ++ evs.
Proof.
  unfold remove_domain_block, load_router_config, get_discovered_devices.
  eff_unfold.
  destruct (usable_config _) as [config|].
  - destruct (quiet_ssh_session w config (remove_loop w d (w_devices w t) 0)
                (quiet_remove_loop _ _ _ _) t) as (evs & Ht & _).
    destruct (ssh_session _ _ _ t) as [[ok n] t1]. simpl in *. subst t1.
    exists (evs ++ [EvRemoved d ok n]). by rewrite app_assoc.
  - simpl. by eexists.
Qed.

(** A stored key is different: the first thing the call records is the
    write of the shortened list. *)
Lemma remove_stored_writes_file w d removed_by blocked t :
  is_blocked (lower (strip d)) blocked = true →
  ∃ rest, (remove_blocked_domain w d removed_by blocked t).2
          = t ++ EvSaved (filter (λ e, domain e ≠ lower (strip d)) blocked)
                   (w_save_ok w t) :: rest.
Proof.
  intros Hb. pose proof (filter_shorter _ _ Hb) as Hlt.
  unfold remove_blocked_domain.
  destruct (Nat.eqb_spec (length (filter (λ e, domain e ≠ lower (strip d)) blocked))
              (length blocked)) as [Heq|_]; [lia|].
  eff_unfold. unfold save_blocked_domains. eff_unfold.
  destruct (w_save_ok w t).
  - pose proof (remove_domain_block_extends w (lower (strip d))
                  (t ++ [EvSaved (filter (λ e, domain e ≠ lower (strip d)) blocked) true]))
      as [evs Hevs].
    destruct (remove_domain_block _ _ _) as [[[] n] t']; simpl in *; subst t';
      exists evs; by rewrite <- app_assoc.
  - by exists [].
Qed.

Example saves_recorded_by_add_and_remove :
  (add_blocked_domain (quiet_world []) "example.com" "policy" "admin" [] []).2
  = [ EvSaved [ {| domain := "example.com"; reason := "policy"; created_by := "admin";
                   created_at := "2024-01-01T00:00:00"; applied_devices := [];
                   status := "active" |} ] true;
      EvApplied "example.com" true 0 ]
  ∧ (remove_blocked_domain (quiet_world []) "example.com" "admin" [sample_entry] []).2
    = [ EvSaved [] true; EvRemoved "example.com" true 0 ].
Proof. vm_compute. done. Qed.

(** X2: for an input that the cleaning of [add_blocked_domain] leaves
    as [strip] and [lower] leave it (no scheme, no [www.]), adding it to
    a list without that key and removing it with the same input gives
    the list back, when both writes go through. *)
Theorem add_then_remove_round_trip (w1 w2 : World) (d reason actor : string)
    (blocked : list BlockEntry) (t : list Event) :
  clean_domain d = lower (strip d) →
  is_blocked (clean_domain d) blocked = false →
  w_save_ok w1 t = true →
  let added := add_blocked_domain w1 d reason actor blocked t in
  w_save_ok w2 added.2 = true →
  let removed := remove_blocked_domain w2 d actor added.1.2 added.2 in
  added.1.1.1 = true ∧ removed.1.1.1 = true ∧ removed.1.2 = blocked.
Proof.
  intros Hc Hb Hs1 added Hs2 removed.
  assert (Hl : added.1.2 = blocked ++
            [ {| domain := clean_domain d; reason := reason; created_by := actor;
                 created_at := w_now w1 t; applied_devices := [];
                 status := "active" |} ]) by (by apply add_new_appends).
  assert (Ha : added.1.1.1 = true).
  { subst added. unfold add_blocked_domain. rewrite Hb.
    unfold mbind, mret, eff_bind, eff_ret, ask, save_blocked_domains. simpl.
    rewrite Hs1. by destruct (apply_domain_block _ _ _) as [[[] n] t']. }
  assert (Hf : filter (λ e, domain e ≠ lower (strip d)) added.1.2 = blocked).
  { rewrite Hl, filter_app, <- Hc, (filter_absent _ _ Hb).
    rewrite filter_cons, decide_False by (simpl; auto). by rewrite app_nil_r. }
  assert (Hn : (length (filter (λ e, domain e ≠ lower (strip d)) added.1.2)
                =? length added.1.2)%nat = false).
  { rewrite Hf, Hl, length_app. simpl. apply Nat.eqb_neq. lia. }
  split; [done|].
  subst removed. unfold remove_blocked_domain. rewrite Hn.
  unfold mbind, mret, eff_bind, eff_ret, ask, save_blocked_domains. simpl.
  rewrite Hs2. rewrite Hf.
  by destruct (remove_domain_block _ _ _) as [[[] n] t'].
Qed.

Lemma add_then_remove_round_trip_witness :
  let added := add_blocked_domain (quiet_world []) " News.Example.ORG " "r" "admin"
                 [sample_entry] [] in
  let removed := remove_blocked_domain (quiet_world []) " News.Example.ORG " "admin"
                   added.1.2 added.2 in
  added.1.1.1 = true ∧ removed.1.1.1 = true ∧ removed.1.2 = [sample_entry].
Proof.
  apply (add_then_remove_round_trip (quiet_world []) (quiet_world [])
           " News.Example.ORG " "r" "admin" [sample_entry] []); reflexivity.
Defined.

(** X3: a list whose keys are pairwise different keeps that property
    under [add_blocked_domain] and [remove_blocked_domain], whatever the
    file system and the router do. *)
Theorem keys_stay_unique (w : World) (d reason actor : string)
    (blocked : list BlockEntry) (t : list Event) :
  NoDup (domain <$> blocked) →
  NoDup (domain <$> (add_blocked_domain w d reason actor blocked t).1.2)
  ∧ NoDup (domain <$> (remove_blocked_domain w d actor blocked t).1.2).
Proof.
  intros Hnd. split.
  - destruct (is_blocked (clean_domain d) blocked) eqn:Hb.
    + by rewrite add_when_blocked.
    + rewrite add_new_appends by done. rewrite fmap_app. simpl.
      apply NoDup_app. split_and!; [done| |apply NoDup_singleton].
      intros x Hx Hx'. apply list_elem_of_singleton in Hx'. subst x.
      by apply (not_blocked_not_elem _ _ Hb).
  - assert (Hr : (remove_blocked_domain w d actor blocked t).1.2
                 = filter (λ e, domain e ≠ lower (strip d)) blocked).
    { unfold remove_blocked_domain. destruct (_ =? _)%nat; [done|].
      unfold mbind, mret, eff_bind, eff_ret, ask, save_blocked_domains. simpl.
      destruct (w_save_ok w t); [|done].
      by destruct (remove_domain_block _ _ _) as [[[] n] t']. }
    rewrite Hr. eapply sublist_NoDup; [done|].
    apply fmap_sublist, sublist_filter.
Qed.

Lemma keys_stay_unique_witness :
  NoDup (domain <$> (add_blocked_domain (quiet_world []) "Example.com" "r" "admin"
                       [sample_entry; entry_of "other.org" "active"] []).1.2)
  ∧ NoDup (domain <$> (remove_blocked_domain (quiet_world []) "Example.com" "admin"
                         [sample_entry; entry_of "other.org" "active"] []).1.2).
Proof.
  apply (keys_stay_unique (quiet_world []) "Example.com" "r" "admin"
           [sample_entry; entry_of "other.org" "active"] []).
  simpl. apply NoDup_cons. split; [|apply NoDup_singleton].
  intros Hin. apply list_elem_of_singleton in Hin. discriminate.
Defined.

(** *** Counting in the rule loops *)

Lemma devices_with_ip_cons device rest :
  devices_with_ip (device :: rest)
  = match ip_truthy (currentIp device) with
    | Some _ => device :: devices_with_ip rest
    | None => devices_with_ip rest
    end.
Proof.
  unfold devices_with_ip. rewrite filter_cons.
  destruct (ip_truthy (currentIp device)) eqn:Hip.
  - rewrite decide_True; [done|eauto].
  - rewrite decide_False; [done|]. by intros [x Hx].
Qed.

Lemma devices_with_ip_length devices :
  (length (devices_with_ip devices) ≤ length devices)%nat.
Proof. apply length_filter. Qed.

(** The block loop counts at most the devices with an address. *)
Lemma apply_loop_bound w d devices n t k :
  (apply_loop w d devices n t).1 = Some k →
  (n ≤ k ≤ n + length (devices_with_ip devices))%nat.
Proof.
  revert n t. induction devices as [|device rest IH]; intros n t; simpl.
  - intros [= <-]. unfold devices_with_ip. simpl. lia.
  - rewrite devices_with_ip_cons.
    destruct (ip_truthy (currentIp device)) as [device_ip|]; [|apply IH].
    unfold mbind, mret, eff_bind, eff_ret, ask, emit. simpl.
    destruct (w_ssh_exec w t _) as [stderr|]; [|done].
    destruct (String.eqb (strip stderr) ""); intros Hk; apply IH in Hk; simpl; lia.
Qed.

(** The unblock loop counts every device with an address. *)
Lemma remove_loop_count w d devices n t k :
  (remove_loop w d devices n t).1 = Some k →
  k = n + length (devices_with_ip devices).
Proof.
  revert n t. induction devices as [|device rest IH]; intros n t; simpl.
  - intros [= <-]. unfold devices_with_ip. simpl. lia.
  - rewrite devices_with_ip_cons.
    destruct (ip_truthy (currentIp device)) as [device_ip|]; [|apply IH].
    unfold mbind, mret, eff_bind, eff_ret, ask, emit. simpl.
    destruct (w_ssh_exec w t _) as [stderr|]; [|done].
    intros Hk; apply IH in Hk; simpl; lia.
Qed.

(** What a session returns in terms of its loop. *)
Lemma ssh_session_result w config loop t :
  (ssh_session w config loop t).1 = (false, 0)
  ∨ ∃ t' n, (loop t').1 = Some n ∧ (ssh_session w config loop t).1 = (true, n).
Proof.
  unfold ssh_session.
  destruct (config !! "router_ip"); [|by left].
  destruct (config !! "username"); [|by left].
  destruct (config !! "password"); [|by left].
  unfold mbind, mret, eff_bind, eff_ret, ask, emit. simpl.
  destruct (w_ssh_connect _ _ _ _ _ _); [|by left].
  destruct (loop _) as [[n|] t1] eqn:Hl; [|by left].
  right. exists (t ++ [EvSshConnect j j0 j1 (default (JNum 22) (config !! "port"))]), n.
  by rewrite Hl.
Qed.

(** X4: [apply_domain_block] never reports more devices than the
    endpoint listed.  Without a usable router config it reports all of
    them; with one it reports at most those that have an address, and a
    failure always comes with the count 0. *)
Theorem applied_count_bounded (w : World) (d : string) (t : list Event) :
  let r := (apply_domain_block w d t).1 in
  (r.2 ≤ length (w_devices w t))%nat
  ∧ match usable_config (load_router_config w t).1 with
    | None => r = (true, length (w_devices w t))
    | Some _ =>
        (r.2 ≤ length (devices_with_ip (w_devices w t)))%nat
        ∧ (r.1 = false → r.2 = 0)
    end.
Proof.
  intros r.
  assert (Hr : match usable_config (load_router_config w t).1 with
               | None => r = (true, length (w_devices w t))
               | Some _ =>
                   (r.2 ≤ length (devices_with_ip (w_devices w t)))%nat
                   ∧ (r.1 = false → r.2 = 0)
               end).
  { subst r. unfold apply_domain_block, load_router_config, get_discovered_devices.
    unfold mbind, mret, eff_bind, eff_ret, ask, emit. simpl.
    destruct (usable_config _) as [config|]; [|done].
    destruct (ssh_session_result w config (apply_loop w d (w_devices w t) 0) t)
      as [Hf | (t1 & n & Hl & Hs)].
    - destruct (ssh_session _ _ _ t) as [[ok k] t2]. simpl in *.
      injection Hf as -> ->. split; [lia|done].
    - destruct (ssh_session _ _ _ t) as [[ok k] t2]. simpl in *.
      injection Hs as -> ->. apply apply_loop_bound in Hl. split; [lia|done]. }
  split; [|exact Hr].
  destruct (usable_config _).
  - destruct Hr as [Hr _]. pose proof (devices_with_ip_length (w_devices w t)). lia.
  - by rewrite Hr.
Qed.

(** The complaining router: three devices, two with an address, every
    rule rejected on stderr. *)
Example applied_count_when_rules_rejected :
  (apply_domain_block complaining_router_world "example.com" []).1 = (true, 0)
  ∧ (remove_domain_block complaining_router_world "example.com" []).1 = (true, 2).
Proof. vm_compute. done. Qed.

(** X5: when [remove_domain_block] succeeds over SSH, its count is the
    number of devices with an address, whatever the router wrote to
    stderr; without a usable config it is the number of all devices. *)
Theorem removed_count_ignores_stderr (w : World) (d : string) (t : list Event) :
  (remove_domain_block w d t).1.1 = true →
  (remove_domain_block w d t).1.2
  = match usable_config (load_router_config w t).1 with
    | Some _ => length (devices_with_ip (w_devices w t))
    | None => length (w_devices w t)
    end.
Proof.
  unfold remove_domain_block, load_router_config, get_discovered_devices.
  unfold mbind, mret, eff_bind, eff_ret, ask, emit. simpl.
  destruct (usable_config _) as [config|]; [|done].
  destruct (ssh_session_result w config (remove_loop w d (w_devices w t) 0) t)
    as [Hf | (t1 & n & Hl & Hs)].
  - destruct (ssh_session _ _ _ t) as [[ok k] t2]. simpl in *.
    injection Hf as -> ->. done.
  - destruct (ssh_session _ _ _ t) as [[ok k] t2]. simpl in *.
    injection Hs as -> ->. intros _. by apply remove_loop_count in Hl.
Qed.

Lemma removed_count_ignores_stderr_witness :
  (remove_domain_block complaining_router_world "example.com" []).1.2
  = match usable_config (load_router_config complaining_router_world []).1 with
    | Some _ => length (devices_with_ip (w_devices complaining_router_world []))
    | None => length (w_devices complaining_router_world [])
    end.
Proof.
  apply (removed_count_ignores_stderr complaining_router_world "example.com" []).
  vm_compute. reflexivity.
Defined.

(** X6: a usable router config that lacks one of the keys [router_ip],
    [username], [password] makes both fleet-wide operations fail with
    count 0 before any connection is tried: the only event is the
    return. *)
Theorem missing_credentials_no_session (w : World) (d : string) (t : list Event)
    (config : gmap string json) :
  usable_config (load_router_config w t).1 = Some config →
  config !! "router_ip" = None ∨ config !! "username" = None
    ∨ config !! "password" = None →
  apply_domain_block w d t = ((false, 0), t ++ [EvApplied d false 0])
  ∧ remove_domain_block w d t = ((false, 0), t ++ [EvRemoved d false 0]).
Proof.
  intros Hu Hk.
  assert (Hs : ∀ loop t', ssh_session w config loop t' = ((false, 0), t')).
  { intros loop t'. unfold ssh_session.
    destruct Hk as [-> | [-> | ->]]; [done| |].
    - by destruct (config !! "router_ip").
    - by destruct (config !! "router_ip"), (config !! "username"). }
  unfold apply_domain_block, remove_domain_block, load_router_config,
    get_discovered_devices in *.
  unfold mbind, mret, eff_bind, eff_ret, ask, emit in *. simpl in *.
  rewrite Hu, !Hs. done.
Qed.

Lemma missing_credentials_no_session_witness :
  apply_domain_block keyless_router_world "example.com" []
  = ((false, 0), [] ++ [EvApplied "example.com" false 0])
  ∧ remove_domain_block keyless_router_world "example.com" []
    = ((false, 0), [] ++ [EvRemoved "example.com" false 0]).
Proof.
  apply (missing_credentials_no_session keyless_router_world "example.com" []
           {[ "connection_status" := JObj {[ "success" := JBool true ]};
              "router_ip" := JStr "192.168.1.1";
              "ssh_username" := JStr "admin";
              "password" := JStr "secret" ]}).
  - vm_compute. reflexivity.
  - right. left. vm_compute. reflexivity.
Defined.

Lemma active_domains_cons e rest :
  active_domains (e :: rest)
  = if String.eqb (status e) "active" then domain e :: active_domains rest
    else active_domains rest.
Proof.
  unfold active_domains. rewrite filter_cons.
  destruct (String.eqb (status e) "active") eqn:Hst.
  - apply String.eqb_eq in Hst. by rewrite decide_True.
  - apply String.eqb_neq in Hst. by rewrite decide_False.
Qed.

(** The loop of [reapply_all_rules] when no router config is usable and
    the endpoint always lists [n] devices. *)
Lemma reapply_loop_simulated w n entries total failed t :
  (∀ t', usable_config (load_router_config w t').1 = None) →
  (∀ t', length (w_devices w t') = n) →
  (reapply_loop w entries total failed t).1
  = (total + n * length (active_domains entries), failed).
Proof.
  intros Hsim Hdev. revert total t.
  induction entries as [|e rest IH]; intros total t.
  - simpl. f_equal. unfold active_domains. simpl. lia.
  - rewrite active_domains_cons. simpl.
    destruct (String.eqb (status e) "active"); [|apply IH].
    unfold mbind, eff_bind. rewrite (apply_simulated w (domain e) t (Hsim t)).
    rewrite IH, Hdev. rewrite length_cons. f_equal. lia.
Qed.

(** X7: while no router config is usable and the endpoint lists [n]
    devices, [reapply_all_rules] cannot fail: it returns True and
    reports [n] rules for every active entry. *)
Theorem reapply_simulated_succeeds (w : World) (n : nat) (blocked : list BlockEntry)
    (t : list Event) :
  (∀ t', usable_config (load_router_config w t').1 = None) →
  (∀ t', length (w_devices w t') = n) →
  (reapply_all_rules w blocked t).1
  = (true, "Successfully applied " +:+ pretty (n * length (active_domains blocked))
             +:+ " blocking rules").
Proof.
  intros Hsim Hdev. unfold reapply_all_rules, mbind, eff_bind.
  pose proof (reapply_loop_simulated w n blocked 0 [] t Hsim Hdev) as Hl.
  destruct (reapply_loop w blocked 0 [] t) as [[tot failed] t1]. simpl in *.
  by injection Hl as -> ->.
Qed.

Lemma reapply_simulated_succeeds_witness :
  (reapply_all_rules (quiet_world two_devices)
     [ entry_of "a.com" "active"; entry_of "old.com" "removed";
       entry_of "c.com" "active" ] []).1
  = (true, "Successfully applied "
             +:+ pretty (2 * length (active_domains
                                      [ entry_of "a.com" "active";
                                        entry_of "old.com" "removed";
                                        entry_of "c.com" "active" ]))
             +:+ " blocking rules").
Proof.
  apply (reapply_simulated_succeeds (quiet_world two_devices) 2).
  - intros t'. reflexivity.
  - intros t'. reflexivity.
Defined.

End GlobalBlockingExtra.

(* ===================================================================== *)
(** * Further properties of the device registry                           *)
(* ===================================================================== *)

Module NetworkDiscoveryExtra.
Import PyStr NetworkDiscovery DiscoveryReaders DiscoverySamples ReaderSamples.
Set Warnings "-clear-no-such-hyp".

Section Registry.
Variable clock : nat → Z.

(** What one upsert does to a lookup. *)
Lemma upsert_skip device db : has_mac device = false → upsert clock device db = db.
Proof. intros H. unfold upsert. by rewrite H. Qed.

Lemma has_mac_some device :
  has_mac device = true → ∃ m, mac device = Some m ∧ m ≠ "".
Proof.
  unfold has_mac. destruct (mac device) as [m|]; [|done].
  intros H. exists m. split; [done|]. intros ->. done.
Qed.

Lemma upsert_new device m db :
  mac device = Some m → has_mac device = true →
  discovered_devices db !! m = None →
  upsert clock device db
  = insert_device clock device m (classify_device device) (join "," (ports device))
      (select_id m db).2.
Proof.
  intros Hm Hh Hl. unfold upsert. rewrite Hh, Hm. simpl. by rewrite Hl.
Qed.

Lemma upsert_old device m r db :
  mac device = Some m → has_mac device = true →
  discovered_devices db !! m = Some r →
  upsert clock device db
  = update_device clock device m (classify_device device) (join "," (ports device))
      (select_id m db).2.
Proof.
  intros Hm Hh Hl. unfold upsert. rewrite Hh, Hm. simpl. by rewrite Hl.
Qed.

(** X8: upserting the same observation a second time changes nothing
    but [last_seen] of its row (and the statement counter): the row
    keeps its id, [first_seen] and every field taken from the
    observation, all other rows, the id counter and the scan history
    stay as they were. *)
Theorem upsert_twice_only_moves_last_seen (device : Observation) (db : Db) :
  has_mac device = true →
  let db1 := upsert clock device db in
  let db2 := upsert clock device db1 in
  ∃ m r1,
    mac device = Some m
    ∧ discovered_devices db1 !! m = Some r1
    ∧ discovered_devices db2
      = <[ m := with_last_seen r1 (clock (S (tick db1))) ]> (discovered_devices db1)
    ∧ next_id db2 = next_id db1
    ∧ scan_history db2 = scan_history db1.
Proof.
  intros Hh db1 db2. destruct (has_mac_some _ Hh) as (m & Hm & _).
  assert (H1 : ∃ r1, discovered_devices db1 !! m = Some r1
                     ∧ ip_address r1 = ip device
                     ∧ row_hostname r1 = hostname device
                     ∧ row_vendor r1 = vendor device
                     ∧ device_type r1 = classify_device device
                     ∧ ports_open r1 = join "," (ports device)
                     ∧ os_guess r1 = os device).
  { subst db1. destruct (discovered_devices db !! m) as [r0|] eqn:Hl.
    - rewrite (upsert_old _ _ _ _ Hm Hh Hl). simpl. rewrite lookup_alter_eq, Hl.
      simpl. eexists. split; [done|]. done.
    - rewrite (upsert_new _ _ _ Hm Hh Hl). simpl. rewrite lookup_insert_eq.
      eexists. split; [done|]. done. }
  destruct H1 as (r1 & Hr1 & Hip & Hhn & Hv & Hdt & Hp & Hos).
  exists m, r1. split; [done|]. split; [done|].
  subst db2. rewrite (upsert_old _ _ _ _ Hm Hh Hr1). simpl. split_and!; [|done..].
  apply map_eq. intros m'. rewrite lookup_alter, lookup_insert.
  case_decide as Hd; [|done]. subst m'. rewrite Hr1. simpl. f_equal.
  unfold with_last_seen. destruct r1. simpl in *. by subst.
Qed.

(** *** Invariants of the registry *)

Lemma macs_of_cons device rest :
  macs_of (device :: rest)
  = (if has_mac device then {[ default "" (mac device) ]} else ∅) ∪ macs_of rest.
Proof.
  unfold macs_of. rewrite filter_cons. destruct (has_mac device) eqn:Hh.
  - rewrite decide_True by done. destruct (has_mac_some _ Hh) as (m & Hm & _).
    simpl. by rewrite Hm.
  - rewrite decide_False by done. set_solver.
Qed.

Lemma macs_of_app l1 l2 : macs_of (l1 ++ l2) = macs_of l1 ∪ macs_of l2.
Proof.
  unfold macs_of. by rewrite filter_app, omap_app, list_to_set_app_L.
Qed.

Lemma upsert_registry device db :
  registry_ok db →
  registry_ok (upsert clock device db)
  ∧ dom (discovered_devices (upsert clock device db))
    = dom (discovered_devices db)
      ∪ (if has_mac device then {[ default "" (mac device) ]} else ∅)
  ∧ scan_history (upsert clock device db) = scan_history db.
Proof.
  intros Hok. destruct (has_mac device) eqn:Hh.
  2:{ rewrite upsert_skip by done. split_and!; [done|set_solver|done]. }
  destruct (has_mac_some _ Hh) as (m & Hm & _). rewrite Hm. simpl.
  destruct (discovered_devices db !! m) as [r0|] eqn:Hl.
  - rewrite (upsert_old _ _ _ _ Hm Hh Hl). simpl. split_and!; [| |done].
    + intros m1 r1. simpl. rewrite lookup_alter. case_decide as Hd.
      * subst m1. rewrite Hl. simpl. intros [= <-]. simpl.
        destruct (Hok m r0 Hl) as (Hk & Hi & Hs & Hu). split_and!; [done..|].
        intros m2 r2. rewrite lookup_alter. case_decide as Hd2; [done|].
        intros Hr2 Hid. by apply (Hu m2 r2).
      * intros Hr1. destruct (Hok m1 r1 Hr1) as (Hk & Hi & Hs & Hu).
        split_and!; [done..|].
        intros m2 r2. rewrite lookup_alter. case_decide as Hd2.
        -- subst m2. rewrite Hl. simpl. intros [= <-]. simpl. intros Hid.
           apply (Hu m r0 Hl Hid).
        -- intros Hr2 Hid. by apply (Hu m2 r2).
    + rewrite dom_alter_L. apply elem_of_dom_2 in Hl. set_solver.
  - rewrite (upsert_new _ _ _ Hm Hh Hl). simpl. split_and!; [| |done].
    + intros m1 r1. simpl. rewrite lookup_insert. case_decide as Hd.
      * intros [= <-]. simpl. split_and!; [done|lia|done|].
        intros m2 r2. rewrite lookup_insert. case_decide as Hd2; [congruence|].
        intros Hr2 Hid. simpl in Hid. destruct (Hok m2 r2 Hr2) as (_ & Hi & _). lia.
      * intros Hr1. destruct (Hok m1 r1 Hr1) as (Hk & Hi & Hs & Hu).
        split_and!; [done|lia|done|].
        intros m2 r2. rewrite lookup_insert. case_decide as Hd2.
        -- intros [= <-]. simpl. intros Hid. lia.
        -- intros Hr2 Hid. by apply (Hu m2 r2).
    + rewrite dom_insert_L. set_solver.
Qed.

Lemma upserts_registry devices db :
  registry_ok db →
  registry_ok (foldl (λ db device, upsert clock device db) db devices)
  ∧ dom (discovered_devices (foldl (λ db device, upsert clock device db) db devices))
    = dom (discovered_devices db) ∪ macs_of devices
  ∧ scan_history (foldl (λ db device, upsert clock device db) db devices)
    = scan_history db.
Proof.
  revert db. induction devices as [|d rest IH]; intros db Hok; simpl.
  - split_and!; [done| |done]. unfold macs_of. set_solver.
  - destruct (upsert_registry d db Hok) as (Hok1 & Hd1 & Hh1).
    destruct (IH _ Hok1) as (Hok2 & Hd2 & Hh2).
    split_and!; [done| |congruence]. rewrite Hd2, Hd1, macs_of_cons. set_solver.
Qed.

Lemma save_registry devices db :
  registry_ok db →
  registry_ok (save_to_local_db clock devices db)
  ∧ dom (discovered_devices (save_to_local_db clock devices db))
    = dom (discovered_devices db) ∪ macs_of devices
  ∧ devices_found <$> scan_history (save_to_local_db clock devices db)
    = (devices_found <$> scan_history db) ++ [length devices].
Proof.
  intros Hok. destruct (upserts_registry devices db Hok) as (Hok1 & Hd1 & Hh1).
  unfold save_to_local_db. simpl. split_and!; [done..|].
  by rewrite Hh1, fmap_app.
Qed.

Lemma save_all_registry batches db :
  registry_ok db →
  registry_ok (save_all clock batches db)
  ∧ dom (discovered_devices (save_all clock batches db))
    = dom (discovered_devices db) ∪ observed_macs batches
  ∧ devices_found <$> scan_history (save_all clock batches db)
    = (devices_found <$> scan_history db) ++ (length <$> batches).
Proof.
  revert db. unfold observed_macs.
  induction batches as [|b rest IH]; intros db Hok; simpl.
  - split_and!; [done| |by rewrite app_nil_r]. unfold macs_of. set_solver.
  - destruct (save_registry b db Hok) as (Hok1 & Hd1 & Hh1).
    destruct (IH _ Hok1) as (Hok2 & Hd2 & Hh2).
    split_and!; [done| |].
    + rewrite Hd2, Hd1, macs_of_app. set_solver.
    + rewrite Hh2, Hh1, <- app_assoc. done.
Qed.

Lemma init_registry_ok : registry_ok init_local_db.
Proof. intros m r Hr. simpl in Hr. by rewrite lookup_empty in Hr. Qed.

(** X9: after any run of [save_to_local_db] calls on a new database,
    the registry holds exactly the MACs of the observations that carried
    one; each row sits under its own MAC, and two rows never share an
    id. *)
Theorem registry_has_one_row_per_mac (batches : list (list Observation)) :
  let db := save_all clock batches init_local_db in
  dom (discovered_devices db) = observed_macs batches
  ∧ (∀ m r, discovered_devices db !! m = Some r → mac_address r = m)
  ∧ (∀ m1 m2 r1 r2, discovered_devices db !! m1 = Some r1 →
                    discovered_devices db !! m2 = Some r2 →
                    id r1 = id r2 → m1 = m2).
Proof.
  intros db. destruct (save_all_registry batches _ init_registry_ok) as (Hok & Hd & _).
  fold db in Hok, Hd. split_and!.
  - rewrite Hd. simpl. set_solver.
  - intros m r Hr. by destruct (Hok m r Hr).
  - intros m1 m2 r1 r2 H1 H2 Hid. destruct (Hok m2 r2 H2) as (_ & _ & _ & Hu).
    by apply (Hu m1 r1).
Qed.

(** Every call of [save_to_local_db] adds one row to the scan
    history, and the row's [devices_found] is the length of the list
    that was passed, observations without a MAC included. *)
Lemma history_counts_every_save (batches : list (list Observation)) :
  devices_found <$> scan_history (save_all clock batches init_local_db)
  = length <$> batches.
Proof.
  destruct (save_all_registry batches _ init_registry_ok) as (_ & _ & Hh). by rewrite Hh.
Qed.

(** X10: the real backend never marks a device offline: after any run
    of saves on a new database every row has the status [active], so
    the dashboard statistics, which count the rows whose status is
    [Active], report no active device however the rows are ordered. *)
Theorem real_mode_reports_no_active_device (batches : list (list Observation))
    (devices : list DeviceRow) :
  devices ≡ₚ rows (save_all clock batches init_local_db) →
  Forall (λ r, status r = "active") devices
  ∧ active_devices devices = 0
  ∧ total_devices devices = size (observed_macs batches).
Proof.
  intros Hp. destruct (save_all_registry batches _ init_registry_ok) as (Hok & Hd & _).
  assert (Hall : Forall (λ r, status r = "active") devices).
  { rewrite Hp. unfold rows. apply Forall_forall. intros r Hr.
    apply list_elem_of_fmap in Hr as ([m r'] & -> & Hr).
    apply elem_of_map_to_list in Hr. by destruct (Hok m r' Hr) as (_ & _ & Hs & _). }
  split_and!; [done| |].
  - unfold active_devices. clear Hp. induction devices as [|r l IH]; [done|].
    apply Forall_cons in Hall as [Hr Hl]. rewrite filter_cons.
    rewrite decide_False; [by apply IH|]. rewrite Hr. discriminate.
  - unfold total_devices. rewrite Hp. unfold rows.
    rewrite length_fmap, length_map_to_list, <- size_dom, Hd. simpl.
    f_equal. set_solver.
Qed.

(** X11: every observation a scan returns has a MAC, and after the
    turn of the scan loop the registry holds a row under that MAC with
    the status [active]. *)
Theorem scanned_devices_are_registered (env : ScanEnv) (db : Db) (device : Observation) :
  registry_ok db →
  device ∈ perform_network_scan env →
  ∃ m r, mac device = Some m ∧ m ≠ ""
         ∧ discovered_devices (scan_loop_body clock env db) !! m = Some r
         ∧ mac_address r = m ∧ status r = "active".
Proof.
  intros Hok Hin.
  assert (Hh : has_mac device = true).
  { unfold perform_network_scan in Hin. by apply list_elem_of_filter in Hin as [Hh _]. }
  destruct (has_mac_some _ Hh) as (m & Hm & Hne).
  unfold scan_loop_body.
  destruct (perform_network_scan env) as [|d0 rest] eqn:Hscan; [by apply elem_of_nil in Hin|].
  destruct (save_registry (d0 :: rest) db Hok) as (Hok1 & Hd1 & _).
  assert (Hdom : m ∈ dom (discovered_devices (save_to_local_db clock (d0 :: rest) db))).
  { rewrite Hd1. apply elem_of_union_r. unfold macs_of.
    apply elem_of_list_to_set, list_elem_of_omap. exists device. split; [|done].
    by apply list_elem_of_filter. }
  apply elem_of_dom in Hdom as [r Hr]. exists m, r.
  destruct (Hok1 m r Hr) as (Hk & _ & Hs & _). done.
Qed.

End Registry.

Example history_counts_three_saves :
  devices_found <$> scan_history
    (save_all Z.of_nat [[printer; no_mac]; []; [printer_moved]] init_local_db)
  = [2; 0; 1].
Proof. vm_compute. reflexivity. Qed.

Lemma real_mode_reports_no_active_device_witness :
  Forall (λ r, status r = "active")
    (rows (save_all Z.of_nat [[printer; no_mac]; [camera]] init_local_db))
  ∧ active_devices (rows (save_all Z.of_nat [[printer; no_mac]; [camera]] init_local_db)) = 0
  ∧ total_devices (rows (save_all Z.of_nat [[printer; no_mac]; [camera]] init_local_db))
    = size (observed_macs [[printer; no_mac]; [camera]]).
Proof.
  apply (real_mode_reports_no_active_device Z.of_nat [[printer; no_mac]; [camera]]).
  reflexivity.
Defined.

Lemma scanned_devices_are_registered_witness :
  ∃ m r, mac printer = Some m ∧ m ≠ ""
         ∧ discovered_devices (scan_loop_body Z.of_nat ping_env init_local_db) !! m = Some r
         ∧ mac_address r = m ∧ status r = "active".
Proof.
  apply (scanned_devices_are_registered Z.of_nat ping_env init_local_db printer).
  - intros m r Hr. simpl in Hr. by rewrite lookup_empty in Hr.
  - vm_compute. apply list_elem_of_here.
Defined.

Lemma upsert_twice_only_moves_last_seen_witness :
  let db1 := upsert Z.of_nat printer init_local_db in
  let db2 := upsert Z.of_nat printer db1 in
  ∃ m r1,
    mac printer = Some m
    ∧ discovered_devices db1 !! m = Some r1
    ∧ discovered_devices db2
      = <[ m := with_last_seen r1 (Z.of_nat (S (tick db1))) ]> (discovered_devices db1)
    ∧ next_id db2 = next_id db1
    ∧ scan_history db2 = scan_history db1.
Proof.
  apply (upsert_twice_only_moves_last_seen Z.of_nat printer init_local_db).
  reflexivity.
Defined.

(** *** Classification *)




(** A host named as a printer is a printer although its ports are
    those of a server. *)
Example print_server_is_printer :
  classify_device print_server = "Printer"
  ∧ port_numbers (ports print_server) = [22; 80]%Z.
Proof. vm_compute. done. Qed.

(** The service name in a port string is part of the searched text, and
    the guessed OS is not: a camera by name with the printer port is a
    printer, and a host known only as Android is unknown. *)
Example port_text_is_searched_and_os_is_not :
  classify_device labelled_camera = "Printer"
  ∧ classify_device android_box = "Unknown Device".
Proof. vm_compute. done. Qed.

(** [int] as the port and address checks use it: padding, sign and
    single underscores are read; FS..US are not padding; 4300 digits is
    the longest number read. *)
Example py_int_examples :
  py_int " 12 " = Some 12%Z
  ∧ py_int (String (ascii_of_nat 9) (String "1" (String (ascii_of_nat 10) ""))) = Some 1%Z
  ∧ py_int (String (ascii_of_nat 160) "1") = Some 1%Z
  ∧ py_int (String (ascii_of_nat 28) "1") = None
  ∧ py_int "+5" = Some 5%Z ∧ py_int "-0" = Some 0%Z ∧ py_int "007" = Some 7%Z
  ∧ py_int "1_0" = Some 10%Z ∧ py_int "1__0" = None ∧ py_int "_1" = None
  ∧ py_int "1_" = None ∧ py_int "" = None ∧ py_int "-" = None ∧ py_int "+ 1" = None
  ∧ is_Some (py_int (string_of_list_ascii (replicate 4300 "1"%char)))
  ∧ py_int (string_of_list_ascii (replicate 4301 "0"%char)) = None.
Proof. vm_compute. split_and!; try done. by eexists. Qed.

(** *** Dashboard sync *)

(** X13: [sync_with_dashboard] sends one POST for every observation
    with a MAC, in list order, with the MAC, address, hostname and
    vendor of the observation; an error status or a failed request does
    not stop the loop or change a later request. *)
Theorem sync_posts_every_mac_device (w : SyncWorld) (dashboard_url : string)
    (devices : list Observation) (t : list Event) :
  sync_with_dashboard w dashboard_url devices t
  = (tt, t ++ (post_of dashboard_url <$> filter (λ d, has_mac d = true) devices)).
Proof.
  revert t. induction devices as [|d rest IH]; intros t; simpl.
  - by rewrite app_nil_r.
  - rewrite filter_cons. case_decide as Hh.
    + rewrite Hh. simpl. unfold mbind, eff_bind, ask, emit. simpl.
      assert (Hrest : sync_with_dashboard w dashboard_url rest (t ++ [post_of dashboard_url d])
                      = (tt, t ++ post_of dashboard_url d
                               :: (post_of dashboard_url
                                     <$> filter (λ d, has_mac d = true) rest))).
      { rewrite IH, <- app_assoc. done. }
      destruct (post_response w t _) as [[|code]|]; try exact Hrest.
      repeat (destruct code as [|code]; try exact Hrest).
    + destruct (has_mac d); [done|]. simpl. apply IH.
Qed.

Example sync_with_broken_dashboard :
  (sync_with_dashboard broken_dashboard "http://localhost:5000"
     [printer; no_mac; camera] []).2
  = [ EvPost "http://localhost:5000/api/dhcp-update" "AA:BB:CC:00:11:22" "192.168.1.50"
        (Some "printer-finance") None;
      EvPost "http://localhost:5000/api/dhcp-update" "DC:A6:32:00:00:01" "192.168.1.90"
        (Some "Front-Door") (Some "Hikvision") ].
Proof. vm_compute. done. Qed.

End NetworkDiscoveryExtra.

(* ===================================================================== *)
(** * Properties of the stored router configuration                       *)
(* ===================================================================== *)

Module RouterConfigFileProps.
Import PyStr RouterConfigFile ConfigSamples.
Set Warnings "-clear-no-such-hyp".

Example split_on_examples :
  split_on "." "192.168.1.1" = ["192"; "168"; "1"; "1"]
  ∧ split_on "." "" = [""]
  ∧ split_on "." "a..b." = ["a"; ""; "b"; ""].
Proof. vm_compute. done. Qed.

Example validate_examples :
  validate_config real_config = (true, "Configuration valid")
  ∧ validate_config default_config = (false, "Missing required field: router_ip")
  ∧ validate_config (<[ "router_ip" := JStr "192.168.1.256" ]> real_config)
    = (false, "Invalid IP address format")
  ∧ validate_config (<[ "router_ip" := JStr "+1. 2 .0_3.004" ]> real_config)
    = (true, "Configuration valid")
  ∧ validate_config (delete "ssh_password" real_config)
    = (false, "SSH password is required for real mode").
Proof. vm_compute. done. Qed.

Lemma present_some config key :
  present config key = true → ∃ v, config !! key = Some v ∧ truthy v = true.
Proof.
  unfold present. destruct (config !! key) as [v|]; [eauto|done].
Qed.

Lemma validate_true_message config message :
  validate_config config = (true, message) → message = "Configuration valid".
Proof.
  unfold validate_config.
  repeat (match goal with |- context [if ?b then _ else _] => destruct b end; try done).
  by intros [= <-].
Qed.

(** X14: a configuration that [validate_config] accepts has a
    non-empty [ssh_username], a [router_ip] that is a string of exactly
    four dot-separated parts which [int] reads as numbers from 0 to 255,
    and a mode that is [simulated], or [real] together with a non-empty
    [ssh_password]. *)
Theorem validated_config_is_well_formed (config : gmap string json) (message : string) :
  validate_config config = (true, message) →
  message = "Configuration valid"
  ∧ present config "ssh_username" = true
  ∧ (∃ s a b c d,
       config !! "router_ip" = Some (JStr s)
       ∧ split_on "." s = [a; b; c; d]
       ∧ Forall (λ part, ∃ n, NetworkDiscovery.py_int part = Some n ∧ (0 ≤ n ≤ 255)%Z)
           [a; b; c; d])
  ∧ (mode_is config "simulated" = true
     ∨ (mode_is config "real" = true ∧ present config "ssh_password" = true)).
Proof.
  unfold validate_config.
  destruct (present config "router_ip") eqn:Hip; [|done]. simpl.
  destruct (present config "ssh_username") eqn:Hu; [|done]. simpl.
  destruct (present config "mode") eqn:Hm; [|done]. simpl.
  destruct (ip_format_ok _) eqn:Hf; [|done]. simpl.
  destruct (mode_is config "simulated" || mode_is config "real") eqn:Hmode; [|done]. simpl.
  destruct (mode_is config "real" && negb (present config "ssh_password")) eqn:Hpw; [done|].
  intros [= <-]. split_and!; [done..| |].
  - apply present_some in Hip as (v & Hv & _). rewrite Hv in Hf. simpl in Hf.
    destruct v as [| | |s| |]; try done. simpl in Hf.
    apply andb_true_iff in Hf as [Hlen Hall]. apply Nat.eqb_eq in Hlen.
    destruct (split_on "." s) as [|a [|b [|c [|d [|]]]]] eqn:Hs; try done.
    exists s, a, b, c, d. split_and!; [done..|].
    apply Forall_forall. intros part Hpart.
    assert (Hok : default false (octet_ok part) = true).
    { rewrite forallb_forall in Hall. apply Hall. by apply list_elem_of_In. }
    unfold octet_ok in Hok. destruct (NetworkDiscovery.py_int part) as [n|]; [|done].
    simpl in Hok. exists n. split; [done|]. lia.
  - apply orb_true_iff in Hmode as [Hs|Hr]; [by left|]. right. split; [done|].
    rewrite Hr in Hpw. simpl in Hpw. by apply negb_false_iff in Hpw.
Qed.

Lemma validated_config_is_well_formed_witness :
  "Configuration valid" = "Configuration valid"
  ∧ present real_config "ssh_username" = true
  ∧ (∃ s a b c d,
       real_config !! "router_ip" = Some (JStr s)
       ∧ split_on "." s = [a; b; c; d]
       ∧ Forall (λ part, ∃ n, NetworkDiscovery.py_int part = Some n ∧ (0 ≤ n ≤ 255)%Z)
           [a; b; c; d])
  ∧ (mode_is real_config "simulated" = true
     ∨ (mode_is real_config "real" = true ∧ present real_config "ssh_password" = true)).
Proof.
  apply (validated_config_is_well_formed real_config "Configuration valid").
  vm_compute. reflexivity.
Defined.

(** The checks of [validate_config] read five keys only. *)
Lemma validate_config_ext config config' :
  (∀ k, k ∈ ["router_ip"; "ssh_username"; "mode"; "ssh_password"] →
        config' !! k = config !! k) →
  validate_config config' = validate_config config.
Proof.
  intros Hk. unfold validate_config, present, mode_is.
  rewrite !Hk by set_solver. done.
Qed.

Lemma stamped_lookup fs cfg k :
  k ≠ "version" → k ≠ "last_updated" → stamped fs cfg !! k = cfg !! k.
Proof. intros H1 H2. unfold stamped. by rewrite !lookup_insert_ne. Qed.

(** X15: when [save_router_config] reports success, the file holds
    the submitted configuration with the two keys [last_updated] and
    [version] set, [self.config] is that same dict, and the stored dict
    passes [validate_config] again. *)
Theorem saved_config_is_valid (fs : Fs) (config_data : gmap string json) (mgr : Manager) :
  (save_router_config fs config_data mgr).1.1 = true →
  let mgr' := (save_router_config fs config_data mgr).2 in
  file mgr' = GlobalBlocking.FileJson (JObj (config mgr'))
  ∧ validate_config (config mgr') = (true, "Configuration valid")
  ∧ config mgr' !! "version" = Some (JStr "1.0")
  ∧ config mgr' !! "last_updated" = Some (JStr (fs_now fs))
  ∧ ∀ k, k ≠ "version" → k ≠ "last_updated" → config mgr' !! k = config_data !! k.
Proof.
  unfold save_router_config.
  destruct (validate_config config_data) as [valid message] eqn:Hv.
  destruct valid; [|done]. unfold save_config.
  destruct (fs_write fs); [done|]. simpl. intros _.
  rewrite (validate_true_message _ _ Hv) in Hv.
  split_and!.
  - done.
  - rewrite <- Hv. apply validate_config_ext. intros k Hk.
    apply stamped_lookup; set_solver.
  - unfold stamped. by rewrite lookup_insert_eq.
  - unfold stamped. by rewrite lookup_insert_ne, lookup_insert_eq.
  - intros k. apply stamped_lookup.
Qed.

Lemma saved_config_is_valid_witness :
  let mgr' := (save_router_config good_disk real_config fresh_manager).2 in
  file mgr' = GlobalBlocking.FileJson (JObj (config mgr'))
  ∧ validate_config (config mgr') = (true, "Configuration valid")
  ∧ config mgr' !! "version" = Some (JStr "1.0")
  ∧ config mgr' !! "last_updated" = Some (JStr (fs_now good_disk))
  ∧ ∀ k, k ≠ "version" → k ≠ "last_updated" → config mgr' !! k = real_config !! k.
Proof.
  apply (saved_config_is_valid good_disk real_config fresh_manager).
  vm_compute. reflexivity.
Defined.

(** A rejected configuration changes nothing. *)
Lemma rejected_config_not_saved fs config_data mgr :
  (validate_config config_data).1 = false →
  save_router_config fs config_data mgr = ((false, (validate_config config_data).2), mgr).
Proof.
  unfold save_router_config. destruct (validate_config config_data) as [[] msg]; done.
Qed.

End RouterConfigFileProps.

(* ===================================================================== *)
(** * Further properties of the router connection test                    *)
(* ===================================================================== *)

Module RouterConfigExtra.
Import PyStr RouterConfig RouterSamples RouterSamples2 RouterConfigFile.
Set Warnings "-clear-no-such-hyp".

Ltac eff_unfold :=
  unfold mbind, mret, eff_bind, eff_ret, ask, emit in *; simpl in *.

Lemma signature_detectable probe output found :
  signature probe output = Some found → found ∈ detectable_types.
Proof.
  unfold signature, detectable_types.
  repeat (destruct (_ && _); [intros [= <-]; set_solver|]). done.
Qed.

Lemma detect_loop_spec w probes t :
  (∀ p, p ∈ probes → p ∈ detection_commands) →
  let r := detect_loop w probes t in
  r.1 ∈ detectable_types
  ∧ ∃ k, (k ≤ length probes)%nat ∧ r.2 = t ++ (EvSshExec <$> take k probes.*2).
Proof.
  revert t. induction probes as [|[probe command] rest IH]; intros t Hsub; simpl.
  - split; [unfold detectable_types; set_solver|]. exists 0. by rewrite app_nil_r.
  - assert (Hrest : ∀ p, p ∈ rest → p ∈ detection_commands) by (intros p Hp; apply Hsub; set_solver).
    assert (Hnext : ∀ t',
      t' = t ++ [EvSshExec command] →
      (detect_loop w rest t').1 ∈ detectable_types
      ∧ ∃ k, (k ≤ S (length rest))%nat
             ∧ (detect_loop w rest t').2 = t ++ (EvSshExec <$> take k (command :: rest.*2))).
    { intros t' ->. destruct (IH (t ++ [EvSshExec command]) Hrest) as (Hin & k & Hk & Ht).
      split; [done|]. exists (S k). split; [lia|]. simpl. by rewrite Ht, <- app_assoc. }
    eff_unfold. destruct (r_exec w t command) as [e|stdout stderr]; [by apply Hnext|].
    destruct (clean_output stdout stderr); [|by apply Hnext].
    destruct (signature probe stdout) as [found|] eqn:Hsig; [|by apply Hnext].
    simpl. split; [by eapply signature_detectable|]. exists 1. split; [lia|done].
Qed.

(** X16: [detect_router_type] always returns one of eight names; it
    runs the detection commands in table order, stops at the first one
    whose output carries its signature, and runs at most all seven.  A
    command that raises is skipped. *)
Theorem detect_runs_a_prefix_of_the_probes (w : World) (t : list Event) :
  let r := detect_router_type w t in
  r.1 ∈ detectable_types
  ∧ ∃ k, (k ≤ 7)%nat ∧ r.2 = t ++ (EvSshExec <$> take k detection_commands.*2).
Proof. apply (detect_loop_spec w detection_commands t). done. Qed.

Example detect_openwrt :
  detect_router_type openwrt_world []
  = ("OpenWrt", [EvSshExec "cat /etc/version"; EvSshExec "cat /etc/openwrt_release"]).
Proof. vm_compute. done. Qed.

(** X17: [check_router_capabilities] always runs the three [which]
    commands, in order, also when one of them raises.  Only pfSense gets
    [api_support]; [web_filtering] is reported for pfSense and OpenWrt
    always, for DD-WRT and Linux-based routers exactly when iptables was
    found, and for no other type. *)
Theorem capabilities_by_router_type (w : World) (router_type : string) (t : list Event) :
  let r := check_router_capabilities w router_type t in
  r.2 = t ++ [EvSshExec "which iptables"; EvSshExec "which pfctl"; EvSshExec "which dnsmasq"]
  ∧ api_support r.1 = bool_decide (router_type = "pfSense")
  ∧ web_filtering r.1
    = (bool_decide (router_type = "pfSense") || bool_decide (router_type = "OpenWrt")
       || (bool_decide (router_type ∈ ["DD-WRT"; "Linux-based Router"]) && iptables r.1)).
Proof.
  intros r. subst r. unfold check_router_capabilities, has_tool, exec_command.
  eff_unfold. rewrite <- !app_assoc. simpl. split; [done|].
  destruct (String.eqb router_type "pfSense") eqn:H1.
  { apply String.eqb_eq in H1. subst. done. }
  apply String.eqb_neq in H1. rewrite (bool_decide_eq_false_2 _ H1).
  destruct (String.eqb router_type "OpenWrt") eqn:H2.
  { apply String.eqb_eq in H2. subst. done. }
  apply String.eqb_neq in H2. rewrite (bool_decide_eq_false_2 _ H2).
  destruct (String.eqb router_type "DD-WRT") eqn:H3.
  { apply String.eqb_eq in H3. subst. done. }
  destruct (String.eqb router_type "Linux-based Router") eqn:H4.
  { apply String.eqb_eq in H4. subst. done. }
  apply String.eqb_neq in H3. apply String.eqb_neq in H4. simpl.
  rewrite bool_decide_eq_false_2; [done|]. set_solver.
Qed.

(** The histories at which the connection and the first command of a
    test are tried. *)
Lemma test_after_probe w router_ip username password port timeout t :
  r_connect_ex w t router_ip port timeout = TcpResult 0 →
  test_ssh_connection w router_ip username password port timeout t
  = ssh_phase w router_ip username password port timeout
      {| tested_at := r_now w t; router_ip := router_ip; ssh_port := port;
         response_time := None; router_info := None |}
      (t ++ [EvTcpConnect router_ip port]).
Proof. intros Hp. unfold test_ssh_connection. eff_unfold. by rewrite Hp. Qed.

Lemma handler_fails e port info : (handler e port info).1.1 = false ∧ (handler e port info).2 = info.
Proof. by destruct e. Qed.

(** The router type a successful test stores is a detected one. *)
Lemma success_carries_detected_type w router_ip username password port timeout t :
  let outcome := (test_ssh_connection w router_ip username password port timeout t).1 in
  if outcome.1.1
  then ∃ ri, router_info outcome.2 = Some ri ∧ router_type ri ∈ detectable_types
  else router_info outcome.2 = None.
Proof.
  unfold test_ssh_connection. eff_unfold.
  destruct (r_connect_ex w t router_ip port timeout) as [code|e|msg].
  2:{ by destruct (of_sock e). }
  2:{ done. }
  simpl. destruct (code =? 0)%Z; simpl; [|done].
  unfold ssh_phase. eff_unfold.
  destruct (r_ssh_connect _ _ _ _ _ _ _) as [e|]; [by destruct e|].
  unfold exec_command. eff_unfold.
  destruct (r_exec _ _ _) as [e|stdout stderr]; [by destruct e|].
  match goal with |- context [detect_router_type w ?t'] =>
    pose proof (detect_loop_spec w detection_commands t' ltac:(done)) as [Hin _];
    fold (detect_router_type w t') in Hin;
    destruct (detect_router_type w t') as [rt t3] end.
  destruct (check_router_capabilities w rt t3) as [caps t4]. simpl. eauto.
Qed.

(** X18: [test_ssh_connection] returns True exactly when the TCP probe
    returns 0, the SSH connection is accepted and the first command
    runs; then the connection info carries the router info and the
    response time, and the session is closed as the last step.  In every
    other case the connection info is returned without router info and
    no close is issued. *)
Theorem test_succeeds_iff (w : World) (router_ip username password : string)
    (port timeout : Z) (t : list Event) :
  let run := test_ssh_connection w router_ip username password port timeout t in
  let t1 := t ++ [EvTcpConnect router_ip port] in
  let t2 := t1 ++ [EvSshConnect router_ip username password port] in
  let ready :=
    r_connect_ex w t router_ip port timeout = TcpResult 0
    ∧ r_ssh_connect w t1 router_ip username password port timeout = None
    ∧ ∃ stdout stderr,
        r_exec w t2 "uname -a || cat /etc/os-release || echo 'Unknown system'"
        = ExecDone stdout stderr in
  (run.1.1.1 = true ↔ ready)
  ∧ (if run.1.1.1
     then is_Some (router_info run.1.2) ∧ is_Some (response_time run.1.2)
          ∧ last run.2 = Some EvSshClose
     else router_info run.1.2 = None ∧ response_time run.1.2 = None
          ∧ EvSshClose ∉ events_of
               (test_ssh_connection w router_ip username password port timeout) t).
Proof.
  intros run t1 t2 ready. subst ready.
  destruct (r_connect_ex w t router_ip port timeout) as [code|e|msg] eqn:Hp.
  3:{ assert (Hrun : run = ((false, "Connection failed: " +:+ msg,
                              {| tested_at := r_now w t; router_ip := router_ip;
                                 ssh_port := port; response_time := None;
                                 router_info := None |}), t)).
      { subst run. unfold test_ssh_connection. eff_unfold. by rewrite Hp. }
      unfold events_of. fold run. rewrite Hrun. simpl.
      split; [split; [done|by intros [? _]]|].
      split_and!; [done..|]. rewrite drop_all. set_solver. }
  2:{ assert (Hrun : run = (handler (of_sock e) port
                               {| tested_at := r_now w t; router_ip := router_ip;
                                  ssh_port := port; response_time := None;
                                  router_info := None |}, t1)).
      { subst run. unfold test_ssh_connection. eff_unfold. by rewrite Hp. }
      unfold events_of. fold run. rewrite Hrun.
      destruct (handler_fails (of_sock e) port
                  {| tested_at := r_now w t; router_ip := router_ip; ssh_port := port;
                     response_time := None; router_info := None |}) as [Hf Hi].
      simpl. rewrite Hf, Hi. simpl. split; [split; [done|by intros [? _]]|].
      split_and!; [done..|]. subst t1. rewrite drop_app_length. set_solver. }
  destruct (decide (code = 0%Z)) as [->|Hc].
  2:{ assert (Hrun : run = ((false, unreachable_message router_ip port,
                              {| tested_at := r_now w t; router_ip := router_ip;
                                 ssh_port := port; response_time := None;
                                 router_info := None |}), t1)).
      { subst run. unfold test_ssh_connection. eff_unfold. rewrite Hp.
        apply Z.eqb_neq in Hc. by rewrite Hc. }
      unfold events_of. fold run. rewrite Hrun. simpl.
      split; [split; [done|intros [[= ?] _]; congruence]|].
      split_and!; [done..|]. subst t1. rewrite drop_app_length. set_solver. }
  subst run. unfold events_of. rewrite (test_after_probe _ _ _ _ _ _ _ Hp).
  fold t1. unfold ssh_phase. eff_unfold. fold t2.
  destruct (r_ssh_connect w t1 router_ip username password port timeout) as [e|] eqn:Hc.
  { destruct (handler_fails e port
                {| tested_at := r_now w t; router_ip := router_ip; ssh_port := port;
                   response_time := None; router_info := None |}) as [Hf Hi].
    simpl. rewrite Hf, Hi. simpl. split; [split; [done|by intros (_ & ? & _)]|].
    split_and!; [done..|]. subst t2 t1. rewrite <- app_assoc, drop_app_length. set_solver. }
  unfold exec_command. eff_unfold.
  destruct (r_exec w t2 _) as [e|stdout stderr] eqn:He.
  { destruct (handler_fails e port
                {| tested_at := r_now w t; router_ip := router_ip; ssh_port := port;
                   response_time := None; router_info := None |}) as [Hf Hi].
    simpl. rewrite Hf, Hi. simpl.
    split; [split; [done|by intros (_ & _ & ? & ? & ?)]|].
    split_and!; [done..|]. subst t2 t1. rewrite <- !app_assoc, drop_app_length. set_solver. }
  destruct (detect_router_type w _) as [rt t3].
  destruct (check_router_capabilities w rt t3) as [caps t4]. simpl.
  split; [split; [eauto 10|done]|]. split_and!; [eauto..|]. by rewrite last_snoc.
Qed.

Example test_on_openwrt :
  (test_ssh_connection openwrt_world "192.168.1.1" "root" "secret" 22 10 []).1.1
  = (true, "Successfully connected to OpenWrt router").
Proof. vm_compute. done. Qed.

(** When the port answers but [ssh.connect] raises, the failure is
    the one of the handler for that exception (the authentication
    message for an authentication failure), the connection was tried
    once and no command was sent. *)
Lemma refused_login_sends_no_command (w : World) (router_ip username password : string)
    (port timeout : Z) (t : list Event) (e : Exn) :
  r_connect_ex w t router_ip port timeout = TcpResult 0 →
  r_ssh_connect w (t ++ [EvTcpConnect router_ip port]) router_ip username password
    port timeout = Some e →
  test_ssh_connection w router_ip username password port timeout t
  = (handler e port {| tested_at := r_now w t; router_ip := router_ip; ssh_port := port;
                       response_time := None; router_info := None |},
     t ++ [EvTcpConnect router_ip port; EvSshConnect router_ip username password port])
  ∧ (e = AuthenticationException →
     (test_ssh_connection w router_ip username password port timeout t).1.1.2
     = "Authentication failed - Invalid username or password").
Proof.
  intros Hp Hc. rewrite (test_after_probe _ _ _ _ _ _ _ Hp).
  unfold ssh_phase. eff_unfold. rewrite Hc. rewrite <- app_assoc. simpl.
  split; [done|]. by intros ->.
Qed.

Lemma refused_login_sends_no_command_witness :
  test_ssh_connection wrong_password_world "192.168.1.1" "admin" "secret" 22 10 []
  = (handler AuthenticationException 22
       {| tested_at := "2024-01-01T00:00:00"; router_ip := "192.168.1.1"; ssh_port := 22;
          response_time := None; router_info := None |},
     [] ++ [EvTcpConnect "192.168.1.1" 22; EvSshConnect "192.168.1.1" "admin" "secret" 22])
  ∧ (test_ssh_connection wrong_password_world "192.168.1.1" "admin" "secret" 22 10 []).1.1.2
    = "Authentication failed - Invalid username or password".
Proof.
  destruct (refused_login_sends_no_command wrong_password_world "192.168.1.1" "admin"
              "secret" 22 10 [] AuthenticationException eq_refl eq_refl) as [H1 H2].
  split; [exact H1 | exact (H2 eq_refl)].
Defined.

End RouterConfigExtra.

(* ===================================================================== *)
(** * The router configuration and its readers                            *)
(* ===================================================================== *)

Module ConfigReaders.
Import PyStr RouterConfigFile ConfigSamples.
Set Warnings "-clear-no-such-hyp".

Lemma stamped_keeps fs cfg k :
  k ≠ "version" → k ≠ "last_updated" → stamped fs cfg !! k = cfg !! k.
Proof. intros H1 H2. unfold stamped. by rewrite !lookup_insert_ne by done. Qed.

(** What [update_connection_status] writes, by case. *)
Lemma update_connection_status_some fs success message router_info mgr mgr' :
  update_connection_status fs success message router_info mgr = Some mgr' →
  ∃ cfg, config mgr' = stamped fs cfg
         ∧ (fs_write fs = None → file mgr' = GlobalBlocking.FileJson (JObj (stamped fs cfg)))
         ∧ cfg !! "last_status" = Some (JStr (if success then "connected" else "failed"))
         ∧ cfg !! "last_message" = Some (JStr message)
         ∧ cfg !! "last_tested" = Some (JStr (fs_now fs))
         ∧ (∀ k, k ∉ ["last_message"; "last_status"; "last_tested"; "capabilities";
                      "router_type"] → cfg !! k = config mgr !! k)
         ∧ match router_info with
           | Some info =>
               if success
               then ∃ ri, RouterConfig.router_info info = Some ri
                          ∧ cfg !! "router_type" = Some (JStr (RouterConfig.router_type ri))
                          ∧ cfg !! "capabilities"
                            = Some (capabilities_json (RouterConfig.capabilities ri))
               else cfg !! "router_type" = config mgr !! "router_type"
                    ∧ cfg !! "capabilities" = config mgr !! "capabilities"
           | None => cfg !! "router_type" = config mgr !! "router_type"
                     ∧ cfg !! "capabilities" = config mgr !! "capabilities"
           end.
Proof.
  unfold update_connection_status.
  set (base := <["last_message":=_]> (<["last_status":=_]> (<["last_tested":=_]> (config mgr)))).
  assert (Hbase : base !! "last_status" = Some (JStr (if success then "connected" else "failed"))
                  ∧ base !! "last_message" = Some (JStr message)
                  ∧ base !! "last_tested" = Some (JStr (fs_now fs))
                  ∧ (∀ k, k ∉ ["last_message"; "last_status"; "last_tested"; "capabilities";
                               "router_type"] → base !! k = config mgr !! k)
                  ∧ base !! "router_type" = config mgr !! "router_type"
                  ∧ base !! "capabilities" = config mgr !! "capabilities").
  { subst base. split_and!.
    - by simplify_map_eq.
    - by simplify_map_eq.
    - by simplify_map_eq.
    - intros k Hk. rewrite !lookup_insert_ne; [done|set_solver..].
    - by simplify_map_eq.
    - by simplify_map_eq. }
  destruct Hbase as (H1 & H2 & H3 & H4 & H5 & H6).
  assert (Hsave : ∀ cfg, config (save_own_config fs {| config := cfg; file := file mgr |}).2
                         = stamped fs cfg
                         ∧ (fs_write fs = None →
                            file (save_own_config fs {| config := cfg; file := file mgr |}).2
                            = GlobalBlocking.FileJson (JObj (stamped fs cfg)))).
  { intros cfg. unfold save_own_config. by destruct (fs_write fs). }
  destruct router_info as [info|]; [destruct success|].
  - destruct (RouterConfig.router_info info) as [ri|]; [|done]. simpl. intros [= <-].
    eexists. destruct (Hsave (<["capabilities":=capabilities_json (RouterConfig.capabilities ri)]>
                                (<["router_type":=JStr (RouterConfig.router_type ri)]> base)))
      as [Hc Hf].
    split; [exact Hc|]. split; [exact Hf|]. split_and!.
    + by rewrite !lookup_insert_ne by done.
    + by rewrite !lookup_insert_ne by done.
    + by rewrite !lookup_insert_ne by done.
    + intros k Hk. rewrite !lookup_insert_ne; [by apply H4|set_solver..].
    + exists ri. split; [done|]. split; by simplify_map_eq.
  - simpl. intros [= <-]. exists base. destruct (Hsave base) as [Hc Hf]. done.
  - simpl. intros [= <-]. exists base. destruct (Hsave base) as [Hc Hf]. done.
Qed.

(** X19: recording the outcome of [test_ssh_connection] with
    [update_connection_status] never raises.  The stored status is
    [connected] exactly for a successful test, the message is the test's
    message, and the router type is replaced, by one of the detectable
    names, only after a success; after a failure type and capabilities
    stay as they were. *)
Theorem recorded_test_matches_outcome (w : RouterConfig.World)
    (router_ip username password : string) (port timeout : Z)
    (t : list RouterConfig.Event) (fs : Fs) (mgr : Manager) :
  let outcome :=
    (RouterConfig.test_ssh_connection w router_ip username password port timeout t).1 in
  ∃ mgr', record_test fs outcome mgr = Some mgr'
          ∧ config mgr' !! "last_status"
            = Some (JStr (if outcome.1.1 then "connected" else "failed"))
          ∧ config mgr' !! "last_message" = Some (JStr outcome.1.2)
          ∧ config mgr' !! "last_tested" = Some (JStr (fs_now fs))
          ∧ if outcome.1.1
            then ∃ rt, config mgr' !! "router_type" = Some (JStr rt)
                       ∧ rt ∈ detectable_types
            else config mgr' !! "router_type" = config mgr !! "router_type"
                 ∧ config mgr' !! "capabilities" = config mgr !! "capabilities".
Proof.
  intros outcome.
  pose proof (RouterConfigExtra.success_carries_detected_type w router_ip username password
                port timeout t) as Hshape. simpl in Hshape. fold outcome in Hshape.
  assert (Hsome : is_Some (record_test fs outcome mgr)).
  { unfold record_test, update_connection_status.
    destruct outcome.1.1; [|by eexists].
    destruct Hshape as (ri & -> & _). by eexists. }
  destruct Hsome as [mgr' Hm]. exists mgr'. split; [done|].
  unfold record_test in Hm.
  destruct (update_connection_status_some _ _ _ _ _ _ Hm)
    as (cfg & Hc & _ & Hs & Hmsg & Ht & _ & Hri).
  rewrite Hc, !stamped_keeps by done. split_and!; [done..|].
  destruct outcome.1.1.
  - destruct Hshape as (ri & Hinfo & Hin). destruct Hri as (ri' & Hinfo' & Hrt & _).
    exists (RouterConfig.router_type ri). rewrite Hinfo in Hinfo'.
    injection Hinfo' as <-. done.
  - done.
Qed.

(** The blocking manager finds no config in a file without the key
    [connection_status]. *)
Lemma load_without_connection_status (gw : GlobalBlocking.World) t cfg :
  GlobalBlocking.w_router_file gw t = GlobalBlocking.FileJson (JObj cfg) →
  cfg !! "connection_status" = None →
  (GlobalBlocking.load_router_config gw t).1 = None.
Proof.
  intros Hf Hk. unfold GlobalBlocking.load_router_config, mbind, mret, eff_bind, eff_ret, ask.
  simpl. rewrite Hf, Hk. simpl. by rewrite lookup_empty.
Qed.

(** X20: neither [update_connection_status] nor [save_router_config]
    writes the key [connection_status].  So when the configuration had
    no such key and the write went through, the blocking manager reading
    that file finds no usable router config, whatever the connection
    test reported, and [apply_domain_block] only counts the devices. *)
Theorem written_config_keeps_blocking_simulated (fs : Fs) (mgr : Manager)
    (gw : GlobalBlocking.World) (d : string) (t : list GlobalBlocking.Event) :
  (∀ success message router_info mgr',
     config mgr !! "connection_status" = None →
     fs_write fs = None →
     update_connection_status fs success message router_info mgr = Some mgr' →
     GlobalBlocking.w_router_file gw t = file mgr' →
     GlobalBlocking.apply_domain_block gw d t
     = ((true, length (GlobalBlocking.w_devices gw t)),
        t ++ [GlobalBlocking.EvApplied d true (length (GlobalBlocking.w_devices gw t))]))
  ∧ (∀ config_data,
       config_data !! "connection_status" = None →
       (save_router_config fs config_data mgr).1.1 = true →
       GlobalBlocking.w_router_file gw t = file (save_router_config fs config_data mgr).2 →
       GlobalBlocking.apply_domain_block gw d t
       = ((true, length (GlobalBlocking.w_devices gw t)),
          t ++ [GlobalBlocking.EvApplied d true (length (GlobalBlocking.w_devices gw t))])).
Proof.
  split.
  - intros success message router_info mgr' Hk Hw Hu Hf.
    destruct (update_connection_status_some _ _ _ _ _ _ Hu)
      as (cfg & _ & Hfile & _ & _ & _ & Hother & _).
    rewrite (Hfile Hw) in Hf.
    apply GlobalBlockingProps.apply_simulated.
    rewrite (load_without_connection_status gw t _ Hf); [done|].
    rewrite stamped_keeps by done. rewrite Hother; [done|set_solver].
  - intros config_data Hk Hs Hf. unfold save_router_config in *.
    destruct (validate_config config_data) as [[] msg]; [|done].
    unfold save_config in *. destruct (fs_write fs); [done|]. simpl in *.
    apply GlobalBlockingProps.apply_simulated.
    rewrite (load_without_connection_status gw t _ Hf); [done|].
    by rewrite stamped_keeps.
Qed.

Lemma written_config_keeps_blocking_simulated_witness :
  GlobalBlocking.apply_domain_block
    (world_reading (file (default fresh_manager
                            (update_connection_status good_disk true "ok" None
                               fresh_manager))))
    "example.com" []
  = ((true, 2), [] ++ [GlobalBlocking.EvApplied "example.com" true 2])
  ∧ GlobalBlocking.apply_domain_block
      (world_reading (file (save_router_config good_disk real_config fresh_manager).2))
      "example.com" []
    = ((true, 2), [] ++ [GlobalBlocking.EvApplied "example.com" true 2]).
Proof.
  destruct (written_config_keeps_blocking_simulated good_disk fresh_manager
              (world_reading (file (default fresh_manager
                                      (update_connection_status good_disk true "ok" None
                                         fresh_manager))))
              "example.com" []) as [Hupdate _].
  destruct (written_config_keeps_blocking_simulated good_disk fresh_manager
              (world_reading (file (save_router_config good_disk real_config
                                      fresh_manager).2))
              "example.com" []) as [_ Hsave].
  split.
  - apply (Hupdate true "ok" None
             (default fresh_manager
                (update_connection_status good_disk true "ok" None fresh_manager)));
      reflexivity.
  - apply (Hsave real_config); reflexivity.
Defined.

(** *** From the detected type to the adapter *)

Lemma firewall_type_of_detected rt :
  rt ∈ detectable_types →
  contains "pfsense" (lower rt) = bool_decide (rt = "pfSense")
  ∧ contains "openwrt" (lower rt) = bool_decide (rt = "OpenWrt")
  ∧ contains "fortigate" (lower rt) = false.
Proof.
  unfold detectable_types. intros Hin.
  repeat (apply elem_of_cons in Hin as [->|Hin]; [by vm_compute|]).
  by apply elem_of_nil in Hin.
Qed.

(** X21: in a mode other than [simulated], for every router type that
    [detect_router_type] can store, [get_firewall_config] selects
    [pfsense] for pfSense, [openwrt] for OpenWrt and [simulated] for the
    six others, never [fortigate]; a manager built from a config of that
    type then holds the simulated adapter for each of those six. *)
Theorem detected_type_selects_adapter (mgr : Manager) (rt : string) :
  mode_is (config mgr) "simulated" = false →
  config mgr !! "router_type" = Some (JStr rt) →
  rt ∈ detectable_types →
  ∃ fc ty,
    get_firewall_config mgr = Some fc
    ∧ fc !! "type" = Some (JStr ty)
    ∧ ty = (if bool_decide (rt = "pfSense") then "pfsense"
            else if bool_decide (rt = "OpenWrt") then "openwrt" else "simulated")
    ∧ ∀ (cfg : gmap string NetworkFirewall.pyval) (fault : bool),
        cfg !! "type" = Some (NetworkFirewall.PyStr ty) →
        rt ≠ "pfSense" → rt ≠ "OpenWrt" →
        NetworkFirewall.firewall (NetworkFirewall.new_manager (Some cfg) fault)
        = Some NetworkFirewall.new_simulated.
Proof.
  intros Hmode Hrt Hin. unfold get_firewall_config. rewrite Hmode, Hrt. simpl.
  destruct (firewall_type_of_detected rt Hin) as (Hp & Ho & Hf). rewrite Hp, Ho, Hf.
  eexists. exists (if bool_decide (rt = "pfSense") then "pfsense"
                   else if bool_decide (rt = "OpenWrt") then "openwrt" else "simulated").
  split; [done|]. split.
  { repeat case_bool_decide; by simplify_map_eq. }
  split; [done|]. intros cfg fault Hty H1 H2.
  rewrite !bool_decide_eq_false_2 in Hty by done.
  unfold NetworkFirewall.new_manager. simpl.
  apply NetworkFirewallProps.initialize_unrecognized; simpl;
    unfold NetworkFirewall.get_default; by rewrite Hty.
Qed.

Lemma detected_type_selects_adapter_witness :
  ∃ fc ty,
    get_firewall_config (detected_manager "Cisco IOS") = Some fc
    ∧ fc !! "type" = Some (JStr ty)
    ∧ ty = (if bool_decide ("Cisco IOS" = "pfSense") then "pfsense"
            else if bool_decide ("Cisco IOS" = "OpenWrt") then "openwrt" else "simulated")
    ∧ ∀ (cfg : gmap string NetworkFirewall.pyval) (fault : bool),
        cfg !! "type" = Some (NetworkFirewall.PyStr ty) →
        "Cisco IOS" ≠ "pfSense" → "Cisco IOS" ≠ "OpenWrt" →
        NetworkFirewall.firewall (NetworkFirewall.new_manager (Some cfg) fault)
        = Some NetworkFirewall.new_simulated.
Proof.
  apply (detected_type_selects_adapter (detected_manager "Cisco IOS") "Cisco IOS").
  - reflexivity.
  - reflexivity.
  - unfold detectable_types. do 5 apply list_elem_of_further. apply list_elem_of_here.
Defined.

Example firewall_config_of_openwrt :
  get_firewall_config (detected_manager "OpenWrt")
  = Some {[ "type" := JStr "openwrt"; "host" := JStr "192.168.1.1";
            "username" := JStr "admin"; "password" := JStr "secret";
            "port" := JNum 22 ]}.
Proof. vm_compute. done. Qed.

End ConfigReaders.

(* ===================================================================== *)
(** * Further properties of the firewall layer                            *)
(* ===================================================================== *)

Module NetworkFirewallExtra.
Import PyStr NetworkFirewall FirewallInfo FirewallSamples AdapterSamples.
Set Warnings "-clear-no-such-hyp".

Lemma new_manager_config cfg fault : config (new_manager cfg fault) = default ∅ cfg.
Proof.
  unfold new_manager, _initialize_firewall.
  by destruct (select_adapter _ _ _) as [[a ty]|].
Qed.

(** X22: the info of a constructed manager is always marked
    available, shows [***] for every config value whose key contains
    [password] or [key] (so for [password] and [api_key]), and shows
    every other value as it is. *)
Theorem firewall_info_hides_secrets (cfg : option (gmap string pyval)) (fault : bool)
    (k : string) :
  let info := get_firewall_info (new_manager cfg fault) in
  available info = true
  ∧ info_config info !! k
    = (λ v, if is_secret_key k then PyStr "***" else v) <$> (default ∅ cfg !! k)
  ∧ is_secret_key "password" = true
  ∧ is_secret_key "api_key" = true.
Proof.
  intros info. subst info. unfold get_firewall_info. simpl. split_and!; [| |done..].
  - apply bool_decide_eq_true. apply NetworkFirewallProps.initialize_installs.
  - rewrite map_lookup_imap, new_manager_config.
    by destruct (default ∅ cfg !! k).
Qed.

Example info_of_secret_config :
  info_config (get_firewall_info (new_manager (Some secret_config) false))
  = {[ "type" := PyStr "fortigate"; "host" := PyStr "10.0.0.1";
       "api_key" := PyStr "***"; "password" := PyStr "***" ]}.
Proof. vm_compute. reflexivity. Qed.

(** *** The simulated adapter *)

Lemma is_str_eq v s : is_str v s = true ↔ v = PyStr s.
Proof.
  destruct v; simpl; try (split; [done|by intros [=]]).
  rewrite String.eqb_eq. split; [by intros ->|by intros [= ->]].
Qed.

Lemma same_target_iff device_ip dom rule :
  same_target device_ip dom rule = true
  ↔ (get rule "device_ip", get rule "domain") = (PyStr device_ip, PyStr dom).
Proof.
  unfold same_target. rewrite andb_true_iff, !is_str_eq.
  split; [by intros [-> ->]|by intros [= -> ->]].
Qed.




Lemma pop_first_app_new device_ip dom rules rule :
  existsb (same_target device_ip dom) rules = false →
  same_target device_ip dom rule = true →
  pop_first device_ip dom (rules ++ [rule]) = Some rules.
Proof.
  intros Hex Hnew. induction rules as [|r rest IH]; simpl in *.
  - by rewrite Hnew.
  - apply orb_false_iff in Hex as [Hr Hrest]. rewrite Hr, (IH Hrest). done.
Qed.



(** X24: on the simulated adapter, a block that succeeds for a pair
    without a rule, followed by an unblock of the same pair, succeeds
    and gives the rule list back; only the counter has moved on, so the
    id is not used again. *)
Theorem simulated_block_then_unblock (rules : list (gmap string pyval)) (rule_counter : nat)
    (device_ip dom rule_name rule_name' : string) (w : OfflineWorld) :
  existsb (same_target device_ip dom) rules = false →
  draws w (drawn w) = true →
  let blocked := offline_block_domain (SimulatedFirewall rules rule_counter)
                   device_ip dom rule_name w in
  let unblocked := offline_unblock_domain blocked.1.2 device_ip dom rule_name' blocked.2 in
  blocked.1.1.1.1 = true
  ∧ unblocked.1.1
    = (true, "Domain " +:+ dom +:+ " successfully unblocked for " +:+ device_ip)
  ∧ unblocked.1.2 = SimulatedFirewall rules (rule_counter + 1).
Proof.
  intros Hex Hd blocked unblocked. subst unblocked blocked. simpl. rewrite Hex, Hd. simpl.
  rewrite pop_first_app_new; [done..|]. by apply same_target_iff.
Qed.

Lemma simulated_block_then_unblock_witness :
  let blocked := offline_block_domain new_simulated "192.168.1.50" "example.com" "r1"
                   lucky_world in
  let unblocked := offline_unblock_domain blocked.1.2 "192.168.1.50" "example.com" "r2"
                     blocked.2 in
  blocked.1.1.1.1 = true
  ∧ unblocked.1.1
    = (true, "Domain " +:+ "example.com" +:+ " successfully unblocked for "
               +:+ "192.168.1.50")
  ∧ unblocked.1.2 = SimulatedFirewall [] (1 + 1).
Proof.
  apply (simulated_block_then_unblock [] 1 "192.168.1.50" "example.com" "r1" "r2"
           lucky_world); reflexivity.
Defined.

Lemma block_success_form rules rule_counter device_ip dom rule_name w :
  (offline_block_domain (SimulatedFirewall rules rule_counter)
     device_ip dom rule_name w).1.1.1.1 = true →
  ∃ rule, (offline_block_domain (SimulatedFirewall rules rule_counter)
             device_ip dom rule_name w).1.2
          = SimulatedFirewall (rules ++ [rule]) (rule_counter + 1)
          ∧ same_target device_ip dom rule = true.
Proof.
  simpl. destruct (existsb (same_target device_ip dom) rules); [done|].
  destruct (draws w (drawn w)); [|done]. simpl. intros _.
  eexists. split; [done|]. by apply same_target_iff.
Qed.

(** X25: after a block that succeeded on the simulated adapter, a
    second block of the same pair is refused as already blocked; the
    adapter is unchanged and no random draw is used. *)
Theorem simulated_second_block_refused (rules : list (gmap string pyval))
    (rule_counter : nat) (device_ip dom rule_name rule_name' : string) (w : OfflineWorld) :
  let first := offline_block_domain (SimulatedFirewall rules rule_counter)
                 device_ip dom rule_name w in
  first.1.1.1.1 = true →
  offline_block_domain first.1.2 device_ip dom rule_name' first.2
  = ((false, "Domain " +:+ dom +:+ " already blocked for " +:+ device_ip, None),
     first.1.2, first.2).
Proof.
  intros first Hok. destruct (block_success_form _ _ _ _ _ _ Hok) as (rule & Ha & Hnew).
  fold first in Ha. rewrite Ha. unfold offline_block_domain.
  rewrite existsb_app. simpl. by rewrite Hnew, orb_true_r.
Qed.

Lemma simulated_second_block_refused_witness :
  offline_block_domain
    (offline_block_domain new_simulated "192.168.1.50" "example.com" "r1" lucky_world).1.2
    "192.168.1.50" "example.com" "r2"
    (offline_block_domain new_simulated "192.168.1.50" "example.com" "r1" lucky_world).2
  = ((false, "Domain " +:+ "example.com" +:+ " already blocked for " +:+ "192.168.1.50",
      None),
     (offline_block_domain new_simulated "192.168.1.50" "example.com" "r1" lucky_world).1.2,
     (offline_block_domain new_simulated "192.168.1.50" "example.com" "r1" lucky_world).2).
Proof.
  apply (simulated_second_block_refused [] 1 "192.168.1.50" "example.com" "r1" "r2"
           lucky_world).
  reflexivity.
Defined.

End NetworkFirewallExtra.

(* ===================================================================== *)
(** * Properties of the OpenWrt adapter                                   *)
(* ===================================================================== *)

Module OpenWrtProps.
Import PyStr OpenWrt AdapterSamples.

Ltac eff_unfold :=
  unfold mbind, mret, eff_bind, eff_ret, ask, emit in *; simpl in *.

(** Unfold the monad without computing on the command tables. *)
Ltac eff_step :=
  unfold mbind, mret, eff_bind, eff_ret, ask, emit; cbv beta iota.

(** The checked loop leaves at the first command with a non-zero exit
    status, after the commands before it ran with status 0. *)
Lemma run_checked_first_failure w pre c post code err t :
  (∀ i cmd, pre !! i = Some cmd →
            ∃ e, ow_exec w (t ++ (EvExec <$> take i pre)) cmd = ExecExit 0 e) →
  ow_exec w (t ++ (EvExec <$> pre)) c = ExecExit code err →
  code ≠ 0%Z →
  run_checked w (pre ++ c :: post) t = (Failed c err, t ++ (EvExec <$> pre) ++ [EvExec c]).
Proof.
  revert t. induction pre as [|p pre IH]; intros t Hpre Hc Hne; simpl.
  - simpl in Hc. rewrite app_nil_r in Hc. eff_unfold. rewrite Hc.
    apply Z.eqb_neq in Hne. by rewrite Hne.
  - destruct (Hpre 0 p eq_refl) as [e He]. simpl in He. rewrite app_nil_r in He.
    eff_unfold. rewrite He. simpl.
    rewrite (IH (t ++ [EvExec p])).
    + by rewrite <- app_assoc.
    + intros i cmd Hi. destruct (Hpre (S i) cmd Hi) as [e' He']. exists e'.
      simpl in He'. by rewrite <- app_assoc.
    + by rewrite <- app_assoc.
    + done.
Qed.

(** When the checked loop runs to its end, every command was sent. *)
Lemma run_checked_all_ran w cmds t :
  (run_checked w cmds t).1 = AllRan →
  (run_checked w cmds t).2 = t ++ (EvExec <$> cmds).
Proof.
  revert t. induction cmds as [|c rest IH]; intros t; simpl.
  - by rewrite app_nil_r.
  - eff_unfold. destruct (ow_exec w t c) as [msg|code err]; [done|].
    destruct (code =? 0)%Z; simpl; [|done].
    intros Hr. rewrite (IH _ Hr), <- app_assoc. done.
Qed.

(** The unchecked loop sends every command when none raises. *)
Lemma run_unchecked_all w cmds t :
  (∀ t' c, ∃ code e, ow_exec w t' c = ExecExit code e) →
  run_unchecked w cmds t = (AllRan, t ++ (EvExec <$> cmds)).
Proof.
  intros Hno. revert t. induction cmds as [|c rest IH]; intros t; simpl.
  - by rewrite app_nil_r.
  - eff_unfold. destruct (Hno t c) as (code & e & ->). rewrite IH, <- app_assoc. done.
Qed.

(** X26: [block_domain] of the OpenWrt adapter stops at the first
    command that exits with a non-zero status: the commands before it
    ran, the session is closed, the failure names that command with its
    stderr text, and neither the remaining commands nor any command
    undoing the earlier ones is sent. *)
Theorem block_stops_at_first_failure (w : World) (device_ip dom rule_name : string)
    (t : list Event) (pre post : list string) (c : string) (code : Z) (err : string) :
  ow_connect w t = true →
  block_commands device_ip dom = pre ++ c :: post →
  (∀ i cmd, pre !! i = Some cmd →
            ∃ e, ow_exec w (t ++ EvConnect :: (EvExec <$> take i pre)) cmd = ExecExit 0 e) →
  ow_exec w (t ++ EvConnect :: (EvExec <$> pre)) c = ExecExit code err →
  code ≠ 0%Z →
  block_domain w device_ip dom rule_name t
  = ((false, "Command failed: " +:+ c +:+ " - " +:+ err, None),
     t ++ EvConnect :: (EvExec <$> pre) ++ [EvExec c; EvClose]).
Proof.
  intros Hcon Htab Hpre Hc Hne. unfold block_domain, _connect_ssh. eff_step.
  rewrite Hcon, Htab. cbn [negb].
  rewrite (run_checked_first_failure w pre c post code err (t ++ [EvConnect])).
  - cbv beta iota. rewrite <- !app_assoc. done.
  - intros i cmd Hi. destruct (Hpre i cmd Hi) as [e He]. exists e.
    by rewrite <- app_assoc.
  - by rewrite <- app_assoc.
  - done.
Qed.

Lemma block_stops_at_first_failure_witness :
  block_domain dnsmasq_broken "192.168.1.50" "example.com" "r1" []
  = ((false, "Command failed: " +:+ "/etc/init.d/dnsmasq restart" +:+ " - "
             +:+ "dnsmasq: failed to start", None),
     [] ++ EvConnect
        :: (EvExec <$> [ "echo 'address=/example.com/127.0.0.1' >> /etc/dnsmasq.conf";
                         "iptables -I FORWARD -s 192.168.1.50 -m string --string 'example.com' --algo bm -j DROP" ])
        ++ [EvExec "/etc/init.d/dnsmasq restart"; EvClose]).
Proof.
  apply (block_stops_at_first_failure dnsmasq_broken "192.168.1.50" "example.com" "r1" []
           [ "echo 'address=/example.com/127.0.0.1' >> /etc/dnsmasq.conf";
             "iptables -I FORWARD -s 192.168.1.50 -m string --string 'example.com' --algo bm -j DROP" ]
           [ "/etc/init.d/firewall restart" ]
           "/etc/init.d/dnsmasq restart" 1 "dnsmasq: failed to start").
  - reflexivity.
  - reflexivity.
  - intros [|[|i]] cmd Hi; simpl in Hi;
      [injection Hi as <-; exists ""; reflexivity..|discriminate].
  - reflexivity.
  - discriminate.
Defined.

(** When [block_domain] of the OpenWrt adapter reports success,
    all four commands were sent in order, the session was closed last,
    and the returned rule is the iptables command. *)
Lemma block_success_ran_all_commands (w : World) (device_ip dom rule_name : string)
    (t : list Event) :
  (block_domain w device_ip dom rule_name t).1.1.1 = true →
  (block_domain w device_ip dom rule_name t).2
  = t ++ EvConnect :: (EvExec <$> block_commands device_ip dom) ++ [EvClose]
  ∧ (block_domain w device_ip dom rule_name t).1.2 = block_commands device_ip dom !! 1.
Proof.
  unfold block_domain, _connect_ssh. eff_step.
  destruct (ow_connect w t); cbn [negb]; [|done].
  pose proof (run_checked_all_ran w (block_commands device_ip dom) (t ++ [EvConnect])) as Hall.
  destruct (run_checked w (block_commands device_ip dom) (t ++ [EvConnect])) as [[| |] t1];
    cbn [fst snd] in *; [|done..].
  intros _. rewrite (Hall eq_refl). rewrite <- !app_assoc. done.
Qed.

Lemma block_success_ran_all_commands_witness :
  (block_domain {| ow_connect := λ _, true; ow_exec := λ _ _, ExecExit 0 "" |}
     "192.168.1.50" "example.com" "r1" []).2
  = [] ++ EvConnect :: (EvExec <$> block_commands "192.168.1.50" "example.com") ++ [EvClose]
  ∧ (block_domain {| ow_connect := λ _, true; ow_exec := λ _ _, ExecExit 0 "" |}
       "192.168.1.50" "example.com" "r1" []).1.2
    = block_commands "192.168.1.50" "example.com" !! 1.
Proof.
  apply (block_success_ran_all_commands
           {| ow_connect := λ _, true; ow_exec := λ _ _, ExecExit 0 "" |}
           "192.168.1.50" "example.com" "r1" []).
  reflexivity.
Defined.

(** X27: [unblock_domain] of the OpenWrt adapter does not read exit
    statuses: once connected, and as long as no command raises, it sends
    its three commands, closes the session and reports success, also
    when every command failed on the router. *)
Theorem unblock_ignores_exit_status (w : World) (device_ip dom rule_name : string)
    (t : list Event) :
  ow_connect w t = true →
  (∀ t' c, ∃ code e, ow_exec w t' c = ExecExit code e) →
  unblock_domain w device_ip dom rule_name t
  = ((true, "Domain " +:+ dom +:+ " unblocked for " +:+ device_ip),
     t ++ EvConnect :: (EvExec <$> unblock_commands device_ip dom) ++ [EvClose]).
Proof.
  intros Hcon Hno. unfold unblock_domain, _connect_ssh. eff_step. rewrite Hcon. cbn [negb].
  rewrite (run_unchecked_all w _ _ Hno). cbv beta iota. rewrite <- !app_assoc. done.
Qed.

Lemma unblock_ignores_exit_status_witness :
  unblock_domain all_failing "192.168.1.50" "example.com" "r1" []
  = ((true, "Domain " +:+ "example.com" +:+ " unblocked for " +:+ "192.168.1.50"),
     [] ++ EvConnect :: (EvExec <$> unblock_commands "192.168.1.50" "example.com")
        ++ [EvClose]).
Proof.
  apply (unblock_ignores_exit_status all_failing "192.168.1.50" "example.com" "r1" []).
  - reflexivity.
  - intros t' c. exists 2%Z, "error". reflexivity.
Defined.

End OpenWrtProps.

(* ===================================================================== *)
(** * Properties of the simulated backend                                 *)
(* ===================================================================== *)

Module MockDiscoveryProps.
Import PyStr MockDiscovery MockSamples.
Set Warnings "-clear-no-such-hyp".

Ltac eff_unfold :=
  unfold mbind, mret, eff_bind, eff_ret, ask, emit in *; simpl in *.

Example formats :
  hex2 5 = "05" ∧ hex2 255 = "FF" ∧ pad3 7 = "007" ∧ pad3 1234 = "1234"
  ∧ replace "{id}" (pad3 7) "LAPTOP-{id}" = "LAPTOP-007".
Proof. vm_compute. done. Qed.

(** *** The dict *)

Lemma dict_set_keys key value d :
  (dict_set key value d).*1 = if bool_decide (key ∈ d.*1) then d.*1 else d.*1 ++ [key].
Proof.
  induction d as [|[k v] rest IH].
  - rewrite bool_decide_eq_false_2 by apply not_elem_of_nil. done.
  - cbn [dict_set]. destruct (String.eqb k key) eqn:Hk.
    + apply String.eqb_eq in Hk. subst k. rewrite !fmap_cons.
      rewrite bool_decide_eq_true_2 by apply list_elem_of_here. done.
    + apply String.eqb_neq in Hk. rewrite !fmap_cons, IH. cbn [fst].
      destruct (decide (key ∈ rest.*1)) as [Hin|Hin].
      * rewrite !bool_decide_eq_true_2; [done| |done]. by apply list_elem_of_further.
      * rewrite !bool_decide_eq_false_2; [done| |done].
        intros Hc. apply elem_of_cons in Hc as [Hc|Hc]; [by subst|done].
Qed.

Lemma dict_set_length key value d :
  (length d ≤ length (dict_set key value d) ≤ S (length d))%nat.
Proof.
  rewrite <- (length_fmap fst (dict_set key value d)), dict_set_keys, <- (length_fmap fst d).
  destruct (bool_decide _); [lia|]. rewrite length_app. simpl. lia.
Qed.

Lemma dict_set_elem key value d e :
  e ∈ dict_set key value d → e = (key, value) ∨ e ∈ d.
Proof.
  induction d as [|[k v] rest IH]; simpl.
  - intros H. apply list_elem_of_singleton in H. by left.
  - destruct (String.eqb k key) eqn:Hk.
    + apply String.eqb_eq in Hk. subst k. intros H.
      apply elem_of_cons in H as [->|H]; [by left|]. right. by apply list_elem_of_further.
    + intros H. apply elem_of_cons in H as [->|H]; [right; apply list_elem_of_here|].
      destruct (IH H) as [->|Hr]; [by left|]. right. by apply list_elem_of_further.
Qed.

Lemma dict_set_ok key value d :
  mac value = key → (status value = "Active" ∨ status value = "Offline") →
  population_ok d → population_ok (dict_set key value d).
Proof.
  intros Hm Hs [Hnd Hall]. split.
  - rewrite dict_set_keys. destruct (bool_decide (key ∈ d.*1)) eqn:Hin; [done|].
    apply bool_decide_eq_false in Hin. apply NoDup_app. split_and!; [done| |apply NoDup_singleton].
    intros x Hx Hx'. apply list_elem_of_singleton in Hx'. by subst.
  - apply Forall_forall. intros e He. apply dict_set_elem in He as [->|He]; [done|].
    rewrite Forall_forall in Hall. by apply Hall.
Qed.

(** *** Creation and simulation *)

Lemma create_is_active w template device_id t :
  status (create_mock_device w template device_id t).1 = "Active".
Proof.
  unfold create_mock_device, generate_mac_address, generate_ip_address, random_below,
    randint, choice, now. eff_unfold. by destruct (_ <? _)%N.
Qed.

Lemma simulate_one_spec w device t :
  same_identity device (simulate_one w device t).1.1
  ∧ (status (simulate_one w device t).1.1 = status device
     ∨ status (simulate_one w device t).1.1 = "Active"
     ∨ status (simulate_one w device t).1.1 = "Offline").
Proof.
  unfold simulate_one, generate_ip_address, random_below, randint, choice, now, same_identity.
  eff_unfold. destruct (_ <? below_0_15)%N; simpl; [by auto 10|].
  destruct (_ <? below_0_05)%N; simpl; [by auto 10|].
  destruct (String.eqb (status device) "Offline"); simpl; [|by auto 10].
  destruct (_ <? below_0_8)%N; simpl; by auto 10.
Qed.

Lemma simulate_changes_spec w devices t :
  Forall2 (λ e e', e'.1 = e.1
                   ∧ same_identity e.2 e'.2
                   ∧ (status e'.2 = status e.2 ∨ status e'.2 = "Active"
                      ∨ status e'.2 = "Offline"))
    devices (simulate_device_changes w devices t).1.1.
Proof.
  revert t. induction devices as [|[k d] rest IH]; intros t; simpl.
  - constructor.
  - unfold mbind, eff_bind. pose proof (simulate_one_spec w d t) as Hone.
    destruct (simulate_one w d t) as [[d' change] t1]. simpl in Hone.
    pose proof (IH t1) as Hf.
    destruct (simulate_device_changes w rest t1) as [[rest' changes] t2]. simpl in *.
    constructor; [|done]. simpl. by destruct Hone.
Qed.

Lemma simulate_changes_keys w devices t :
  (simulate_device_changes w devices t).1.1.*1 = devices.*1.
Proof.
  pose proof (simulate_changes_spec w devices t) as Hf.
  induction Hf as [|e e' l1 l2 He Hf IH]; [done|].
  destruct He as (Hk & _). rewrite !fmap_cons. by rewrite Hk, IH.
Qed.

Lemma simulate_changes_ok w devices t :
  population_ok devices → population_ok (simulate_device_changes w devices t).1.1.
Proof.
  intros [Hnd Hall]. split; [by rewrite simulate_changes_keys|].
  pose proof (simulate_changes_spec w devices t) as Hf. clear Hnd.
  induction Hf as [|e e' l1 l2 He Hf IH]; [constructor|].
  destruct He as (Hk & Hid & Hst).
  apply Forall_cons in Hall as [[Hm Hs] Hall].
  constructor; [|by apply IH].
  destruct Hid as (Hmac & _). split; [congruence|].
  destruct Hst as [-> | [-> | ->]]; auto.
Qed.

Lemma initialize_spec w templates i devices t :
  population_ok devices →
  population_ok (initialize w templates i devices t).1
  ∧ (length (initialize w templates i devices t).1 ≤ length devices + length templates)%nat.
Proof.
  revert i devices t. induction templates as [|tpl rest IH]; intros i devices t Hok; simpl.
  - split; [done|lia].
  - unfold mbind, eff_bind. pose proof (create_is_active w tpl (i + 1) t) as Hact.
    destruct (create_mock_device w tpl (i + 1) t) as [device t1]. simpl in Hact.
    destruct (IH (S i) (dict_set (mac device) device devices) t1) as [Hok' Hlen].
    { apply dict_set_ok; auto. }
    split; [done|]. pose proof (dict_set_length (mac device) device devices). lia.
Qed.

Lemma add_new_spec w devices t :
  population_ok devices → (length devices ≤ 25)%nat →
  population_ok (add_new_devices w devices t).1.1
  ∧ (length devices ≤ length (add_new_devices w devices t).1.1 ≤ 25)%nat
  ∧ devices.*1 ⊆ (add_new_devices w devices t).1.1.*1.
Proof.
  intros Hok Hlen. unfold add_new_devices, random_below. eff_unfold.
  destruct (_ <? below_0_1)%N; simpl; [|split_and!; [done|lia|lia|done]].
  destruct (length devices <? 25)%nat eqn:Hlt; simpl; [|split_and!; [done|lia|lia|done]].
  apply Nat.ltb_lt in Hlt. unfold choice. eff_unfold.
  match goal with |- context [create_mock_device w ?tpl ?n ?t'] =>
    pose proof (create_is_active w tpl n t') as Hact;
    destruct (create_mock_device w tpl n t') as [device t1] end.
  simpl in *. pose proof (dict_set_length (mac device) device devices).
  split_and!; [apply dict_set_ok; auto|lia|lia|].
  rewrite dict_set_keys. destruct (bool_decide _); set_solver.
Qed.

Lemma perform_mock_scan_population w devices t :
  (perform_mock_scan w devices t).1.1
  = (add_new_devices w
       (simulate_device_changes w (scan_start w devices t).1 (scan_start w devices t).2).1.1
       (simulate_device_changes w (scan_start w devices t).1 (scan_start w devices t).2).2).1.1.
Proof.
  unfold perform_mock_scan, mbind, eff_bind.
  destruct (scan_start w devices t) as [d0 t0]. cbn [fst snd].
  destruct (simulate_device_changes w d0 t0) as [[d1 changes] t1]. cbn [fst snd].
  by destruct (add_new_devices w d1 t1) as [[d2 new_device] t2].
Qed.

Lemma scan_start_spec w devices t :
  population_ok devices → (length devices ≤ 25)%nat →
  population_ok (scan_start w devices t).1
  ∧ (length (scan_start w devices t).1 ≤ 25)%nat
  ∧ devices.*1 ⊆ (scan_start w devices t).1.*1
  ∧ (devices ≠ [] → (scan_start w devices t).1 = devices).
Proof.
  intros Hok Hlen. unfold scan_start. destruct devices as [|e rest].
  - destruct (initialize_spec w (take 8 device_templates) 0 [] t Hok) as [Hi Hl].
    assert (Hl8 : length (take 8 device_templates) = 8) by reflexivity.
    rewrite Hl8 in Hl. change (length (@nil (string * MockDevice))) with 0 in Hl.
    split_and!; [done|lia|set_solver|done].
  - split_and!; done.
Qed.

Lemma add_new_grows_by_one w devices t :
  (length (add_new_devices w devices t).1.1 ≤ S (length devices))%nat.
Proof.
  unfold add_new_devices, random_below. eff_unfold.
  destruct (_ <? below_0_1)%N; simpl; [|lia].
  destruct (length devices <? 25)%nat; simpl; [|lia]. unfold choice. eff_unfold.
  match goal with |- context [create_mock_device w ?tpl ?n ?t'] =>
    destruct (create_mock_device w tpl n t') as [device t2] end.
  simpl. pose proof (dict_set_length (mac device) device devices). lia.
Qed.

Lemma scan_invariants w devices t :
  population_ok devices →
  (length devices ≤ 25)%nat →
  population_ok (perform_mock_scan w devices t).1.1
  ∧ (length (perform_mock_scan w devices t).1.1 ≤ 25)%nat
  ∧ devices.*1 ⊆ (perform_mock_scan w devices t).1.1.*1
  ∧ (devices ≠ [] →
     (length devices ≤ length (perform_mock_scan w devices t).1.1 ≤ S (length devices))%nat).
Proof.
  intros Hok Hlen. rewrite perform_mock_scan_population.
  destruct (scan_start_spec w devices t Hok Hlen) as (Hok0 & Hlen0 & Hsub0 & Hsame).
  destruct (scan_start w devices t) as [d0 t0]. cbn [fst snd] in *.
  pose proof (simulate_changes_ok w d0 t0 Hok0) as Hok1.
  pose proof (simulate_changes_keys w d0 t0) as Hk1.
  destruct (simulate_device_changes w d0 t0) as [[d1 changes] t1]. cbn [fst snd] in *.
  assert (Hlen1 : length d1 = length d0).
  { by rewrite <- (length_fmap fst d1), Hk1, length_fmap. }
  destruct (add_new_spec w d1 t1 Hok1 ltac:(lia)) as (Hok2 & Hlen2 & Hsub2).
  pose proof (add_new_grows_by_one w d1 t1) as Hgrow.
  split_and!; [done|lia| |].
  - rewrite <- Hk1 in Hsub0. set_solver.
  - intros Hne. rewrite (Hsame Hne) in *. lia.
Qed.

(** X28: a scan of the simulated backend keeps the population in
    order: at most 25 devices when it had at most 25, every device under
    its own MAC, no MAC twice, every status [Active] or [Offline]; a
    non-empty population never loses a MAC and grows by at most one
    device. *)
Theorem mock_scan_keeps_population (w : Rng) (devices : list (string * MockDevice))
    (t : list Event) :
  population_ok devices →
  (length devices ≤ 25)%nat →
  let after := (perform_mock_scan w devices t).1.1 in
  population_ok after
  ∧ (length after ≤ 25)%nat
  ∧ devices.*1 ⊆ after.*1
  ∧ (devices ≠ [] → (length devices ≤ length after ≤ S (length devices))%nat).
Proof. intros Hok Hlen after. subst after. by apply scan_invariants. Qed.

(** A scan of the two-device population: both MACs are kept, and the
    population has two or three devices afterwards. *)
Lemma mock_scan_keeps_population_witness :
  let after := (perform_mock_scan counting_rng small_office []).1.1 in
  population_ok after
  ∧ (length after ≤ 25)%nat
  ∧ small_office.*1 ⊆ after.*1
  ∧ (2 ≤ length after ≤ 3)%nat.
Proof.
  destruct (mock_scan_keeps_population counting_rng small_office [])
    as (Hok & Hlen & Hsub & Hgrow).
  - split; [by apply (bool_decide_unpack _); vm_compute |].
    repeat first [ apply Forall_nil_2
                 | apply Forall_cons_2; [split; [reflexivity | (by left) || (by right)] | ] ].
  - simpl. lia.
  - split_and!; [exact Hok | exact Hlen | exact Hsub | |];
      apply Hgrow; discriminate.
Defined.

(** On that population the scan moves both addresses, keeps the printer
    offline and adds a third device. *)
Example scan_of_small_office :
  let r := (perform_mock_scan counting_rng small_office []).1 in
  r.1.*1 = ["00:1B:44:0A:0B:0C"; "00:26:B9:01:02:03"; "E8:DE:27:56:45:34"]
  ∧ status <$> r.1.*2 = ["Active"; "Offline"; "Active"]
  ∧ mac <$> r.2 = ["00:1B:44:0A:0B:0C"; "E8:DE:27:56:45:34"].
Proof. vm_compute. done. Qed.

(** X29: [simulate_device_changes] keeps every device under its key,
    in the same order, and changes nothing but address, [last_seen] and
    status: MAC, hostname, vendor, type, tag, ports, OS and
    [first_seen] stay; it reports at most one change per device. *)
Theorem simulation_keeps_identity (w : Rng) (devices : list (string * MockDevice))
    (t : list Event) :
  let r := (simulate_device_changes w devices t).1 in
  r.1.*1 = devices.*1
  ∧ Forall2 (λ e e', same_identity e.2 e'.2) devices r.1
  ∧ (length r.2 ≤ length devices)%nat.
Proof.
  intros r. subst r. split; [apply simulate_changes_keys|]. split.
  - eapply Forall2_impl; [apply simulate_changes_spec|]. by intros e e' (_ & Hid & _).
  - revert t. induction devices as [|[k d] rest IH]; intros t; simpl; [lia|].
    unfold mbind, eff_bind. destruct (simulate_one w d t) as [[d' change] t1].
    specialize (IH t1).
    destruct (simulate_device_changes w rest t1) as [[rest' changes] t2]. simpl in *.
    destruct change; simpl; lia.
Qed.

Lemma count_by_status (devices : list (string * MockDevice)) :
  Forall (λ e, status e.2 = "Active" ∨ status e.2 = "Offline") devices →
  length devices
  = length (filter (λ e, is_active e = true) devices)
    + length (filter (λ e, status e.2 = "Offline") devices).
Proof.
  induction 1 as [|e l He Hl IH]; [done|].
  rewrite !filter_cons.
  assert (Ha : is_active e = true ↔ status e.2 = "Active").
  { unfold is_active. apply String.eqb_eq. }
  repeat case_decide; simpl; rewrite ?IH; try lia.
  - apply Ha in H. congruence.
  - destruct He as [He|He]; [by apply Ha in He|done].
Qed.

(** X30: after a scan of a population in order, the scan returns
    exactly the devices whose status is [Active], and the summary adds
    up: [offline_devices], computed as total minus active, is the number
    of devices whose status is [Offline]. *)
Theorem mock_scan_returns_active (w : Rng) (devices : list (string * MockDevice))
    (t : list Event) :
  population_ok devices →
  (length devices ≤ 25)%nat →
  let r := (perform_mock_scan w devices t).1 in
  Forall (λ d, status d = "Active") r.2
  ∧ get_device_summary r.1
    = (length r.1, length r.2, length (filter (λ e, status e.2 = "Offline") r.1)).
Proof.
  intros Hok Hlen r.
  destruct (scan_invariants w devices t Hok Hlen) as ([_ Hall] & _). fold r in Hall.
  assert (Hr : r.2 = snd <$> filter (λ e, is_active e = true) r.1).
  { subst r. unfold perform_mock_scan, mbind, eff_bind.
    destruct (scan_start w devices t) as [d0 t0].
    destruct (simulate_device_changes w d0 t0) as [[d1 changes] t1].
    by destruct (add_new_devices w d1 t1) as [[d2 new_device] t2]. }
  split.
  - rewrite Hr. apply Forall_fmap, Forall_forall. intros e He.
    apply list_elem_of_filter in He as [He _]. unfold is_active in He.
    by apply String.eqb_eq in He.
  - unfold get_device_summary. rewrite Hr, length_fmap.
    assert (Hst : Forall (λ e, status e.2 = "Active" ∨ status e.2 = "Offline") r.1).
    { eapply Forall_impl; [exact Hall|]. by intros e [_ ?]. }
    rewrite (count_by_status r.1 Hst) at 2. do 2 f_equal. lia.
Qed.

Lemma mock_scan_returns_active_witness :
  let r := (perform_mock_scan counting_rng [] []).1 in
  Forall (λ d, status d = "Active") r.2
  ∧ get_device_summary r.1
    = (length r.1, length r.2, length (filter (λ e, status e.2 = "Offline") r.1)).
Proof.
  apply (mock_scan_returns_active counting_rng [] []).
  - split; [apply NoDup_nil_2 | apply Forall_nil_2].
  - simpl. lia.
Defined.

Example first_scan :
  length (perform_mock_scan counting_rng [] []).1.1 = 9
  ∧ (hostname <$> (perform_mock_scan counting_rng [] []).1.2)
    = [ "LAPTOP-001"; "DESKTOP-002"; "IOT-SENSOR-003"; "PRINTER-004"; "CAMERA-005";
        "PHONE-006"; "SERVER-007"; "TABLET-008"; "PHONE-009" ].
Proof. vm_compute. done. Qed.

End MockDiscoveryProps.
